(** * SMS AI assistant: authorization, stores, outbox queue, provider
      adapter and message processor, embedded from the Python sources.

    Python [str] values are modelled by [string]: a sequence of 8-bit
    characters standing for the code points below 256.  On that range
    [str.strip] removes the characters of [isspace] below and the regular
    expression class [\d] matches exactly the ten ASCII digits.

    Every table of the SQLite schema is a list of rows in rowid order.
    Effects (database, clock, provider calls, sleeps) are threaded
    explicitly through a world value. *)

From stdpp Require Import base decidable option list sorting gmap strings.
From Stdlib Require Import ZArith Ascii String Lia.

Open Scope string_scope.
Open Scope Z_scope.
Open Scope list_scope.

(** ** Python helpers *)

Module Py.

(** Characters removed by [str.strip()] (code points below 256):
    TAB, LF, VT, FF, CR, FS, GS, RS, US, SPACE, NEL, NBSP. *)
Definition isspace (c : ascii) : bool :=
  let n := N_of_ascii c in
  ((9 <=? n) && (n <=? 13) || (28 <=? n) && (n <=? 32)
   || (n =? 133) || (n =? 160))%N.

(** Characters matched by [\d] (code points below 256). *)
Definition isdigit (c : ascii) : bool :=
  let n := N_of_ascii c in ((48 <=? n) && (n <=? 57))%N.

Fixpoint lstrip (s : string) : string :=
  match s with
  | EmptyString => EmptyString
  | String c s' => if isspace c then lstrip s' else s
  end.

Fixpoint rstrip (s : string) : string :=
  match s with
  | EmptyString => EmptyString
  | String c s' =>
      match rstrip s' with
      | EmptyString => if isspace c then EmptyString else String c EmptyString
      | r => String c r
      end
  end.

(** [s.strip()] *)
Definition strip (s : string) : string := lstrip (rstrip s).

(** [re.sub(r"[^\d]", "", s)]: delete every character that is not a digit. *)
Fixpoint sub_non_digits (s : string) : string :=
  match s with
  | EmptyString => EmptyString
  | String c s' =>
      if isdigit c then String c (sub_non_digits s') else sub_non_digits s'
  end.

(** Truthiness of a [str]. *)
Definition truthy (s : string) : bool :=
  match s with EmptyString => false | _ => true end.

(** Truthiness of a [str | None]. *)
Definition truthy_opt (o : option string) : bool :=
  match o with Some s => truthy s | None => false end.

(** [s.split(sep)] for a one-character separator: the pieces between the
    separators, empty pieces included. *)
Fixpoint split (sep : ascii) (s : string) : list string :=
  match s with
  | EmptyString => [EmptyString]
  | String c s' =>
      if Ascii.eqb c sep then EmptyString :: split sep s'
      else
        match split sep s' with
        | piece :: pieces => String c piece :: pieces
        | [] => [String c EmptyString]
        end
  end.

(** [sep.join(pieces)] for a one-character separator. *)
Fixpoint join (sep : ascii) (pieces : list string) : string :=
  match pieces with
  | [] => EmptyString
  | [piece] => piece
  | piece :: pieces' => (piece ++ String sep (join sep pieces'))%string
  end.

End Py.

(** ** services/auth.py *)

Module Auth.

(** [AuthService._normalize] *)
Definition _normalize (phone : string) : string :=
  if negb (Py.truthy phone) then ""
  else
    let phone := Py.strip phone in
    match phone with
    | String "+" rest => String "+" (Py.sub_non_digits rest)
    | _ => Py.sub_non_digits phone
    end.

Record AuthService := {
  _allowed : gset string;
  _open_mode : bool
}.

(** [AuthService.__init__] *)
Definition __init__ (allowed_numbers : list string) : AuthService :=
  let allowed : gset string :=
    list_to_set (List.map _normalize (List.filter Py.truthy allowed_numbers)) in
  {| _allowed := allowed;
     _open_mode := bool_decide (size allowed = 0%nat) |}.

(** [AuthService.is_authorized]; the warning it logs on a rejection does
    not influence the result. *)
Definition is_authorized (self : AuthService) (phone_number : string) : bool :=
  if _open_mode self then true
  else
    let normalized := _normalize phone_number in
    bool_decide (normalized ∈ _allowed self).

End Auth.

(** ** Exceptions and the state-and-exception monad *)

(** The exception classes that matter to the handlers of the program.
    [RateLimitError], [APITimeoutError] and [APIConnectionError] are
    subclasses of [APIError]; all of them are subclasses of [Exception]. *)
Inductive Exc : Type :=
| RateLimitError
| APIError
| APITimeoutError
| APIConnectionError
| IntegrityError
| OperationalError
| IndexError
| OverflowError
| OtherException (name : string).

(** [isinstance(e, RateLimitError)] *)
Definition is_RateLimitError (e : Exc) : bool :=
  match e with RateLimitError => true | _ => false end.

(** [isinstance(e, APIError)] *)
Definition is_APIError (e : Exc) : bool :=
  match e with
  | RateLimitError | APIError | APITimeoutError | APIConnectionError => true
  | _ => false
  end.

(** A computation over a state [S] that returns a value or raises. *)
Definition M (S A : Type) : Type := S -> (Exc + A) * S.

Definition ret {S A} (a : A) : M S A := fun s => (inr a, s).

Definition raise {S A} (e : Exc) : M S A := fun s => (inl e, s).

Definition bind {S A B} (m : M S A) (k : A -> M S B) : M S B :=
  fun s =>
    match m s with
    | (inl e, s') => (inl e, s')
    | (inr a, s') => k a s'
    end.

Notation "'let*' x ':=' m 'in' k" := (bind m (fun x => k))
  (at level 10, x name, m at level 100, k at level 200).
Notation "'do' m 'then' k" := (bind m (fun _ => k))
  (at level 10, m at level 100, k at level 200).

(** ** Row types (the dataclasses of the repositories) *)

Module conversation.
Record Conversation := {
  id : Z;
  phone_number : string;
  created_at : string;
  updated_at : string
}.
End conversation.

Module message.
Record Message := {
  id : Z;
  conversation_id : Z;
  role : string;
  content : string;
  timestamp : string;
  status : string
}.
End message.

Module outbox.
Record OutboxMessage := {
  id : Z;
  phone_number : string;
  content : string;
  created_at : string;
  status : string;
  sent_at : option string
}.
End outbox.

(** ** core/database.py: the schema *)

Module database.

(** The three tables in rowid order, each with its AUTOINCREMENT
    counter (the largest rowid handed out so far). *)
Record DB := {
  conversations : list conversation.Conversation;
  conversations_seq : Z;
  messages : list message.Message;
  messages_seq : Z;
  outbox : list outbox.OutboxMessage;
  outbox_seq : Z
}.

Definition empty : DB :=
  {| conversations := []; conversations_seq := 0;
     messages := []; messages_seq := 0;
     outbox := []; outbox_seq := 0 |}.

(** [CHECK (role IN ('user', 'assistant'))] *)
Definition check_role (role : string) : bool :=
  String.eqb role "user" || String.eqb role "assistant".

(** [CHECK (status IN ('received', 'pending', 'sent', 'failed'))] *)
Definition check_message_status (status : string) : bool :=
  String.eqb status "received" || String.eqb status "pending"
  || String.eqb status "sent" || String.eqb status "failed".

(** [CHECK (status IN ('pending', 'sent', 'failed'))] *)
Definition check_outbox_status (status : string) : bool :=
  String.eqb status "pending" || String.eqb status "sent"
  || String.eqb status "failed".

(** [LIMIT ?]: a negative bound means no bound. *)
Definition sql_limit {A} (limit : Z) (rows : list A) : list A :=
  if limit <? 0 then rows else take (Z.to_nat limit) rows.

(** An INTEGER of SQLite is a signed 64-bit number.  [sqlite3] raises
    [OverflowError] when it is to bind a Python [int] outside that range
    to a parameter of a statement, before the statement runs. *)
Definition int64 (n : Z) : bool :=
  (-9223372036854775808 <=? n) && (n <=? 9223372036854775807).

(** Order of TEXT values (bytewise), used by ORDER BY on the ISO-8601
    timestamp columns. *)
Definition text_le (a b : string) : Prop := String.leb a b = true.

#[global] Instance text_le_dec a b : Decision (text_le a b).
Proof. unfold text_le. apply _. Defined.

End database.

(** ** repositories/conversation.py *)

Module ConversationRepository.
Import conversation database.

(** [SELECT ... FROM conversations WHERE phone_number = ?] with
    [fetchone]. *)
Definition find_by_phone (db : DB) (phone_number : string)
  : option Conversation :=
  List.find (fun r => String.eqb (conversation.phone_number r) phone_number)
            (conversations db).

(** [INSERT INTO conversations (phone_number, created_at, updated_at)]
    and commit; the column [phone_number] is UNIQUE.  Returns
    [cursor.lastrowid]. *)
Definition insert (db : DB) (phone_number now : string) : Exc + DB * Z :=
  if existsb (fun r => String.eqb (conversation.phone_number r) phone_number)
             (conversations db)
  then inl IntegrityError
  else
    let rowid := conversations_seq db + 1 in
    let row := {| id := rowid; conversation.phone_number := phone_number;
                  created_at := now; updated_at := now |} in
    inr ({| conversations := conversations db ++ [row];
            conversations_seq := rowid;
            messages := messages db; messages_seq := messages_seq db;
            outbox := outbox db; outbox_seq := outbox_seq db |}, rowid).

(** [find_or_create], run without interruption; [now] is the reading of
    [datetime.utcnow().isoformat()]. *)
Definition find_or_create (db : DB) (phone_number now : string)
  : Exc + DB * Conversation :=
  match find_by_phone db phone_number with
  | Some existing => inr (db, existing)
  | None =>
      match insert db phone_number now with
      | inl e => inl e
      | inr (db', lastrowid) =>
          inr (db', {| id := lastrowid;
                       conversation.phone_number := phone_number;
                       created_at := now; updated_at := now |})
      end
  end.

(** [UPDATE conversations SET updated_at = ? WHERE id = ?] *)
Definition touch (db : DB) (conversation_id : Z) (now : string) : DB :=
  {| conversations :=
       List.map (fun r =>
                   if id r =? conversation_id
                   then {| id := id r;
                           conversation.phone_number := conversation.phone_number r;
                           created_at := created_at r; updated_at := now |}
                   else r)
                (conversations db);
     conversations_seq := conversations_seq db;
     messages := messages db; messages_seq := messages_seq db;
     outbox := outbox db; outbox_seq := outbox_seq db |}.

(** [delete]: [DELETE FROM conversations WHERE phone_number = ?] and
    commit.  With foreign keys on, the messages of a deleted conversation
    go with it (ON DELETE CASCADE).  Returns [cursor.rowcount > 0], which
    counts the conversation rows. *)
Definition delete (db : DB) (phone_number : string) : DB * bool :=
  let hit r := String.eqb (conversation.phone_number r) phone_number in
  let deleted := List.filter hit (conversations db) in
  ({| conversations := List.filter (fun r => negb (hit r)) (conversations db);
      conversations_seq := conversations_seq db;
      messages :=
        List.filter
          (fun m => negb (existsb (fun c => id c =? message.conversation_id m)
                                  deleted))
          (messages db);
      messages_seq := messages_seq db;
      outbox := outbox db; outbox_seq := outbox_seq db |},
   (0 <? List.length deleted)%nat).

(** [ConversationSummary] *)
Record ConversationSummary := {
  summary_id : Z;
  summary_phone_number : string;
  last_message : option string;
  last_message_time : option string;
  last_message_role : option string;
  summary_updated_at : string
}.

(** [ORDER BY c.updated_at DESC] *)
Definition updated_at_desc (a b : Conversation) : Prop :=
  text_le (updated_at b) (updated_at a).

#[global] Instance updated_at_desc_dec a b : Decision (updated_at_desc a b).
Proof. unfold updated_at_desc. apply _. Defined.

(** The subquery of [list_all]: the message of a conversation with the
    latest timestamp ([ORDER BY timestamp DESC LIMIT 1]). *)
Definition latest_message (db : DB) (conversation_id : Z)
  : option message.Message :=
  head (merge_sort (fun a b : message.Message =>
                      text_le (message.timestamp b) (message.timestamp a))
                   (List.filter
                      (fun m => message.conversation_id m =? conversation_id)
                      (messages db))).

(** One row of the LEFT JOIN, as [list_all] turns it into a summary. *)
Definition summarize (db : DB) (c : Conversation) : ConversationSummary :=
  let m := latest_message db (id c) in
  {| summary_id := id c;
     summary_phone_number := conversation.phone_number c;
     last_message := message.content <$> m;
     last_message_time :=
       match m with
       | Some r => if Py.truthy (message.timestamp r)
                   then Some (message.timestamp r) else None
       | None => None
       end;
     last_message_role := message.role <$> m;
     summary_updated_at := updated_at c |}.

(** [LIMIT ? OFFSET ?]: a negative offset counts as zero. *)
Definition sql_limit_offset {A} (limit offset : Z) (rows : list A) : list A :=
  sql_limit limit (drop (Z.to_nat offset) rows).

(** [list_all]: the summaries of a page and the total count. *)
Definition list_all (db : DB) (limit offset : Z)
  : list ConversationSummary * nat :=
  let total := List.length (conversations db) in
  let rows := sql_limit_offset limit offset
                (merge_sort updated_at_desc (conversations db)) in
  (List.map (summarize db) rows, total).

(** *** The interleavings of concurrent [find_or_create] calls

    A call suspends at each [await]: before the SELECT of
    [find_by_phone] and, when no row was found, before the INSERT.  A
    task is the program point a call has reached. *)
Inductive Task : Type :=
| AtFind (phone_number : string)
| AtInsert (phone_number : string)
| Returned (c : Conversation)
| Raised (e : Exc).

(** One scheduling step of one call. *)
Definition step (now : string) (t : Task) (db : DB) : Task * DB :=
  match t with
  | AtFind phone_number =>
      match find_by_phone db phone_number with
      | Some existing => (Returned existing, db)
      | None => (AtInsert phone_number, db)
      end
  | AtInsert phone_number =>
      match insert db phone_number now with
      | inl e => (Raised e, db)
      | inr (db', lastrowid) =>
          (Returned {| id := lastrowid;
                       conversation.phone_number := phone_number;
                       created_at := now; updated_at := now |}, db')
      end
  | Returned _ | Raised _ => (t, db)
  end.

(** Runs a schedule: each entry names the task that takes the next step
    and the clock reading it would use. *)
Fixpoint run (schedule : list (nat * string)) (tasks : list Task) (db : DB)
  : list Task * DB :=
  match schedule with
  | [] => (tasks, db)
  | (i, now) :: schedule' =>
      match tasks !! i with
      | Some t =>
          let '(t', db') := step now t db in
          run schedule' (<[i := t']> tasks) db'
      | None => run schedule' tasks db
      end
  end.

End ConversationRepository.

(** ** repositories/message.py *)

Module MessageRepository.
Import message database.

(** [create]: INSERT INTO messages and commit.  The schema checks the
    role, the status and the foreign key to [conversations]. *)
Definition create (db : DB) (conversation_id : Z) (role content status now : string)
  : Exc + DB * Message :=
  if check_role role && check_message_status status
     && existsb (fun c => conversation.id c =? conversation_id) (conversations db)
  then
    let rowid := messages_seq db + 1 in
    let row := {| id := rowid; message.conversation_id := conversation_id;
                  message.role := role; message.content := content;
                  timestamp := now; message.status := status |} in
    inr ({| conversations := conversations db;
            conversations_seq := conversations_seq db;
            messages := messages db ++ [row]; messages_seq := rowid;
            outbox := outbox db; outbox_seq := outbox_seq db |}, row)
  else inl IntegrityError.

(** [ORDER BY timestamp DESC]: a row precedes another when its timestamp
    is at least the other's. *)
Definition timestamp_desc (a b : Message) : Prop :=
  text_le (timestamp b) (timestamp a).

#[global] Instance timestamp_desc_dec a b : Decision (timestamp_desc a b).
Proof. unfold timestamp_desc. apply _. Defined.

(** [SELECT ... WHERE conversation_id = ?] *)
Definition of_conversation (db : DB) (conversation_id : Z) : list Message :=
  List.filter (fun r => message.conversation_id r =? conversation_id)
              (messages db).

(** [get_history]: the rows of the conversation by timestamp descending,
    cut at [limit], then [reversed].  SQLite fixes no order among rows of
    equal timestamp; the model takes the one merge sort gives.  The
    timestamps stay the ISO-8601 texts the table stores. *)
Definition get_history (db : DB) (conversation_id limit : Z) : list Message :=
  let rows :=
    sql_limit limit
      (merge_sort timestamp_desc (of_conversation db conversation_id)) in
  List.rev rows.

(** [ORDER BY timestamp ASC] *)
Definition timestamp_asc (a b : Message) : Prop :=
  text_le (timestamp a) (timestamp b).

#[global] Instance timestamp_asc_dec a b : Decision (timestamp_asc a b).
Proof. unfold timestamp_asc. apply _. Defined.

(** [get_all_for_conversation] *)
Definition get_all_for_conversation (db : DB) (conversation_id : Z)
  : list Message :=
  merge_sort timestamp_asc (of_conversation db conversation_id).

(** [update_status]: [UPDATE messages SET status = ? WHERE id = ?] and
    commit; an updated row must pass the CHECK on the status column. *)
Definition update_status (db : DB) (message_id : Z) (new_status : string)
  : Exc + DB :=
  if existsb (fun r => id r =? message_id) (messages db)
     && negb (check_message_status new_status)
  then inl IntegrityError
  else
    inr {| conversations := conversations db;
           conversations_seq := conversations_seq db;
           messages :=
             List.map (fun r =>
                         if id r =? message_id
                         then {| id := id r;
                                 message.conversation_id := message.conversation_id r;
                                 message.role := message.role r;
                                 message.content := message.content r;
                                 timestamp := timestamp r;
                                 message.status := new_status |}
                         else r)
                      (messages db);
           messages_seq := messages_seq db;
           outbox := outbox db; outbox_seq := outbox_seq db |}.

End MessageRepository.

(** ** repositories/outbox.py *)

Module OutboxRepository.
Import outbox database.

(** [enqueue]: INSERT INTO outbox with status 'pending'; returns
    [cursor.lastrowid]. *)
Definition enqueue (db : DB) (phone_number content now : string) : DB * Z :=
  let rowid := outbox_seq db + 1 in
  let row := {| id := rowid; outbox.phone_number := phone_number;
                outbox.content := content; created_at := now;
                status := "pending"; sent_at := None |} in
  ({| conversations := conversations db;
      conversations_seq := conversations_seq db;
      messages := messages db; messages_seq := messages_seq db;
      outbox := outbox db ++ [row]; outbox_seq := rowid |}, rowid).

(** The WHERE clause of [acknowledge]: [id = ? AND status = 'pending']. *)
Definition ack_where (message_id : Z) (r : OutboxMessage) : bool :=
  (id r =? message_id) && String.eqb (status r) "pending".

(** The SET clause of [acknowledge]. *)
Definition ack_set (new_status : string) (now : option string)
           (r : OutboxMessage) : OutboxMessage :=
  {| id := id r; outbox.phone_number := outbox.phone_number r;
     outbox.content := outbox.content r; created_at := created_at r;
     status := new_status; sent_at := now |}.

(** [acknowledge]: the conditional UPDATE; [utcnow] is the clock reading,
    used only for status 'sent'.  Returns [cursor.rowcount > 0].  The
    message id comes from the caller as it is: [execute] raises
    [OverflowError] when it does not fit an INTEGER.  An updated row must
    pass the CHECK on the status column. *)
Definition acknowledge (db : DB) (message_id : Z) (new_status utcnow : string)
  : Exc + DB * bool :=
  let now := if String.eqb new_status "sent" then Some utcnow else None in
  let rowcount := List.length (List.filter (ack_where message_id) (outbox db)) in
  if negb (int64 message_id) then inl OverflowError
  else if (0 <? rowcount)%nat && negb (check_outbox_status new_status)
  then inl IntegrityError
  else
    inr ({| conversations := conversations db;
            conversations_seq := conversations_seq db;
            messages := messages db; messages_seq := messages_seq db;
            outbox := List.map (fun r => if ack_where message_id r
                                         then ack_set new_status now r else r)
                               (outbox db);
            outbox_seq := outbox_seq db |}, (0 <? rowcount)%nat).

(** [SELECT COUNT( * ) FROM outbox WHERE status = 'pending'] *)
Definition get_pending_count (db : DB) : nat :=
  List.length (List.filter (fun r => String.eqb (status r) "pending") (outbox db)).

(** [get_pending]: the pending entries by [created_at] ascending, cut at
    [limit].  Entries created at the same instant come in the order merge
    sort gives. *)
Definition created_at_asc (a b : OutboxMessage) : Prop :=
  text_le (created_at a) (created_at b).

#[global] Instance created_at_asc_dec a b : Decision (created_at_asc a b).
Proof. unfold created_at_asc. apply _. Defined.

Definition get_pending (db : DB) (limit : Z) : list OutboxMessage :=
  sql_limit limit
    (merge_sort created_at_asc
       (List.filter (fun r => String.eqb (status r) "pending") (outbox db))).

(** The WHERE clause of [cleanup_old]; [cutoff] is the text SQLite
    computes for [datetime('now', '-N days')]. *)
Definition cleanup_where (cutoff : string) (r : OutboxMessage) : bool :=
  (String.eqb (status r) "sent" || String.eqb (status r) "failed")
  && String.ltb (created_at r) cutoff.

(** [cleanup_old]: the DELETE; returns [cursor.rowcount]. *)
Definition cleanup_old (db : DB) (cutoff : string) : DB * nat :=
  ({| conversations := conversations db;
      conversations_seq := conversations_seq db;
      messages := messages db; messages_seq := messages_seq db;
      outbox := List.filter (fun r => negb (cleanup_where cutoff r)) (outbox db);
      outbox_seq := outbox_seq db |},
   List.length (List.filter (cleanup_where cutoff) (outbox db))).

End OutboxRepository.

(** ** providers/base.py and providers/openai_provider.py *)

Module base.
(** The [Message] TypedDict handed to a provider. *)
Record Message := { role : string; content : string }.
End base.

Module openai_provider.

Definition FALLBACK_MESSAGE : string :=
  "I'm having trouble right now. Please try again in a moment.".

(** What a call of [chat.completions.create] comes back with: an
    exception, or a completion, given by the [message.content] of each of
    its choices ([None] when the field is null). *)
Definition Outcome : Type := Exc + list (option string).

(** What [generate_response] does to the outside world. *)
Inductive Event : Type :=
| Call (attempt : nat)
| Sleep (seconds : Z).

Record OpenAIProvider := {
  _model : string;
  _max_retries : Z
}.

(** [OpenAIProvider.__init__] with the default [max_retries]. *)
Definition __init__ (model : string) : OpenAIProvider :=
  {| _model := model; _max_retries := 3 |}.

(** The body of the [try]: the call, [response.choices[0].message.content]
    and [content or FALLBACK_MESSAGE]. *)
Definition try_body (outcome : Outcome) : Exc + string :=
  match outcome with
  | inl e => inl e
  | inr [] => inl IndexError
  | inr (content :: _) =>
      inr (if Py.truthy_opt content then default "" content
           else FALLBACK_MESSAGE)
  end.

(** The [for attempt in range(max_retries)] loop; [create attempt] is the
    outcome of the call made in iteration [attempt]. *)
Fixpoint retry_loop (self : OpenAIProvider)
         (create : nat -> string -> list base.Message -> Outcome)
         (api_messages : list base.Message) (attempts : list nat)
  : string * list Event :=
  match attempts with
  | [] => (FALLBACK_MESSAGE, [])
  | attempt :: rest =>
      match try_body (create attempt (_model self) api_messages) with
      | inr content => (content, [Call attempt])
      | inl e =>
          if is_RateLimitError e then
            let wait_time := Z.min (2 ^ (Z.of_nat attempt + 2)) 30 in
            let '(r, t) := retry_loop self create api_messages rest in
            (r, Call attempt :: Sleep wait_time :: t)
          else if is_APIError e then
            if Z.of_nat attempt <? _max_retries self - 1 then
              let wait_time := 2 ^ Z.of_nat attempt in
              let '(r, t) := retry_loop self create api_messages rest in
              (r, Call attempt :: Sleep wait_time :: t)
            else
              let '(r, t) := retry_loop self create api_messages rest in
              (r, Call attempt :: t)
          else (FALLBACK_MESSAGE, [Call attempt])
      end
  end.

(** [range(n)] *)
Definition range (n : Z) : list nat := seq 0 (Z.to_nat n).

(** [OpenAIProvider.generate_response] *)
Definition generate_response (self : OpenAIProvider)
           (create : nat -> string -> list base.Message -> Outcome)
           (messages : list base.Message) (system_prompt : string)
  : string * list Event :=
  let api_messages :=
    {| base.role := "system"; base.content := system_prompt |} :: messages in
  retry_loop self create api_messages (range (_max_retries self)).

(** The provider calls made, in order. *)
Definition calls (t : list Event) : list nat :=
  omap (fun ev => match ev with Call a => Some a | Sleep _ => None end) t.

(** The seconds slept, in order. *)
Definition sleeps (t : list Event) : list Z :=
  omap (fun ev => match ev with Sleep x => Some x | Call _ => None end) t.

End openai_provider.

(** ** services/sms.py *)

Module sms.

(** Records emitted through the module's logger. *)
Inductive LogRecord : Type :=
| InfoProcessing (phone_number : string) (conversation_id : Z)
| InfoGenerating (conversation_id : Z)
| InfoProcessed (phone_number : string)
| InfoMarked (message_id : Z) (status : string)
| ErrorProcessing (phone_number : string) (e : Exc).

Section Service.
(** The state of everything outside the service: database, clock,
    provider. *)
Context {W : Type}.

(** The collaborators handed to [SMSService.__init__], by the methods
    the service calls on them. *)
Record ConversationRepository := {
  find_or_create : string -> M W conversation.Conversation;
  touch : Z -> M W unit
}.

Record MessageRepository := {
  create : Z -> string -> string -> string -> M W message.Message;
  get_history : Z -> Z -> M W (list message.Message)
}.

Record OutboxRepository := {
  enqueue : string -> string -> M W Z;
  acknowledge : Z -> string -> M W bool
}.

Record AIProvider := {
  generate_response : list base.Message -> string -> M W string
}.

Record SMSService := {
  _auth : Auth.AuthService;
  _conversations : ConversationRepository;
  _messages : MessageRepository;
  _outbox : OutboxRepository;
  _ai : AIProvider;
  _system_prompt : string;
  _max_context : Z
}.

(** State of the service's own computations: the outside world and the
    records logged so far. *)
Definition S : Type := W * list LogRecord.

Definition call {A} (m : M W A) : M S A :=
  fun '(w, l) => let '(r, w') := m w in (r, (w', l)).

Definition log (r : LogRecord) : M S unit :=
  fun '(w, l) => (inr tt, (w, l ++ [r])).

(** The body of the [try] of [process_incoming]. *)
Definition process_body (self : SMSService) (phone_number content : string)
  : M S bool :=
  let* conversation := call (find_or_create (_conversations self) phone_number) in
  do log (InfoProcessing phone_number (conversation.id conversation)) then
  do call (create (_messages self) (conversation.id conversation)
                  "user" content "received") then
  let* history := call (get_history (_messages self)
                                    (conversation.id conversation)
                                    (_max_context self)) in
  let ai_messages :=
    List.map (fun msg => {| base.role := message.role msg;
                            base.content := message.content msg |})
             history in
  do log (InfoGenerating (conversation.id conversation)) then
  let* response := call (generate_response (_ai self) ai_messages
                                           (_system_prompt self)) in
  do call (create (_messages self) (conversation.id conversation)
                  "assistant" response "pending") then
  do call (enqueue (_outbox self) phone_number response) then
  do call (touch (_conversations self) (conversation.id conversation)) then
  do log (InfoProcessed phone_number) then
  ret true.

(** [SMSService.process_incoming]; the [timestamp] argument is not
    used by the method.  Returns the result, the records logged and
    the world left behind. *)
Definition process_incoming (self : SMSService)
           (phone_number content : string) (timestamp : option string)
           (w : W) : bool * list LogRecord * W :=
  if negb (Auth.is_authorized (_auth self) phone_number) then (false, [], w)
  else
    match process_body self phone_number content (w, []) with
    | (inr b, (w', l)) => (b, l, w')
    | (inl e, (w', l)) => (false, l ++ [ErrorProcessing phone_number e], w')
    end.

(** [SMSService.acknowledge_sent] *)
Definition acknowledge_sent (self : SMSService) (message_id : Z)
           (status : string) : M S bool :=
  let* success := call (acknowledge (_outbox self) message_id status) in
  if (success : bool)
  then do log (InfoMarked message_id status) then ret success
  else ret success.

End Service.

Arguments ConversationRepository : clear implicits.
Arguments MessageRepository : clear implicits.
Arguments OutboxRepository : clear implicits.
Arguments AIProvider : clear implicits.
Arguments SMSService : clear implicits.

(** [SMSService.get_outgoing_messages]: a pass-through to the outbox's
    [get_pending], handed over here as the method itself. *)
Definition get_outgoing_messages {W A}
           (get_pending : Z -> M W (list A)) (limit : Z) : M W (list A) :=
  get_pending limit.

End sms.

(** ** core/config.py, models and dependencies.py *)

Module config.
(** The settings the modelled code reads. *)
Record Settings := {
  ai_model : string;
  system_prompt : string;
  max_context_messages : Z;
  allowed_phone_numbers : list string;
  sms_api_key : option string
}.
(** [Settings.parse_phone_numbers]: the validator run on the raw value of
    [allowed_phone_numbers], a list or a comma-separated string. *)
Definition parse_phone_numbers (v : string + list string) : list string :=
  match v with
  | inr l => l
  | inl s =>
      if negb (Py.truthy s) || negb (Py.truthy (Py.strip s)) then []
      else
        List.map Py.strip
                 (List.filter (fun num => Py.truthy (Py.strip num))
                              (Py.split "," s))
  end.

End config.

Module models.
(** [OkResponse] *)
Record OkResponse := { ok : bool }.

(** [IncomingSMSRequest] *)
Record IncomingSMSRequest := {
  from_number : string;
  to : option string;
  content : string;
  timestamp : option string;
  id : option string
}.
(** The [Literal["sent", "failed"]] of [AckRequest.status]; any other
    value is refused when the request body is validated. *)
Inductive AckStatus : Type := Sent | Failed.

Definition status_text (s : AckStatus) : string :=
  match s with Sent => "sent" | Failed => "failed" end.

(** [AckRequest] *)
Record AckRequest := {
  ack_status : AckStatus;
  ack_sent_at : option string
}.

(** [OutboxMessageResponse] *)
Record OutboxMessageResponse := {
  out_id : Z;
  out_to : string;
  out_content : string;
  out_created_at : string
}.

(** [HealthResponse] *)
Record HealthResponse := {
  health_status : string;
  pending_outbox : nat
}.

End models.

Module dependencies.
Import database.

(** State of the OpenAI client: calls made so far and seconds slept. *)
Record ClientState := { api_calls : nat; slept : list Z }.

(** The cached OpenAI provider as a provider over [ClientState];
    [chat_create k] is the outcome of the [k]-th call the process makes. *)
Definition openai (self : openai_provider.OpenAIProvider)
           (chat_create : nat -> string -> list base.Message
                          -> openai_provider.Outcome)
  : sms.AIProvider ClientState :=
  {| sms.generate_response := fun messages system_prompt p =>
       let '(r, t) :=
         openai_provider.generate_response self
           (fun attempt => chat_create (api_calls p + attempt)%nat)
           messages system_prompt in
       (inr r,
        {| api_calls := (api_calls p + List.length (openai_provider.calls t))%nat;
           slept := slept p ++ openai_provider.sleeps t |}) |}.

Section Wiring.
(** [P] is the state of the AI provider. *)
Context {P : Type}.

(** The world of a request: the database, the number of repository
    calls made so far and the provider's state. *)
Record World := { db : DB; ticks : nat; ai_state : P }.

(** [utcnow k]: the reading of [datetime.utcnow().isoformat()] during
    the [k]-th repository call. *)
Variable utcnow : nat -> string.

Definition advance (d : DB) (w : World) : World :=
  {| db := d; ticks := Datatypes.S (ticks w); ai_state := ai_state w |}.

(** [ConversationRepository(db)] *)
Definition conversation_repo : sms.ConversationRepository World :=
  {| sms.find_or_create := fun phone_number w =>
       match ConversationRepository.find_or_create
               (db w) phone_number (utcnow (ticks w)) with
       | inl e => (inl e, advance (db w) w)
       | inr (d, c) => (inr c, advance d w)
       end;
     sms.touch := fun conversation_id w =>
       (inr tt,
        advance (ConversationRepository.touch
                   (db w) conversation_id (utcnow (ticks w))) w) |}.

(** [MessageRepository(db)] *)
Definition message_repo : sms.MessageRepository World :=
  {| sms.create := fun conversation_id role content status w =>
       match MessageRepository.create
               (db w) conversation_id role content status
               (utcnow (ticks w)) with
       | inl e => (inl e, advance (db w) w)
       | inr (d, m) => (inr m, advance d w)
       end;
     sms.get_history := fun conversation_id limit w =>
       (inr (MessageRepository.get_history (db w) conversation_id limit),
        advance (db w) w) |}.

(** [OutboxRepository(db)] *)
Definition outbox_repo : sms.OutboxRepository World :=
  {| sms.enqueue := fun phone_number content w =>
       let '(d, rowid) :=
         OutboxRepository.enqueue (db w) phone_number content
                                  (utcnow (ticks w)) in
       (inr rowid, advance d w);
     sms.acknowledge := fun message_id status w =>
       match OutboxRepository.acknowledge
               (db w) message_id status (utcnow (ticks w)) with
       | inl e => (inl e, advance (db w) w)
       | inr (d, b) => (inr b, advance d w)
       end |}.

(** The [get_pending] method of [OutboxRepository(db)]. *)
Definition outbox_get_pending : Z -> M World (list outbox.OutboxMessage) :=
  fun limit w =>
    (inr (OutboxRepository.get_pending (db w) limit), advance (db w) w).

(** A provider over [P], run inside the world of the request. *)
Definition ai_provider (ai : sms.AIProvider P) : sms.AIProvider World :=
  {| sms.generate_response := fun messages system_prompt w =>
       let '(r, p) :=
         sms.generate_response ai messages system_prompt (ai_state w) in
       (r, {| db := db w; ticks := ticks w; ai_state := p |}) |}.

(** [get_sms_service] *)
Definition get_sms_service (settings : config.Settings)
           (ai : sms.AIProvider P) : sms.SMSService World :=
  {| sms._auth := Auth.__init__ (config.allowed_phone_numbers settings);
     sms._conversations := conversation_repo;
     sms._messages := message_repo;
     sms._outbox := outbox_repo;
     sms._ai := ai_provider ai;
     sms._system_prompt := config.system_prompt settings;
     sms._max_context := config.max_context_messages settings |}.

End Wiring.

Arguments World : clear implicits.

End dependencies.

(** ** routes/sms.py *)

Module routes.
Import models.

(** [receive_sms], the handler of POST /api/sms/incoming.  A handler
    that returns its response model is answered with status 200.  The
    warning logged on a bad API key goes to the route's own logger and is
    not part of the records returned here. *)
Definition receive_sms {W} (request : IncomingSMSRequest)
           (sms_service : sms.SMSService W) (x_api_key : option string)
           (settings : config.Settings) (w : W)
  : OkResponse * list sms.LogRecord * W :=
  if Py.truthy_opt (config.sms_api_key settings)
     && negb (bool_decide (x_api_key = config.sms_api_key settings))
  then ({| ok := false |}, [], w)
  else
    let '(_, l, w') :=
      sms.process_incoming sms_service (from_number request)
                           (content request) (timestamp request) w in
    ({| ok := true |}, l, w').

(** [get_outgoing], the handler of GET /api/sms/outgoing, with the
    default batch size of [get_outgoing_messages]. *)
Definition get_outgoing {W}
           (get_pending : Z -> M W (list outbox.OutboxMessage)) (w : W)
  : (Exc + list OutboxMessageResponse) * W :=
  match sms.get_outgoing_messages get_pending 10 w with
  | (inl e, w') => (inl e, w')
  | (inr messages, w') =>
      (inr (List.map (fun msg => {| out_id := outbox.id msg;
                                    out_to := outbox.phone_number msg;
                                    out_content := outbox.content msg;
                                    out_created_at := outbox.created_at msg |})
                     messages), w')
  end.

(** [acknowledge_sent], the handler of POST /api/sms/outgoing/{id}/ack.
    An exception of the service is not handled here. *)
Definition acknowledge_sent {W} (message_id : Z) (request : AckRequest)
           (sms_service : sms.SMSService W) (w : W)
  : (Exc + OkResponse) * list sms.LogRecord * W :=
  match sms.acknowledge_sent sms_service message_id
                             (status_text (ack_status request)) (w, []) with
  | (inl e, (w', l)) => (inl e, l, w')
  | (inr _, (w', l)) => (inr {| ok := true |}, l, w')
  end.

(** [health_check], the handler of GET /api/health. *)
Definition health_check (db : database.DB) : HealthResponse :=
  {| health_status := "ok";
     pending_outbox := OutboxRepository.get_pending_count db |}.

End routes.

(** ** Vocabulary of the statements *)

Module Spec.

(** Every character of [s] satisfies [P]. *)
Fixpoint str_all (P : ascii -> bool) (s : string) : bool :=
  match s with
  | EmptyString => true
  | String c s' => P c && str_all P s'
  end.

(** The first character of [p] that is not white space is a plus sign. *)
Definition leading_plus (p : string) : bool :=
  match Py.strip p with
  | String "+" _ => true
  | _ => false
  end.

(** White space, by code point: TAB, LF, VT, FF, CR, FS, GS, RS, US,
    SPACE, NEL and NBSP. *)
Definition whitespace (c : ascii) : bool :=
  bool_decide (N_of_ascii c
               ∈ [9; 10; 11; 12; 13; 28; 29; 30; 31; 32; 133; 160]%N).

(** The ten digits. *)
Definition digit (c : ascii) : bool :=
  bool_decide (c ∈ ["0"; "1"; "2"; "3"; "4"; "5"; "6"; "7"; "8"; "9"]%char).

(** The normal form of a number in the words of the specification: every
    character except the digits is removed, and one leading plus sign is
    kept when the number has one, white space in front of it aside. *)
Definition normal_form (p : string) : string :=
  let chars := list_ascii_of_string p in
  let sign :=
    match List.find (fun c => negb (whitespace c)) chars with
    | Some "+"%char => "+"
    | _ => ""
    end in
  (sign ++ string_of_list_ascii (List.filter digit chars))%string.

(** The messages of a conversation: the rows of the table that carry its
    id, in table order. *)
Definition conversation_messages (db : database.DB) (conversation_id : Z)
  : list message.Message :=
  List.filter (fun m => bool_decide (message.conversation_id m = conversation_id))
              (database.messages db).

(** The rate-limit and API errors of the client library: [APIError] and
    its subclasses. *)
Definition transient (e : Exc) : Prop :=
  e = RateLimitError \/ e = APIError \/ e = APITimeoutError
  \/ e = APIConnectionError.

(** The terminal statuses of an outbox entry. *)
Definition terminal (s : string) : Prop := s = "sent" \/ s = "failed".

(** Status and sent time of the outbox entry at position [i] of the
    table, if there is one. *)
Definition status_at (db : database.DB) (i : nat) : option string :=
  outbox.status <$> (database.outbox db !! i).

Definition sent_at_at (db : database.DB) (i : nat) : option (option string) :=
  outbox.sent_at <$> (database.outbox db !! i).

(** One acknowledgment request. *)
Record Ack := { ack_id : Z; ack_status : string; ack_now : string }.

(** The database after an acknowledgment (unchanged when it raises). *)
Definition apply_ack (db : database.DB) (a : Ack) : database.DB :=
  match OutboxRepository.acknowledge db (ack_id a) (ack_status a) (ack_now a) with
  | inr (db', _) => db'
  | inl _ => db
  end.

(** The databases passed through by a sequence of acknowledgments,
    the initial one first. *)
Fixpoint states (db : database.DB) (acks : list Ack) {struct acks}
  : list database.DB :=
  db :: match acks with
        | [] => []
        | a :: acks' => states (apply_ack db a) acks'
        end.

(** Number of places where consecutive values of a list differ. *)
Fixpoint changes {A} `{EqDecision A} (l : list A) : nat :=
  match l with
  | a :: l' =>
      match l' with
      | b :: _ => (if decide (a = b) then 0 else 1) + changes l'
      | [] => 0
      end
  | [] => 0
  end%nat.

(** Ascending order of messages by timestamp (oldest first). *)
Definition timestamp_asc (a b : message.Message) : Prop :=
  database.text_le (message.timestamp a) (message.timestamp b).

(** The error classes [generate_response] retries on. *)
Definition retryable (e : Exc) : bool :=
  is_RateLimitError e || is_APIError e.

(** The history rows as handed to the provider. *)
Definition ai_messages (history : list message.Message) : list base.Message :=
  List.map (fun msg => {| base.role := message.role msg;
                          base.content := message.content msg |}) history.

(** [collaborator_raises self phone content w e w']: on the authorized
    path of [process_incoming], started in world [w], the calls made to
    the collaborators return normally up to one that raises [e], leaving
    the world [w']. *)
Inductive collaborator_raises {W} (self : sms.SMSService W)
          (phone_number content : string) (w : W) (e : Exc) (w' : W) : Prop :=
| raises_find_or_create :
    sms.find_or_create (sms._conversations self) phone_number w = (inl e, w') ->
    collaborator_raises self phone_number content w e w'
| raises_create_user c w1 :
    sms.find_or_create (sms._conversations self) phone_number w = (inr c, w1) ->
    sms.create (sms._messages self) (conversation.id c) "user" content
               "received" w1 = (inl e, w') ->
    collaborator_raises self phone_number content w e w'
| raises_get_history c w1 m w2 :
    sms.find_or_create (sms._conversations self) phone_number w = (inr c, w1) ->
    sms.create (sms._messages self) (conversation.id c) "user" content
               "received" w1 = (inr m, w2) ->
    sms.get_history (sms._messages self) (conversation.id c)
                    (sms._max_context self) w2 = (inl e, w') ->
    collaborator_raises self phone_number content w e w'
| raises_generate_response c w1 m w2 h w3 :
    sms.find_or_create (sms._conversations self) phone_number w = (inr c, w1) ->
    sms.create (sms._messages self) (conversation.id c) "user" content
               "received" w1 = (inr m, w2) ->
    sms.get_history (sms._messages self) (conversation.id c)
                    (sms._max_context self) w2 = (inr h, w3) ->
    sms.generate_response (sms._ai self) (ai_messages h)
                          (sms._system_prompt self) w3 = (inl e, w') ->
    collaborator_raises self phone_number content w e w'
| raises_create_assistant c w1 m w2 h w3 r w4 :
    sms.find_or_create (sms._conversations self) phone_number w = (inr c, w1) ->
    sms.create (sms._messages self) (conversation.id c) "user" content
               "received" w1 = (inr m, w2) ->
    sms.get_history (sms._messages self) (conversation.id c)
                    (sms._max_context self) w2 = (inr h, w3) ->
    sms.generate_response (sms._ai self) (ai_messages h)
                          (sms._system_prompt self) w3 = (inr r, w4) ->
    sms.create (sms._messages self) (conversation.id c) "assistant" r
               "pending" w4 = (inl e, w') ->
    collaborator_raises self phone_number content w e w'
| raises_enqueue c w1 m w2 h w3 r w4 m' w5 :
    sms.find_or_create (sms._conversations self) phone_number w = (inr c, w1) ->
    sms.create (sms._messages self) (conversation.id c) "user" content
               "received" w1 = (inr m, w2) ->
    sms.get_history (sms._messages self) (conversation.id c)
                    (sms._max_context self) w2 = (inr h, w3) ->
    sms.generate_response (sms._ai self) (ai_messages h)
                          (sms._system_prompt self) w3 = (inr r, w4) ->
    sms.create (sms._messages self) (conversation.id c) "assistant" r
               "pending" w4 = (inr m', w5) ->
    sms.enqueue (sms._outbox self) phone_number r w5 = (inl e, w') ->
    collaborator_raises self phone_number content w e w'
| raises_touch c w1 m w2 h w3 r w4 m' w5 rowid w6 :
    sms.find_or_create (sms._conversations self) phone_number w = (inr c, w1) ->
    sms.create (sms._messages self) (conversation.id c) "user" content
               "received" w1 = (inr m, w2) ->
    sms.get_history (sms._messages self) (conversation.id c)
                    (sms._max_context self) w2 = (inr h, w3) ->
    sms.generate_response (sms._ai self) (ai_messages h)
                          (sms._system_prompt self) w3 = (inr r, w4) ->
    sms.create (sms._messages self) (conversation.id c) "assistant" r
               "pending" w4 = (inr m', w5) ->
    sms.enqueue (sms._outbox self) phone_number r w5 = (inr rowid, w6) ->
    sms.touch (sms._conversations self) (conversation.id c) w6 = (inl e, w') ->
    collaborator_raises self phone_number content w e w'.

(** The ids of a table are distinct and at most its AUTOINCREMENT
    counter. *)
Definition ids_ok {A} (id : A -> Z) (rows : list A) (seq : Z) : Prop :=
  NoDup (List.map id rows) /\ Forall (fun r => id r <= seq) rows.

(** The constraints of the schema: primary keys, the UNIQUE phone number,
    the CHECKs on role and status and the foreign key of messages. *)
Definition schema_ok (db : database.DB) : Prop :=
  ids_ok conversation.id (database.conversations db)
         (database.conversations_seq db)
  /\ NoDup (List.map conversation.phone_number (database.conversations db))
  /\ ids_ok message.id (database.messages db) (database.messages_seq db)
  /\ Forall (fun m =>
               database.check_role (message.role m) = true
               /\ database.check_message_status (message.status m) = true
               /\ exists c, c ∈ database.conversations db
                            /\ conversation.id c = message.conversation_id m)
            (database.messages db)
  /\ ids_ok outbox.id (database.outbox db) (database.outbox_seq db)
  /\ Forall (fun r => database.check_outbox_status (outbox.status r) = true)
            (database.outbox db).

(** The pending entries of the outbox, in table order. *)
Definition pending (db : database.DB) : list outbox.OutboxMessage :=
  List.filter (fun r => String.eqb (outbox.status r) "pending")
              (database.outbox db).

(** What a call of [find_or_create] for [phone_number] can have reached
    in the database [db]: it is still on its way, it has returned the row
    of that number, or it has failed on the UNIQUE constraint while the
    row of that number exists. *)
Definition task_at (db : database.DB) (phone_number : string)
           (t : ConversationRepository.Task) : Prop :=
  match t with
  | ConversationRepository.AtFind q | ConversationRepository.AtInsert q =>
      q = phone_number
  | ConversationRepository.Returned c =>
      conversation.phone_number c = phone_number
      /\ ConversationRepository.find_by_phone db phone_number = Some c
  | ConversationRepository.Raised e =>
      e = IntegrityError
      /\ ConversationRepository.find_by_phone db phone_number <> None
  end.

(** Sum of the seconds slept. *)
Definition total (seconds : list Z) : Z := fold_right Z.add 0 seconds.

(** A service with its outbox replaced. *)
Definition with_outbox {W} (svc : sms.SMSService W)
           (ob : sms.OutboxRepository W) : sms.SMSService W :=
  {| sms._auth := sms._auth svc;
     sms._conversations := sms._conversations svc;
     sms._messages := sms._messages svc;
     sms._outbox := ob;
     sms._ai := sms._ai svc;
     sms._system_prompt := sms._system_prompt svc;
     sms._max_context := sms._max_context svc |}.

End Spec.

(** ** Sample data *)

Module Samples.

Definition db1 : database.DB :=
  match ConversationRepository.find_or_create
          database.empty "+15551234567" "2024-01-01T00:00:00" with
  | inr (d, _) => d
  | inl _ => database.empty
  end.

Definition add_message (content now : string) (d : database.DB) : database.DB :=
  match MessageRepository.create d 1 "user" content "received" now with
  | inr (d', _) => d'
  | inl _ => d
  end.

(** One conversation holding three messages. *)
Definition db3 : database.DB :=
  add_message "three" "2024-01-01T00:00:03.000500"
    (add_message "two" "2024-01-01T00:00:02"
       (add_message "one" "2024-01-01T00:00:01.250000" db1)).

(** A provider endpoint on which every call fails with an API error. *)
Definition always_failing : nat -> string -> list base.Message
                            -> openai_provider.Outcome :=
  fun _ _ _ => inl APIError.

(** Clock readings of the first repository calls. *)
Definition clock (k : nat) : string :=
  nth k ["2024-01-01T00:00:00.100000"; "2024-01-01T00:00:00.200000";
         "2024-01-01T00:00:00.300000"; "2024-01-01T00:00:01.400000";
         "2024-01-01T00:00:01.500000"; "2024-01-01T00:00:01.600000"]
      "2024-01-01T00:00:02".

Definition settings (allowed : list string) (key : option string)
  : config.Settings :=
  {| config.ai_model := "gpt-4o-mini";
     config.system_prompt :=
       "You are a helpful assistant. Keep responses concise for SMS.";
     config.max_context_messages := 20;
     config.allowed_phone_numbers := allowed;
     config.sms_api_key := key |}.

(** A stub provider that answers "hello". *)
Definition stub_hello : sms.AIProvider unit :=
  {| sms.generate_response := fun _ _ p => (inr "hello", p) |}.

Definition world0 : dependencies.World unit :=
  {| dependencies.db := database.empty; dependencies.ticks := 0;
     dependencies.ai_state := tt |}.

(** The service of an allowlisted system. *)
Definition allowlisted_service : sms.SMSService (dependencies.World unit) :=
  dependencies.get_sms_service clock (settings ["+15559999999"] None)
                               stub_hello.

(** The service of an open-mode system. *)
Definition open_service : sms.SMSService (dependencies.World unit) :=
  dependencies.get_sms_service clock (settings [] None) stub_hello.

(** An open-mode service whose outbox is unavailable. *)
Definition broken_outbox_service : sms.SMSService (dependencies.World unit) :=
  {| sms._auth := sms._auth open_service;
     sms._conversations := sms._conversations open_service;
     sms._messages := sms._messages open_service;
     sms._outbox :=
       {| sms.enqueue := fun _ _ w => (inl OperationalError, w);
          sms.acknowledge := fun _ _ w => (inl OperationalError, w) |};
     sms._ai := sms._ai open_service;
     sms._system_prompt := sms._system_prompt open_service;
     sms._max_context := sms._max_context open_service |}.

Definition request (from_number content : string) : models.IncomingSMSRequest :=
  {| models.from_number := from_number; models.to := None;
     models.content := content; models.timestamp := None;
     models.id := None |}.

(** The end-to-end exchange: "hi" from "+15551234567" to the open-mode
    system with the stub provider. *)
Definition end_to_end : bool * list sms.LogRecord * dependencies.World unit :=
  sms.process_incoming open_service "+15551234567" "hi" None world0.

End Samples.

(** * Theorems *)

(** ** Authorization gate *)

Section AuthFacts.
Import Py Auth Spec.

Lemma isdigit_not_space c : isdigit c = true -> isspace c = false.
Proof.
  unfold isdigit, isspace. generalize (N_of_ascii c). intros n Hn.
  apply andb_true_iff in Hn as [H1 H2].
  apply N.leb_le in H1. apply N.leb_le in H2.
  repeat match goal with
         | |- context [(?a <=? ?b)%N] => destruct (N.leb_spec a b)
         | |- context [(?a =? ?b)%N] => destruct (N.eqb_spec a b)
         end; simpl; try reflexivity; lia.
Qed.

Lemma isdigit_not_plus c : isdigit c = true -> c <> "+"%char.
Proof. intros H ->. vm_compute in H. discriminate. Qed.

Lemma sub_non_digits_all s : str_all isdigit (sub_non_digits s) = true.
Proof.
  induction s as [|c s IH]; simpl; [reflexivity|].
  destruct (isdigit c) eqn:E; simpl; [rewrite E|]; auto.
Qed.

Lemma sub_non_digits_fix s : str_all isdigit s = true -> sub_non_digits s = s.
Proof.
  induction s as [|c s IH]; simpl; [reflexivity|].
  intros [Hc Hs]%andb_true_iff. rewrite Hc, IH; auto.
Qed.

Lemma sub_non_digits_idem s : sub_non_digits (sub_non_digits s) = sub_non_digits s.
Proof. apply sub_non_digits_fix, sub_non_digits_all. Qed.

Lemma rstrip_no_space s :
  str_all (fun c => negb (isspace c)) s = true -> rstrip s = s.
Proof.
  induction s as [|c s IH]; simpl; [reflexivity|].
  intros [Hc Hs]%andb_true_iff. rewrite IH by assumption.
  destruct s; [|reflexivity].
  apply negb_true_iff in Hc. rewrite Hc. reflexivity.
Qed.

Lemma lstrip_no_space s :
  str_all (fun c => negb (isspace c)) s = true -> lstrip s = s.
Proof.
  destruct s as [|c s]; simpl; [reflexivity|].
  intros [Hc _]%andb_true_iff. apply negb_true_iff in Hc. rewrite Hc. reflexivity.
Qed.

Lemma strip_no_space s :
  str_all (fun c => negb (isspace c)) s = true -> strip s = s.
Proof.
  intros H. unfold strip. rewrite rstrip_no_space by assumption.
  apply lstrip_no_space, H.
Qed.

Lemma digits_no_space s :
  str_all isdigit s = true -> str_all (fun c => negb (isspace c)) s = true.
Proof.
  induction s as [|c s IH]; simpl; [reflexivity|].
  intros [Hc Hs]%andb_true_iff.
  rewrite (isdigit_not_space _ Hc). simpl. auto.
Qed.

Lemma sub_non_digits_lstrip s : sub_non_digits (lstrip s) = sub_non_digits s.
Proof.
  induction s as [|c s IH]; simpl; [reflexivity|].
  destruct (isspace c) eqn:E; [|reflexivity].
  destruct (isdigit c) eqn:D; [|assumption].
  rewrite (isdigit_not_space _ D) in E. discriminate.
Qed.

Lemma sub_non_digits_rstrip s : sub_non_digits (rstrip s) = sub_non_digits s.
Proof.
  induction s as [|c s IH]; simpl; [reflexivity|].
  destruct (rstrip s) as [|d r] eqn:R.
  - simpl in IH. rewrite <- IH.
    destruct (isspace c) eqn:E; simpl.
    + destruct (isdigit c) eqn:D; [|reflexivity].
      rewrite (isdigit_not_space _ D) in E. discriminate.
    + destruct (isdigit c); reflexivity.
  - change (sub_non_digits (String c (String d r)))
      with (if isdigit c then String c (sub_non_digits (String d r))
            else sub_non_digits (String d r)).
    rewrite IH. reflexivity.
Qed.

Lemma sub_non_digits_strip s : sub_non_digits (strip s) = sub_non_digits s.
Proof. unfold strip. rewrite sub_non_digits_lstrip. apply sub_non_digits_rstrip. Qed.

Lemma normalize_shape p :
  _normalize p = ((if leading_plus p then "+" else "") ++ sub_non_digits p)%string.
Proof.
  unfold _normalize, leading_plus.
  destruct p as [|c p]; [reflexivity|].
  cbn [truthy negb].
  rewrite <- (sub_non_digits_strip (String c p)).
  destruct (strip (String c p)) as [|d t]; [reflexivity|].
  destruct d as [[] [] [] [] [] [] [] []]; reflexivity.
Qed.

Lemma normalize_idem s : _normalize (_normalize s) = _normalize s.
Proof.
  rewrite (normalize_shape s).
  destruct (leading_plus s).
  - change (("+" ++ sub_non_digits s)%string) with (String "+" (sub_non_digits s)).
    unfold _normalize. cbn [truthy negb].
    rewrite strip_no_space.
    + rewrite sub_non_digits_idem. reflexivity.
    + cbn [str_all]. rewrite digits_no_space by apply sub_non_digits_all.
      reflexivity.
  - change (("" ++ sub_non_digits s)%string) with (sub_non_digits s).
    pose proof (sub_non_digits_all s) as Hall.
    rewrite normalize_shape, sub_non_digits_idem.
    unfold leading_plus. rewrite strip_no_space by (apply digits_no_space, Hall).
    destruct (sub_non_digits s) as [|d t]; [reflexivity|].
    cbn [str_all] in Hall. apply andb_true_iff in Hall as [Hd _].
    apply isdigit_not_plus in Hd.
    destruct d as [[] [] [] [] [] [] [] []]; try reflexivity; congruence.
Qed.

Lemma allowed_elem allowed x :
  x ∈ _allowed (__init__ allowed) <->
  exists n, n ∈ allowed /\ n <> "" /\ x = _normalize n.
Proof.
  unfold __init__. cbn [_allowed].
  rewrite elem_of_list_to_set, list_elem_of_In, in_map_iff.
  split.
  - intros (n & <- & Hn). apply filter_In in Hn as [Hn Ht].
    exists n. rewrite list_elem_of_In. repeat split; auto.
    intros ->. discriminate.
  - intros (n & Hn & Hne & ->). exists n. split; [reflexivity|].
    apply filter_In. split; [by apply list_elem_of_In|].
    destruct n; [congruence|reflexivity].
Qed.

Lemma open_mode_iff allowed :
  _open_mode (__init__ allowed) = true <-> _allowed (__init__ allowed) = ∅.
Proof.
  unfold __init__. cbn [_allowed _open_mode].
  rewrite bool_decide_eq_true, size_empty_iff. by unfold_leibniz.
Qed.

Lemma rstrip_head a t :
  isspace a = false -> exists t', rstrip (String a t) = String a t'.
Proof.
  intros Ha. simpl. destruct (rstrip t) as [|d r].
  - rewrite Ha. eauto.
  - eauto.
Qed.

Lemma strip_head a t :
  isspace a = false -> exists t', strip (String a t) = String a t'.
Proof.
  intros Ha. unfold strip. destruct (rstrip_head a t Ha) as [t' ->].
  simpl. rewrite Ha. eauto.
Qed.

Lemma leading_plus_head a t :
  isspace a = false -> leading_plus (String a t) = Ascii.eqb a "+".
Proof.
  intros Ha. unfold leading_plus. destruct (strip_head a t Ha) as [t' ->].
  destruct a as [[] [] [] [] [] [] [] []]; reflexivity.
Qed.

Lemma strip_skip a t : isspace a = true -> strip (String a t) = strip t.
Proof.
  intros Ha. unfold strip. simpl. destruct (rstrip t) as [|d r].
  - rewrite Ha. reflexivity.
  - cbn [lstrip]. rewrite Ha. reflexivity.
Qed.

Lemma whitespace_isspace c : whitespace c = isspace c.
Proof. destruct c as [[] [] [] [] [] [] [] []]; vm_compute; reflexivity. Qed.

Lemma digit_isdigit c : digit c = isdigit c.
Proof. destruct c as [[] [] [] [] [] [] [] []]; vm_compute; reflexivity. Qed.

Lemma sub_non_digits_filter s :
  sub_non_digits s
  = string_of_list_ascii (List.filter digit (list_ascii_of_string s)).
Proof.
  induction s as [|c s IH]; [reflexivity|].
  cbn [sub_non_digits list_ascii_of_string List.filter].
  rewrite digit_isdigit. destruct (isdigit c); cbn; by rewrite IH.
Qed.

Lemma leading_plus_find s :
  leading_plus s
  = match List.find (fun c => negb (whitespace c)) (list_ascii_of_string s) with
    | Some "+"%char => true
    | _ => false
    end.
Proof.
  induction s as [|c s IH]; [reflexivity|].
  cbn [list_ascii_of_string List.find]. rewrite whitespace_isspace.
  destruct (isspace c) eqn:E; cbn [negb].
  - rewrite <- IH. unfold leading_plus. by rewrite strip_skip.
  - rewrite leading_plus_head by assumption.
    destruct c as [[] [] [] [] [] [] [] []]; reflexivity.
Qed.

Lemma normalize_is_normal_form p : _normalize p = normal_form p.
Proof.
  rewrite normalize_shape. unfold normal_form.
  rewrite leading_plus_find, sub_non_digits_filter.
  destruct (List.find _ _) as [c|]; [|reflexivity].
  destruct c as [[] [] [] [] [] [] [] []]; reflexivity.
Qed.

Lemma open_mode_blank allowed :
  _open_mode (__init__ allowed) = true <-> forall n, n ∈ allowed -> n = "".
Proof.
  rewrite open_mode_iff. split.
  - intros Hempty n Hn. destruct (decide (n = "")) as [|Hne]; [assumption|].
    assert (Hx : _normalize n ∈ _allowed (__init__ allowed))
      by (apply allowed_elem; eauto).
    rewrite Hempty in Hx. by apply elem_of_empty in Hx.
  - intros Hall. apply leibniz_equiv. apply elem_of_equiv_empty. intros x Hx.
    apply allowed_elem in Hx as (n & Hn & Hne & _). auto.
Qed.

Lemma is_authorized_iff allowed p :
  is_authorized (__init__ allowed) p = true <->
  (forall n, n ∈ allowed -> n = "")
  \/ exists n, n ∈ allowed /\ n <> "" /\ _normalize n = _normalize p.
Proof.
  rewrite <- open_mode_blank. unfold is_authorized.
  destruct (_open_mode (__init__ allowed)) eqn:E.
  - split; auto.
  - rewrite bool_decide_eq_true, allowed_elem. split.
    + intros (n & Hn & Hne & Heq). right. eauto.
    + intros [?|(n & Hn & Hne & Heq)]; [discriminate|]. eauto.
Qed.

End AuthFacts.

(** C9, refuted as stated: the configured allowlist [""] is not empty
    and the normalization of "+15551111111" is not among the normalized
    configured numbers, yet the number is authorized.  The constructor
    drops empty entries, so this service runs in open mode. *)
Lemma is_authorized_blank_entry :
  ~ ([""] <> [] ->
     (Auth.is_authorized (Auth.__init__ [""]) "+15551111111" = true <->
      Spec.normal_form "+15551111111" ∈ List.map Spec.normal_form [""])).
Proof.
  intros H. specialize (H ltac:(discriminate)).
  destruct H as [H _]. specialize (H eq_refl).
  apply list_elem_of_singleton in H. discriminate H.
Qed.

(** C9, amended.  The normalization of a number is its normal form: the
    digits only, after one plus sign when the first character that is not
    white space is one.  The service keeps the normalizations of the
    configured entries that are not empty, and is in open mode exactly
    when there is no such entry, as for the empty list.  [is_authorized]
    is true for every number in open mode; otherwise it is true exactly
    when the normal form of the number is that of a configured entry
    that is not empty.  With "+15551234567" configured,
    "+1 (555) 123-4567" is authorized and "15551234567" is not. *)
Theorem is_authorized_spec (allowed : list string) (p : string) :
  let self := Auth.__init__ allowed in
  Auth._normalize p = Spec.normal_form p
  /\ (forall x, x ∈ Auth._allowed self <->
                exists n, n ∈ allowed /\ n <> "" /\ x = Spec.normal_form n)
  /\ (Auth._open_mode self = true <-> forall n, n ∈ allowed -> n = "")
  /\ (allowed = [] -> Auth.is_authorized self p = true)
  /\ (Auth.is_authorized self p = true <->
      (forall n, n ∈ allowed -> n = "")
      \/ exists n, n ∈ allowed /\ n <> ""
                   /\ Spec.normal_form n = Spec.normal_form p)
  /\ Auth.is_authorized (Auth.__init__ ["+15551234567"]) "+1 (555) 123-4567"
     = true
  /\ Auth.is_authorized (Auth.__init__ ["+15551234567"]) "15551234567" = false.
Proof.
  intros self. subst self.
  split; [apply normalize_is_normal_form|].
  split.
  { intros x. rewrite allowed_elem.
    split; intros (n & Hn & Hne & ->); exists n;
      pose proof (normalize_is_normal_form n); repeat split; congruence. }
  split; [apply open_mode_blank|].
  split; [intros ->; reflexivity|].
  split.
  { rewrite is_authorized_iff.
    split; (intros [H|(n & Hn & Hne & Heq)]; [left; exact H|right]);
      exists n; pose proof (normalize_is_normal_form n);
      pose proof (normalize_is_normal_form p); repeat split; congruence. }
  split; vm_compute; reflexivity.
Qed.

(** C10. Normalization is idempotent, and a number is authorized exactly
    when its normalization is, whatever the configured allowlist. *)
Theorem normalize_idempotent (s : string) (allowed : list string) (p : string) :
  Auth._normalize (Auth._normalize s) = Auth._normalize s
  /\ Auth.is_authorized (Auth.__init__ allowed) p
     = Auth.is_authorized (Auth.__init__ allowed) (Auth._normalize p).
Proof.
  split; [apply normalize_idem|].
  unfold Auth.is_authorized. rewrite normalize_idem. reflexivity.
Qed.

(** ** Outbox queue *)

Section OutboxFacts.
Import database outbox OutboxRepository Spec.

Lemma terminal_check s : terminal s -> check_outbox_status s = true.
Proof. intros [-> | ->]; reflexivity. Qed.

Lemma terminal_not_pending s : terminal s -> String.eqb s "pending" = false.
Proof. intros [-> | ->]; reflexivity. Qed.

Lemma ack_where_iff mid r :
  ack_where mid r = true <-> id r = mid /\ status r = "pending".
Proof.
  unfold ack_where. rewrite andb_true_iff, Z.eqb_eq, String.eqb_eq. tauto.
Qed.

Lemma rowcount_pos mid (rows : list OutboxMessage) :
  (0 <? List.length (List.filter (ack_where mid) rows))%nat = true <->
  exists r, r ∈ rows /\ id r = mid /\ status r = "pending".
Proof.
  rewrite Nat.ltb_lt. split.
  - intros H. destruct (List.filter (ack_where mid) rows) as [|r l] eqn:E.
    + simpl in H. lia.
    + assert (Hin : In r (List.filter (ack_where mid) rows))
        by (rewrite E; left; reflexivity).
      apply filter_In in Hin as [Hin Hw]. apply ack_where_iff in Hw.
      exists r. rewrite list_elem_of_In. tauto.
  - intros (r & Hin & Hid & Hst).
    assert (Hf : In r (List.filter (ack_where mid) rows)).
    { apply filter_In. split; [by apply list_elem_of_In|].
      apply ack_where_iff. tauto. }
    destruct (List.filter (ack_where mid) rows); [destruct Hf|simpl; lia].
Qed.

Lemma map_none_hit {A} (hit : A -> bool) (f : A -> A) (rows : list A) :
  List.filter hit rows = [] ->
  List.map (fun r => if hit r then f r else r) rows = rows.
Proof.
  induction rows as [|r rows IH]; simpl; [reflexivity|].
  destruct (hit r); [discriminate|]. intros H. by rewrite IH.
Qed.

Lemma no_hit_after mid s now (rows : list OutboxMessage) :
  String.eqb s "pending" = false ->
  List.filter (ack_where mid)
    (List.map (fun r => if ack_where mid r then ack_set s now r else r) rows)
  = [].
Proof.
  intros Hs. induction rows as [|r rows IH]; simpl; [reflexivity|].
  destruct (ack_where mid r) eqn:E.
  - unfold ack_where at 1. cbn [ack_set id status]. rewrite Hs, andb_false_r.
    exact IH.
  - rewrite E. exact IH.
Qed.

Lemma int64_iff n :
  int64 n = true <-> -9223372036854775808 <= n <= 9223372036854775807.
Proof. unfold int64. rewrite andb_true_iff, !Z.leb_le. tauto. Qed.

Lemma int64_false n :
  int64 n = false <-> ~ (-9223372036854775808 <= n <= 9223372036854775807).
Proof. rewrite <- int64_iff. destruct (int64 n); split; congruence. Qed.

Lemma acknowledge_overflow db mid s now :
  int64 mid = false -> acknowledge db mid s now = inl OverflowError.
Proof. intros H. unfold acknowledge. rewrite H. reflexivity. Qed.

Lemma acknowledge_terminal db mid s now :
  int64 mid = true ->
  terminal s ->
  acknowledge db mid s now =
  inr ({| conversations := conversations db;
          conversations_seq := conversations_seq db;
          messages := messages db; messages_seq := messages_seq db;
          outbox := List.map
                      (fun r => if ack_where mid r
                                then ack_set s (if String.eqb s "sent"
                                                then Some now else None) r
                                else r) (outbox db);
          outbox_seq := outbox_seq db |},
       (0 <? List.length (List.filter (ack_where mid) (outbox db)))%nat).
Proof.
  intros Hid Hs. unfold acknowledge.
  rewrite Hid, (terminal_check _ Hs), andb_false_r. reflexivity.
Qed.

Lemma acknowledge_no_hit db mid s now :
  int64 mid = true ->
  List.filter (ack_where mid) (outbox db) = [] ->
  acknowledge db mid s now = inr (db, false).
Proof.
  intros Hid H. unfold acknowledge.
  rewrite Hid, H. cbn [List.length Nat.ltb Nat.leb andb negb].
  rewrite map_none_hit by assumption. destruct db; reflexivity.
Qed.

(** One acknowledgment leaves the status of an entry alone or moves it
    from pending to the acknowledged status. *)
Lemma apply_ack_status db a i :
  terminal (ack_status a) ->
  status_at (apply_ack db a) i = status_at db i
  \/ (status_at db i = Some "pending"
      /\ status_at (apply_ack db a) i = Some (ack_status a)).
Proof.
  intros Hs. unfold apply_ack.
  destruct (int64 (ack_id a)) eqn:Hid;
    [|rewrite acknowledge_overflow by assumption; left; reflexivity].
  rewrite acknowledge_terminal by assumption.
  unfold status_at. cbn [outbox].
  rewrite list_lookup_fmap.
  destruct (outbox db !! i) as [r|]; [|left; reflexivity].
  cbn [fmap option_fmap option_map].
  destruct (ack_where (ack_id a) r) eqn:E.
  - right. apply ack_where_iff in E as [_ ->]. split; reflexivity.
  - left. reflexivity.
Qed.

Lemma changes_bound acks : forall db i,
  Forall (fun a => terminal (ack_status a)) acks ->
  (changes (List.map (fun d => status_at d i) (states db acks))
   <= if decide (status_at db i = Some "pending") then 1 else 0)%nat.
Proof.
  induction acks as [|a acks IH]; intros db i Hall.
  - simpl. lia.
  - inversion Hall as [|? ? Ha Hrest]; subst.
    change (states db (a :: acks)) with (db :: states (apply_ack db a) acks).
    specialize (IH (apply_ack db a) i Hrest).
    assert (Hst : states (apply_ack db a) acks
                  = apply_ack db a :: List.tl (states (apply_ack db a) acks))
      by (destruct acks; reflexivity).
    rewrite Hst in *. cbn [List.map changes] in *.
    destruct (apply_ack_status db a i Ha) as [E | [E1 E2]].
    + rewrite E in *. rewrite decide_True by reflexivity. exact IH.
    + rewrite E1, E2 in *.
      assert (Hp : Some (ack_status a) <> Some "pending").
      { intros [= Hp]. apply terminal_not_pending in Ha.
        rewrite Hp in Ha. discriminate. }
      rewrite (decide_False (P := Some (ack_status a) = Some "pending")) in IH
        by assumption.
      rewrite (decide_True (P := Some "pending" = Some "pending"))
        by reflexivity.
      rewrite (decide_False (P := Some "pending" = Some (ack_status a)))
        by congruence.
      lia.
Qed.

Lemma changes_shape acks : forall db i k a b,
  Forall (fun a => terminal (ack_status a)) acks ->
  List.map (fun d => status_at d i) (states db acks) !! k = Some a ->
  List.map (fun d => status_at d i) (states db acks) !! Datatypes.S k = Some b ->
  a <> b ->
  a = Some "pending" /\ (b = Some "sent" \/ b = Some "failed").
Proof.
  induction acks as [|x acks IH]; intros db i k a b Hall Ha Hb Hne.
  - destruct k; discriminate.
  - inversion Hall as [|? ? Hx Hrest]; subst.
    change (states db (x :: acks)) with (db :: states (apply_ack db x) acks) in *.
    destruct k as [|k].
    + cbn in Ha. injection Ha as <-.
      assert (Hb' : b = status_at (apply_ack db x) i).
      { destruct acks; cbn in Hb; congruence. }
      subst b.
      destruct (apply_ack_status db x i Hx) as [E | [E1 E2]]; [congruence|].
      rewrite E1, E2. split; [reflexivity|].
      destruct Hx as [-> | ->]; auto.
    + cbn [List.map lookup list_lookup] in Ha, Hb.
      eapply (IH (apply_ack db x) i k); eauto.
Qed.

End OutboxFacts.

(** C1. [acknowledge] with status sent or failed and a message id that
    fits an INTEGER of SQLite, as the id of every entry does, returns: it
    returns true exactly when the table holds an entry with that id whose
    status is pending; it changes those entries only, setting their
    status and sent time; when it returns false the database is
    unchanged; any further acknowledgment of the same id returns false
    and leaves the database, hence status and sent time, unchanged.  For
    an id outside the signed 64-bit range, which no entry has, the call
    raises [OverflowError] before the update runs.  Along any sequence of
    acknowledgments with status sent or failed, whatever their ids, the
    status of an entry changes at most once, from pending to sent or
    failed. *)
Theorem acknowledge_idempotent
        (db : database.DB) (message_id : Z) (status now : string)
        (Hstatus : Spec.terminal status) :
  (~ (-9223372036854775808 <= message_id <= 9223372036854775807) ->
   OutboxRepository.acknowledge db message_id status now = inl OverflowError)
  /\ (-9223372036854775808 <= message_id <= 9223372036854775807 ->
      exists db' applied,
        OutboxRepository.acknowledge db message_id status now
        = inr (db', applied)
        /\ (applied = true <->
            exists r, r ∈ database.outbox db /\ outbox.id r = message_id
                      /\ outbox.status r = "pending")
        /\ (forall i r, database.outbox db !! i = Some r ->
              database.outbox db' !! i =
              Some (if bool_decide (outbox.id r = message_id
                                    /\ outbox.status r = "pending")
                    then {| outbox.id := outbox.id r;
                            outbox.phone_number := outbox.phone_number r;
                            outbox.content := outbox.content r;
                            outbox.created_at := outbox.created_at r;
                            outbox.status := status;
                            outbox.sent_at := if bool_decide (status = "sent")
                                              then Some now else None |}
                    else r))
        /\ List.length (database.outbox db') = List.length (database.outbox db)
        /\ (applied = false -> db' = db)
        /\ (forall status2 now2,
              OutboxRepository.acknowledge db' message_id status2 now2
              = inr (db', false)))
  /\ (forall acks i,
        Forall (fun a => Spec.terminal (Spec.ack_status a)) acks ->
        let history := List.map (fun d => Spec.status_at d i)
                                (Spec.states db acks) in
        (Spec.changes history <= 1)%nat
        /\ forall k a b,
            history !! k = Some a -> history !! Datatypes.S k = Some b ->
            a <> b ->
            a = Some "pending" /\ (b = Some "sent" \/ b = Some "failed")).
Proof.
  split.
  { intros Hout. apply acknowledge_overflow, int64_false, Hout. }
  split.
  { intros Hin%int64_iff.
    eexists _, _. split; [apply acknowledge_terminal; assumption|].
    split; [apply rowcount_pos|].
    split.
    { intros i r Hr. cbn [database.outbox].
      rewrite list_lookup_fmap, Hr. cbn. f_equal.
      destruct (OutboxRepository.ack_where message_id r) eqn:E.
      - rewrite bool_decide_eq_true_2 by (by apply ack_where_iff).
        unfold OutboxRepository.ack_set. f_equal.
        destruct (String.eqb_spec status "sent") as [->|Hne].
        + reflexivity.
        + by rewrite bool_decide_eq_false_2.
      - rewrite bool_decide_eq_false_2; [reflexivity|].
        intros H%ack_where_iff. congruence. }
    split; [cbn [database.outbox]; apply length_map|].
    split.
    { intros H. apply Nat.ltb_ge in H.
      assert (E : List.filter (OutboxRepository.ack_where message_id)
                              (database.outbox db) = [])
        by (destruct (List.filter _ _); [reflexivity|simpl in H; lia]).
      rewrite map_none_hit by assumption. destruct db; reflexivity. }
    intros status2 now2. apply acknowledge_no_hit; [assumption|].
    cbn [database.outbox].
    apply no_hit_after, terminal_not_pending, Hstatus. }
  intros acks i Hall history. subst history. split.
  - etransitivity; [apply changes_bound, Hall|].
    destruct (decide _); lia.
  - intros k a b. apply changes_shape, Hall.
Qed.

Lemma acknowledge_idempotent_witness :
  Spec.terminal "sent" /\
  exists db' applied,
    OutboxRepository.acknowledge
      (fst (OutboxRepository.enqueue database.empty "+15551234567" "hello"
                                     "2024-01-01T00:00:00"))
      1 "sent" "2024-01-01T00:00:05" = inr (db', applied)
    /\ applied = true.
Proof.
  split; [left; reflexivity|].
  destruct (proj1 (proj2 (acknowledge_idempotent
              (fst (OutboxRepository.enqueue database.empty "+15551234567"
                                             "hello" "2024-01-01T00:00:00"))
              1 "sent" "2024-01-01T00:00:05" (or_introl eq_refl)))
              ltac:(lia))
    as (db' & applied & Heq & Happ & _).
  exists db', applied. split; [exact Heq|].
  apply Happ. eexists. split; [apply list_elem_of_here|]. split; reflexivity.
Defined.

(** ** History store *)

Section HistoryFacts.
Import database message MessageRepository Spec.

Lemma string_leb_trans (a : string) : forall b c,
  String.leb a b = true -> String.leb b c = true -> String.leb a c = true.
Proof.
  unfold String.leb.
  induction a as [|x a IH]; intros [|y b] [|z c]; simpl;
    try reflexivity; try discriminate.
  unfold Ascii.compare.
  destruct (N.compare_spec (N_of_ascii x) (N_of_ascii y));
    destruct (N.compare_spec (N_of_ascii y) (N_of_ascii z));
    try discriminate; intros Hab Hbc;
    destruct (N.compare_spec (N_of_ascii x) (N_of_ascii z));
    try reflexivity; try lia.
  eapply IH; eassumption.
Qed.

#[local] Instance timestamp_desc_total : Total timestamp_desc.
Proof.
  intros a b. unfold timestamp_desc, text_le.
  destruct (String.leb_total (timestamp a) (timestamp b)); auto.
Qed.

#[local] Instance timestamp_desc_trans : Transitive timestamp_desc.
Proof.
  intros a b c Hab Hbc. unfold timestamp_desc, text_le in *.
  eapply string_leb_trans; eassumption.
Qed.

Lemma order_by_timestamp_desc_sorted (rows : list Message) :
  StronglySorted timestamp_desc (merge_sort timestamp_desc rows).
Proof. apply StronglySorted_merge_sort; apply _. Qed.

Lemma StronglySorted_rev {A} (R : relation A) (l : list A) :
  StronglySorted R l -> StronglySorted (flip R) (List.rev l).
Proof.
  induction 1 as [|x l Hl IH Hx]; simpl; [constructor|].
  apply StronglySorted_app_2; [|assumption|repeat constructor].
  intros y z Hy Hz. apply list_elem_of_singleton in Hz as ->.
  rewrite Forall_forall in Hx. apply Hx.
  apply list_elem_of_In, in_rev, list_elem_of_In, Hy.
Qed.

Lemma sql_limit_nonneg {A} (limit : Z) (rows : list A) :
  0 <= limit -> sql_limit limit rows = take (Z.to_nat limit) rows.
Proof.
  intros H. unfold sql_limit.
  destruct (Z.ltb_spec limit 0); [lia|reflexivity].
Qed.

Lemma of_conversation_messages db cid :
  of_conversation db cid = conversation_messages db cid.
Proof.
  unfold of_conversation, conversation_messages.
  apply List.filter_ext. intros m.
  destruct (Z.eqb_spec (conversation_id m) cid) as [E|E].
  - by rewrite bool_decide_eq_true_2.
  - by rewrite bool_decide_eq_false_2.
Qed.

End HistoryFacts.

(** C4. For a limit N >= 0 and a conversation holding M messages, the
    rows of the message table that carry its id, [get_history] returns
    min(M, N) of them, oldest first, and they are the most recent ones:
    every message it returns is a message of the conversation, and the
    messages of the conversation it leaves out are all at most as recent
    as every message returned.  With M <= N it returns all M messages. *)
Theorem get_history_latest (db : database.DB) (conversation_id limit : Z)
        (Hlimit : 0 <= limit) :
  let all := Spec.conversation_messages db conversation_id in
  let result := MessageRepository.get_history db conversation_id limit in
  List.length result = Nat.min (List.length all) (Z.to_nat limit)
  /\ StronglySorted Spec.timestamp_asc result
  /\ (forall m, m ∈ result ->
                m ∈ database.messages db
                /\ message.conversation_id m = conversation_id)
  /\ (exists older,
        all ≡ₚ older ++ result
        /\ (forall o, o ∈ older ->
                      o ∈ database.messages db
                      /\ message.conversation_id o = conversation_id)
        /\ forall o r, o ∈ older -> r ∈ result -> Spec.timestamp_asc o r)
  /\ ((List.length all <= Z.to_nat limit)%nat -> result ≡ₚ all).
Proof.
  intros all result. subst result. unfold MessageRepository.get_history.
  rewrite of_conversation_messages. fold all.
  rewrite sql_limit_nonneg by assumption.
  set (sorted := merge_sort MessageRepository.timestamp_desc all).
  set (n := Z.to_nat limit).
  assert (Hperm : sorted ≡ₚ all) by apply merge_sort_Permutation.
  assert (Hsorted : StronglySorted MessageRepository.timestamp_desc sorted)
    by apply order_by_timestamp_desc_sorted.
  assert (Hmem : forall m, m ∈ sorted ->
                           m ∈ database.messages db
                           /\ message.conversation_id m = conversation_id).
  { intros m Hm. rewrite Hperm in Hm. unfold all in Hm.
    apply list_elem_of_In, filter_In in Hm as [Hm Hc].
    apply bool_decide_eq_true in Hc. split; [by apply list_elem_of_In|exact Hc]. }
  rewrite <- (take_drop n sorted) in Hsorted.
  split.
  { rewrite length_rev, length_take, <- (Permutation_length Hperm). lia. }
  split.
  { apply StronglySorted_app_1_l in Hsorted.
    apply StronglySorted_rev in Hsorted. exact Hsorted. }
  split.
  { intros m Hm. apply Hmem. rewrite <- (take_drop n sorted).
    apply elem_of_app. left.
    apply list_elem_of_In, in_rev, list_elem_of_In, Hm. }
  split.
  { exists (drop n sorted). split; [|split].
    - rewrite <- Hperm, <- (Permutation_rev (take n sorted)).
      rewrite (Permutation_app_comm (drop n sorted)), take_drop. reflexivity.
    - intros o Ho. apply Hmem. rewrite <- (take_drop n sorted).
      apply elem_of_app. by right.
    - intros o r Ho Hr.
      apply (StronglySorted_app_1_elem_of _ _ _ r o Hsorted); [|assumption].
      apply list_elem_of_In, in_rev, list_elem_of_In, Hr. }
  intros Hle.
  rewrite <- (Permutation_rev (take n sorted)), take_ge; [assumption|].
  rewrite (Permutation_length Hperm). exact Hle.
Qed.

Lemma get_history_latest_witness :
  0 <= 2 /\
  List.length (MessageRepository.get_history Samples.db3 1 2)
  = Nat.min (List.length (Spec.conversation_messages Samples.db3 1))
            (Z.to_nat 2).
Proof.
  split; [lia|].
  exact (proj1 (get_history_latest Samples.db3 1 2 ltac:(lia))).
Defined.

Example get_history_example :
  List.map message.content (MessageRepository.get_history Samples.db3 1 2)
  = ["two"; "three"].
Proof. vm_compute. reflexivity. Qed.

(** ** AI responder adapter *)

Section ProviderFacts.
Import openai_provider Spec.

Variable self : OpenAIProvider.
Variable create : nat -> string -> list base.Message -> Outcome.
Variable api_messages : list base.Message.

Local Abbreviation attempt_result k :=
  (try_body (create k (_model self) api_messages)).

Local Abbreviation loop := (retry_loop self create api_messages).

Lemma loop_success k rest c :
  attempt_result k = inr c -> loop (k :: rest) = (c, [Call k]).
Proof. simpl. intros ->. reflexivity. Qed.

Lemma loop_abandon k rest e :
  attempt_result k = inl e -> retryable e = false ->
  loop (k :: rest) = (FALLBACK_MESSAGE, [Call k]).
Proof.
  unfold retryable. simpl. intros -> H.
  apply orb_false_iff in H as [-> ->]. reflexivity.
Qed.

Lemma loop_retry k rest e :
  attempt_result k = inl e -> retryable e = true ->
  (loop (k :: rest)).1 = (loop rest).1
  /\ calls (loop (k :: rest)).2 = k :: calls (loop rest).2.
Proof.
  unfold retryable. simpl. intros -> H.
  destruct (retry_loop self create api_messages rest) as [r t].
  destruct (is_RateLimitError e); [split; reflexivity|].
  simpl in H. rewrite H.
  destruct (Z.of_nat k <? _max_retries self - 1); split; reflexivity.
Qed.

(** The loop over the attempts [a, a+1, ..., a+m-1]. *)
Lemma loop_spec (m : nat) : forall a : nat,
  let r := (loop (seq a m)).1 in
  let n := List.length (calls (loop (seq a m)).2) in
  calls (loop (seq a m)).2 = seq a n
  /\ (n <= m)%nat
  /\ (forall k, (a <= k)%nat -> (Datatypes.S k < a + n)%nat ->
        exists e, attempt_result k = inl e /\ retryable e = true)
  /\ (forall k e, (a <= k < a + n)%nat -> attempt_result k = inl e ->
        retryable e = false ->
        Datatypes.S k = (a + n)%nat /\ r = FALLBACK_MESSAGE)
  /\ (forall k c, (a <= k < a + n)%nat -> attempt_result k = inr c ->
        Datatypes.S k = (a + n)%nat /\ r = c)
  /\ ((forall k, (a <= k < a + n)%nat -> exists e, attempt_result k = inl e) ->
      r = FALLBACK_MESSAGE)
  /\ ((n < m)%nat ->
      exists k, Datatypes.S k = (a + n)%nat
                /\ ((exists c, attempt_result k = inr c)
                    \/ exists e, attempt_result k = inl e
                                 /\ retryable e = false)).
Proof.
  induction m as [|m IH]; intros a.
  - cbn. repeat split; intros; try lia; try reflexivity.
  - change (seq a (Datatypes.S m)) with (a :: seq (Datatypes.S a) m).
    specialize (IH (Datatypes.S a)). cbn zeta in IH.
    destruct (attempt_result a) as [e|c] eqn:Ha.
    + destruct (retryable e) eqn:He.
      * destruct (loop_retry a (seq (Datatypes.S a) m) e Ha He) as [E1 E2].
        cbn zeta. rewrite E1, E2. cbn [List.length].
        destruct IH as (I1 & I2 & I3 & I4 & I5 & I6 & I7).
        set (n := List.length (calls (loop (seq (Datatypes.S a) m)).2)) in *.
        split; [cbn [seq]; by rewrite I1|].
        split; [lia|].
        split.
        { intros k Hk1 Hk2. destruct (decide (k = a)) as [->|Hne]; [eauto|].
          apply I3; lia. }
        split.
        { intros k e' Hk He' Hr. destruct (decide (k = a)) as [->|Hne].
          - congruence.
          - destruct (I4 k e') as [? ?]; auto; [lia|]. split; [lia|done]. }
        split.
        { intros k c Hk Hc. destruct (decide (k = a)) as [->|Hne].
          - congruence.
          - destruct (I5 k c) as [? ?]; auto; [lia|]. split; [lia|done]. }
        split.
        { intros Hall. apply I6. intros k Hk. apply Hall. lia. }
        intros Hlt. destruct I7 as (k & Hk & Hcase); [lia|].
        exists k. split; [lia|exact Hcase].
      * cbn zeta. rewrite (loop_abandon a _ e Ha He). cbn.
        split; [reflexivity|]. split; [lia|].
        split; [intros; lia|].
        split.
        { intros k e' Hk _ _. split; [lia|reflexivity]. }
        split.
        { intros k c Hk Hc. assert (k = a) as -> by lia. congruence. }
        split; [reflexivity|].
        intros _. exists a. split; [lia|]. right. eauto.
    + cbn zeta. rewrite (loop_success a _ c Ha). cbn.
      split; [reflexivity|]. split; [lia|].
      split; [intros; lia|].
      split.
      { intros k e' Hk He'. assert (k = a) as -> by lia. congruence. }
      split.
      { intros k c' Hk Hc. assert (k = a) as -> by lia.
        split; [lia|congruence]. }
      split.
      { intros Hall. destruct (Hall a) as [e He]; [lia|congruence]. }
      intros _. exists a. split; [lia|]. left. eauto.
Qed.

Lemma retryable_transient e : retryable e = true <-> transient e.
Proof.
  unfold transient.
  destruct e; cbn; split; intros H; try reflexivity; try discriminate;
    try tauto; repeat (destruct H as [H|H]; try discriminate H);
    discriminate H.
Qed.

Lemma not_retryable e : retryable e = false <-> ~ transient e.
Proof.
  rewrite <- retryable_transient. destruct (retryable e); split; congruence.
Qed.

End ProviderFacts.

(** C3. [generate_response] always returns a string.  With
    [max_retries >= 0] it calls the provider for the attempts 0, 1, ...
    in order, at most [max_retries] times, and at least once when
    [max_retries] is positive.  A call that raises a rate-limit or API
    error is followed by the next attempt as long as fewer than
    [max_retries] calls have been made, and by the fallback string when
    it was the last one of the budget; every call but the last one made
    raised such an error.  A call that raises any other error is the last
    one and the result is the fallback string.  A call that returns a
    completion is the last one: the result is the content of its first
    choice when that is not empty, and the fallback string when the
    content is null or empty or when there is no choice.  When every
    attempt of the budget raises a rate-limit or API error, all
    [max_retries] calls are made and the result is the fallback string. *)
Theorem generate_response_contained
        (self : openai_provider.OpenAIProvider)
        (create : nat -> string -> list base.Message -> openai_provider.Outcome)
        (messages : list base.Message) (system_prompt : string)
        (Hmax : 0 <= openai_provider._max_retries self) :
  let outcome k :=
    create k (openai_provider._model self)
           ({| base.role := "system"; base.content := system_prompt |}
              :: messages) in
  let result :=
    (openai_provider.generate_response self create messages system_prompt).1 in
  let made :=
    openai_provider.calls
      (openai_provider.generate_response self create messages system_prompt).2 in
  let n := List.length made in
  let fallback :=
    "I'm having trouble right now. Please try again in a moment." in
  made = seq 0 n
  /\ Z.of_nat n <= openai_provider._max_retries self
  /\ (0 < openai_provider._max_retries self -> (0 < n)%nat)
  /\ (forall k e, (k < n)%nat -> outcome k = inl e -> Spec.transient e ->
        (Z.of_nat (Datatypes.S k) < openai_provider._max_retries self ->
         (Datatypes.S k < n)%nat)
        /\ (Z.of_nat (Datatypes.S k) = openai_provider._max_retries self ->
            Datatypes.S k = n /\ result = fallback))
  /\ (forall k, (Datatypes.S k < n)%nat ->
        exists e, outcome k = inl e /\ Spec.transient e)
  /\ (forall k e, (k < n)%nat -> outcome k = inl e -> ~ Spec.transient e ->
        Datatypes.S k = n /\ result = fallback)
  /\ (forall k choices, (k < n)%nat -> outcome k = inr choices ->
        Datatypes.S k = n
        /\ result = match choices with
                    | Some (String c content) :: _ => String c content
                    | _ => fallback
                    end)
  /\ ((forall k, Z.of_nat k < openai_provider._max_retries self ->
         exists e, outcome k = inl e /\ Spec.transient e) ->
      Z.of_nat n = openai_provider._max_retries self /\ result = fallback).
Proof.
  intros outcome result made n fallback.
  pose proof (loop_spec self create
                ({| base.role := "system"; base.content := system_prompt |}
                   :: messages)
                (Z.to_nat (openai_provider._max_retries self)) 0%nat) as H.
  cbn zeta in H.
  subst n made result outcome. cbn beta.
  unfold openai_provider.generate_response, openai_provider.range.
  cbn zeta. cbv beta in H.
  destruct H as (H1 & H2 & H3 & H4 & H5 & H6 & H7).
  set (api := {| base.role := "system"; base.content := system_prompt |}
                :: messages) in *.
  set (R := openai_provider.retry_loop self create _ _) in *.
  set (n := List.length (openai_provider.calls R.2)) in *.
  set (model := openai_provider._model self) in *.
  change (openai_provider.FALLBACK_MESSAGE) with fallback in *.
  assert (Hraise : forall k e, create k model api = inl e ->
                     openai_provider.try_body (create k model api) = inl e).
  { intros k e ->. reflexivity. }
  assert (Hbefore : forall k, (Datatypes.S k < n)%nat ->
                      exists e, create k model api = inl e /\ Spec.transient e).
  { intros k Hk. destruct (H3 k) as (e & He & Hr); [lia|lia|].
    apply retryable_transient in Hr.
    destruct (create k model api) as [e'|[|content rest]]; cbn in He.
    - injection He as ->. eauto.
    - injection He as <-. destruct Hr as [Hr|[Hr|[Hr|Hr]]]; discriminate Hr.
    - discriminate He. }
  assert (Hlast : forall k e, (k < n)%nat -> create k model api = inl e ->
                              Spec.transient e ->
                              Z.of_nat (Datatypes.S k)
                              < openai_provider._max_retries self ->
                              (Datatypes.S k < n)%nat).
  { intros k e Hk Ho Ht Hroom.
    destruct (decide (Datatypes.S k < n)%nat) as [|Hge]; [assumption|].
    exfalso. destruct H7 as (k' & Hk' & Hcase); [lia|].
    assert (k' = k) as -> by lia.
    rewrite (Hraise _ _ Ho) in Hcase.
    destruct Hcase as [[c Hc]|(e' & [= <-] & Hn)]; [discriminate Hc|].
    apply not_retryable in Hn. contradiction. }
  assert (Hall : (forall k, (k < n)%nat ->
                            exists e, create k model api = inl e) ->
                 R.1 = fallback).
  { intros Hfail. apply H6. intros k Hk.
    destruct (Hfail k) as [e He]; [lia|]. exists e. by apply Hraise. }
  split; [exact H1|].
  split; [lia|].
  split.
  { intros Hpos. destruct (decide (0 < n)%nat) as [|Hz]; [assumption|].
    destruct H7 as (k & Hk & _); lia. }
  split.
  { intros k e Hk Ho Ht. split; [by apply (Hlast k e)|].
    intros Hfull. split; [lia|].
    apply Hall. intros k' Hk'.
    destruct (decide (k' = k)) as [->|Hne]; [eauto|].
    destruct (Hbefore k') as (e' & He' & _); [lia|eauto]. }
  split; [exact Hbefore|].
  split.
  { intros k e Hk Ho Hn. apply (H4 k e); [lia|by apply Hraise|].
    by apply not_retryable. }
  split.
  { intros k choices Hk Ho.
    destruct choices as [|content rest].
    - apply (H4 k IndexError); [lia| |reflexivity].
      rewrite Ho. reflexivity.
    - destruct (H5 k (if Py.truthy_opt content then default "" content
                      else fallback)) as [Hn Hr]; [lia| |].
      + rewrite Ho. reflexivity.
      + split; [exact Hn|]. rewrite Hr.
        destruct content as [[|c content]|]; reflexivity. }
  intros Hfail.
  assert (Hn : Z.of_nat n = openai_provider._max_retries self).
  { destruct (decide (Z.of_nat n = openai_provider._max_retries self))
      as [|Hne]; [assumption|].
    exfalso. destruct H7 as (k & Hk & Hcase); [lia|].
    destruct (Hfail k) as (e & He & Ht); [lia|].
    rewrite (Hraise _ _ He) in Hcase.
    destruct Hcase as [[c Hc]|(e' & [= <-] & Hnr)]; [discriminate Hc|].
    apply not_retryable in Hnr. contradiction. }
  split; [exact Hn|].
  apply Hall. intros k Hk. destruct (Hfail k) as (e & He & _); [lia|eauto].
Qed.

Lemma generate_response_contained_witness :
  0 <= openai_provider._max_retries (openai_provider.__init__ "gpt-4o-mini")
  /\ openai_provider.calls
       (openai_provider.generate_response
          (openai_provider.__init__ "gpt-4o-mini") Samples.always_failing
          [] "prompt").2
     = seq 0 (List.length
                (openai_provider.calls
                   (openai_provider.generate_response
                      (openai_provider.__init__ "gpt-4o-mini")
                      Samples.always_failing [] "prompt").2)).
Proof.
  split; [vm_compute; discriminate|].
  exact (proj1 (generate_response_contained
                  (openai_provider.__init__ "gpt-4o-mini")
                  Samples.always_failing [] "prompt"
                  ltac:(vm_compute; discriminate))).
Defined.

Example generate_response_fallback :
  openai_provider.generate_response
    (openai_provider.__init__ "gpt-4o-mini") Samples.always_failing [] "prompt"
  = (openai_provider.FALLBACK_MESSAGE,
     [openai_provider.Call 0; openai_provider.Sleep 1;
      openai_provider.Call 1; openai_provider.Sleep 2;
      openai_provider.Call 2]).
Proof. vm_compute. reflexivity. Qed.

(** ** Message processor *)

Section ProcessorFacts.
Import sms Spec.
Context {W : Type}.
Variable self : SMSService W.
Variables phone_number content : string.

(** The body of the [try], run to its end or to the first exception. *)
Lemma process_body_cases (w : W) :
  (exists l w', process_body self phone_number content (w, []) = (inr true, (w', l)))
  \/ (exists e l w',
        process_body self phone_number content (w, []) = (inl e, (w', l))
        /\ collaborator_raises self phone_number content w e w').
Proof.
  unfold process_body, bind, call, log, ret.
  destruct (find_or_create (_conversations self) phone_number w)
    as [[e|c] w1] eqn:E1.
  { right. exists e, [], w1. split; [reflexivity|]. by apply raises_find_or_create. }
  cbn.
  destruct (create (_messages self) (conversation.id c) "user" content
                   "received" w1) as [[e|m] w2] eqn:E2.
  { right. eexists e, _, w2. split; [reflexivity|].
    eapply raises_create_user; eauto. }
  destruct (get_history (_messages self) (conversation.id c)
                        (_max_context self) w2) as [[e|h] w3] eqn:E3.
  { right. eexists e, _, w3. split; [reflexivity|].
    eapply raises_get_history; eauto. }
  cbn. fold (ai_messages h).
  destruct (generate_response (_ai self) (ai_messages h)
                              (_system_prompt self) w3) as [[e|r] w4] eqn:E4.
  { right. eexists e, _, w4. split; [reflexivity|].
    eapply raises_generate_response; eauto. }
  destruct (create (_messages self) (conversation.id c) "assistant" r
                   "pending" w4) as [[e|m'] w5] eqn:E5.
  { right. eexists e, _, w5. split; [reflexivity|].
    eapply raises_create_assistant; eauto. }
  destruct (enqueue (_outbox self) phone_number r w5) as [[e|rowid] w6] eqn:E6.
  { right. eexists e, _, w6. split; [reflexivity|].
    eapply raises_enqueue; eauto. }
  destruct (touch (_conversations self) (conversation.id c) w6)
    as [[e|[]] w7] eqn:E7.
  { right. eexists e, _, w7. split; [reflexivity|].
    eapply raises_touch; eauto. }
  left. eexists _, w7. reflexivity.
Qed.

(** An exception of a collaborator ends the body with that exception. *)
Lemma process_body_raises (w : W) e w' :
  collaborator_raises self phone_number content w e w' ->
  exists l, process_body self phone_number content (w, []) = (inl e, (w', l)).
Proof.
  unfold process_body, bind, call, log, ret.
  destruct 1;
    repeat match goal with
           | H : _ = (_, _) |- _ => rewrite H; clear H; cbn
           | |- context [List.map _ ?h] => progress fold (ai_messages h)
           end; eexists; reflexivity.
Qed.

End ProcessorFacts.

(** C5. When the sender is not authorized, [process_incoming] returns
    false at once: nothing is logged by it and the world, that is the
    database and the state of the AI provider, is left as it was. *)
Theorem process_incoming_unauthorized {W} (self : sms.SMSService W)
        (phone_number content : string) (timestamp : option string) (w : W)
        (Hauth : Auth.is_authorized (sms._auth self) phone_number = false) :
  sms.process_incoming self phone_number content timestamp w = (false, [], w).
Proof. unfold sms.process_incoming. rewrite Hauth. reflexivity. Qed.

Lemma process_incoming_unauthorized_witness :
  Auth.is_authorized (sms._auth Samples.allowlisted_service) "+15551111111"
  = false
  /\ sms.process_incoming Samples.allowlisted_service "+15551111111" "hi" None
                          Samples.world0
     = (false, [], Samples.world0).
Proof.
  split; [vm_compute; reflexivity|].
  apply (process_incoming_unauthorized Samples.allowlisted_service
           "+15551111111" "hi" None Samples.world0).
  vm_compute. reflexivity.
Defined.

(** C6. On the authorized path [process_incoming] always returns: when a
    collaborator raises an exception, the result is false, the exception
    is the last record logged and the world is the one the failing call
    left; and the result is true unless some collaborator raised. *)
Theorem process_incoming_never_raises {W} (self : sms.SMSService W)
        (phone_number content : string) (timestamp : option string) (w : W)
        (Hauth : Auth.is_authorized (sms._auth self) phone_number = true) :
  (forall e w',
      Spec.collaborator_raises self phone_number content w e w' ->
      exists l,
        sms.process_incoming self phone_number content timestamp w
        = (false, l ++ [sms.ErrorProcessing phone_number e], w'))
  /\ ((exists l w',
         sms.process_incoming self phone_number content timestamp w
         = (true, l, w'))
      \/ exists e w', Spec.collaborator_raises self phone_number content w e w').
Proof.
  unfold sms.process_incoming. rewrite Hauth. cbn [negb]. split.
  - intros e w' Hraise.
    destruct (process_body_raises self phone_number content w e w' Hraise)
      as [l ->].
    exists l. reflexivity.
  - destruct (process_body_cases self phone_number content w)
      as [(l & w' & ->) | (e & l & w' & -> & Hraise)].
    + left. eauto.
    + right. eauto.
Qed.

Lemma process_incoming_never_raises_witness :
  Auth.is_authorized (sms._auth Samples.broken_outbox_service) "+15551234567"
  = true
  /\ exists l w',
      sms.process_incoming Samples.broken_outbox_service "+15551234567" "hi"
                           None Samples.world0
      = (false, l ++ [sms.ErrorProcessing "+15551234567" OperationalError], w').
Proof.
  split; [vm_compute; reflexivity|].
  destruct (process_incoming_never_raises Samples.broken_outbox_service
              "+15551234567" "hi" None Samples.world0 eq_refl)
    as [Hraise _].
  edestruct (Hraise OperationalError) as [l Hl].
  { eapply Spec.raises_enqueue; reflexivity. }
  exists l. eexists. exact Hl.
Defined.

Section EffectFacts.
Import database.

Lemma find_or_create_ok d phone_number now d' c :
  ConversationRepository.find_or_create d phone_number now = inr (d', c) ->
  messages d' = messages d /\ outbox d' = outbox d
  /\ conversation.phone_number c = phone_number
  /\ c ∈ conversations d'.
Proof.
  unfold ConversationRepository.find_or_create,
    ConversationRepository.find_by_phone.
  destruct (List.find _ (conversations d)) as [existing|] eqn:E.
  - intros [= <- <-]. apply find_some in E as [Hin Heq].
    apply String.eqb_eq in Heq. repeat split; auto.
    by apply list_elem_of_In.
  - unfold ConversationRepository.insert.
    destruct (existsb _ _); [discriminate|].
    intros [= <- <-]. cbn. repeat split.
    apply elem_of_app. right. apply list_elem_of_here.
Qed.

Lemma create_ok d conversation_id role content status now d' m :
  MessageRepository.create d conversation_id role content status now
  = inr (d', m) ->
  messages d' = messages d ++ [m] /\ outbox d' = outbox d
  /\ conversations d' = conversations d
  /\ message.conversation_id m = conversation_id /\ message.role m = role
  /\ message.content m = content /\ message.status m = status.
Proof.
  unfold MessageRepository.create.
  destruct (_ && _); [|discriminate].
  intros [= <- <-]. cbn. repeat split.
Qed.

Lemma touch_ok d conversation_id now c :
  messages (ConversationRepository.touch d conversation_id now) = messages d
  /\ outbox (ConversationRepository.touch d conversation_id now) = outbox d
  /\ (c ∈ conversations d ->
      exists c', c' ∈ conversations
                        (ConversationRepository.touch d conversation_id now)
                 /\ conversation.id c' = conversation.id c
                 /\ conversation.phone_number c' = conversation.phone_number c).
Proof.
  split; [reflexivity|]. split; [reflexivity|].
  intros Hc. cbn [ConversationRepository.touch conversations].
  eexists. split.
  - apply list_elem_of_In, in_map, list_elem_of_In, Hc.
  - cbn beta. destruct (conversation.id c =? conversation_id); split; reflexivity.
Qed.

End EffectFacts.

(** C8. When [process_incoming] of the wired service returns true, the
    messages table has grown by exactly two rows of the sender's
    conversation, the user message (inbound content, status received)
    followed by the assistant message (the provider's reply, status
    pending), and the outbox by exactly one pending entry that carries the
    assistant message's content and the sender's number. *)
Theorem process_incoming_effects {P} (utcnow : nat -> string)
        (settings : config.Settings) (ai : sms.AIProvider P)
        (phone_number content : string) (timestamp : option string)
        (w : dependencies.World P) (l : list sms.LogRecord)
        (w' : dependencies.World P)
        (Hok : sms.process_incoming
                 (dependencies.get_sms_service utcnow settings ai)
                 phone_number content timestamp w = (true, l, w')) :
  exists c reply user_msg assistant_msg entry,
    database.messages (dependencies.db w')
    = database.messages (dependencies.db w) ++ [user_msg; assistant_msg]
    /\ database.outbox (dependencies.db w')
       = database.outbox (dependencies.db w) ++ [entry]
    /\ (exists c', c' ∈ database.conversations (dependencies.db w')
                   /\ conversation.id c' = conversation.id c
                   /\ conversation.phone_number c' = phone_number)
    /\ conversation.phone_number c = phone_number
    /\ message.conversation_id user_msg = conversation.id c
    /\ message.role user_msg = "user"
    /\ message.content user_msg = content
    /\ message.status user_msg = "received"
    /\ message.conversation_id assistant_msg = conversation.id c
    /\ message.role assistant_msg = "assistant"
    /\ message.content assistant_msg = reply
    /\ message.status assistant_msg = "pending"
    /\ outbox.status entry = "pending"
    /\ outbox.content entry = message.content assistant_msg
    /\ outbox.phone_number entry = phone_number
    /\ outbox.sent_at entry = None
    /\ exists d history,
        database.messages d = database.messages (dependencies.db w) ++ [user_msg]
        /\ history = MessageRepository.get_history
                       d (conversation.id c)
                       (config.max_context_messages settings)
        /\ sms.generate_response ai (Spec.ai_messages history)
                                 (config.system_prompt settings)
                                 (dependencies.ai_state w)
           = (inr reply, dependencies.ai_state w').
Proof.
  unfold sms.process_incoming in Hok.
  destruct (negb _); [discriminate|].
  unfold sms.process_body, bind, sms.call, sms.log, ret in Hok.
  unfold dependencies.get_sms_service, dependencies.conversation_repo,
    dependencies.message_repo, dependencies.outbox_repo,
    dependencies.ai_provider in Hok.
  cbn [sms._conversations sms._messages sms._outbox sms._ai sms._system_prompt
       sms._max_context sms.find_or_create sms.touch sms.create
       sms.get_history sms.enqueue sms.generate_response] in Hok.
  destruct (ConversationRepository.find_or_create _ _ _)
    as [e|[d1 c]] eqn:E1; [discriminate|].
  cbn [dependencies.advance dependencies.db dependencies.ticks
       dependencies.ai_state] in Hok.
  destruct (MessageRepository.create d1 _ _ _ _ _)
    as [e|[d2 user_msg]] eqn:E2; [discriminate|].
  cbn [dependencies.advance dependencies.db dependencies.ticks
       dependencies.ai_state] in Hok.
  fold (Spec.ai_messages
          (MessageRepository.get_history
             d2 (conversation.id c) (config.max_context_messages settings)))
    in Hok.
  destruct (sms.generate_response ai _ _ _) as [[e|reply] p'] eqn:E3;
    [discriminate|].
  cbn [dependencies.advance dependencies.db dependencies.ticks
       dependencies.ai_state] in Hok.
  destruct (MessageRepository.create d2 _ _ _ _ _)
    as [e|[d3 assistant_msg]] eqn:E4; [discriminate|].
  cbn [dependencies.advance dependencies.db dependencies.ticks
       dependencies.ai_state OutboxRepository.enqueue] in Hok.
  injection Hok as _ <-.
  cbn [dependencies.db dependencies.ai_state].
  apply find_or_create_ok in E1 as (M1 & O1 & Hphone & Hc).
  apply create_ok in E2 as (M2 & O2 & C2 & U1 & U2 & U3 & U4).
  apply create_ok in E4 as (M3 & O3 & C3 & A1 & A2 & A3 & A4).
  eexists c, reply, user_msg, assistant_msg, _.
  split.
  { cbn [ConversationRepository.touch database.messages].
    rewrite M3, M2, M1, <- app_assoc. reflexivity. }
  split.
  { cbn [ConversationRepository.touch database.outbox].
    rewrite O3, O2, O1. reflexivity. }
  split.
  { match goal with
    | |- context [ConversationRepository.touch ?d ?i ?n] =>
        destruct (touch_ok d i n c) as (_ & _ & Ht)
    end.
    destruct Ht as (c' & Hin & Hid & Hph).
    - cbn [database.conversations]. rewrite C3, C2. exact Hc.
    - exists c'. rewrite Hph. auto. }
  repeat (split; [first [assumption | reflexivity | cbn; congruence]|]).
  exists d2, (MessageRepository.get_history
                d2 (conversation.id c) (config.max_context_messages settings)).
  rewrite M2, M1. repeat split. exact E3.
Qed.

Lemma process_incoming_effects_witness :
  Samples.end_to_end
  = (true, Samples.end_to_end.1.2, Samples.end_to_end.2)
  /\ exists user_msg assistant_msg entry,
      database.messages (dependencies.db Samples.end_to_end.2)
      = database.messages (dependencies.db Samples.world0)
        ++ [user_msg; assistant_msg]
      /\ database.outbox (dependencies.db Samples.end_to_end.2)
         = database.outbox (dependencies.db Samples.world0) ++ [entry]
      /\ message.content user_msg = "hi"
      /\ outbox.content entry = message.content assistant_msg.
Proof.
  assert (H : Samples.end_to_end
              = (true, Samples.end_to_end.1.2, Samples.end_to_end.2))
    by (vm_compute; reflexivity).
  split; [exact H|].
  destruct (process_incoming_effects
              Samples.clock (Samples.settings [] None) Samples.stub_hello
              "+15551234567" "hi" None Samples.world0 _ _ H)
    as (c & reply & user_msg & assistant_msg & entry & Hm & Ho & _ & _ & _ & _
        & Hu & _ & _ & _ & _ & _ & _ & He & _).
  exists user_msg, assistant_msg, entry. auto.
Defined.

Example end_to_end_rows :
  List.map (fun m => (message.role m, message.content m, message.status m))
           (database.messages (dependencies.db Samples.end_to_end.2))
  = [("user", "hi", "received"); ("assistant", "hello", "pending")]
  /\ List.map (fun r => (outbox.phone_number r, outbox.content r, outbox.status r))
              (database.outbox (dependencies.db Samples.end_to_end.2))
     = [("+15551234567", "hello", "pending")]
  /\ List.map conversation.phone_number
              (database.conversations (dependencies.db Samples.end_to_end.2))
     = ["+15551234567"].
Proof. vm_compute. repeat split. Qed.

(** ** Inbound route *)

(** C7, refuted as stated: the allowlisted system with "+15559999999"
    configured and no API key answers a message from "+15551111111", a
    number that is not authorized, with ok = true. *)
Lemma receive_sms_unauthorized_not_rejected :
  ~ (Auth.is_authorized (sms._auth Samples.allowlisted_service) "+15551111111"
     = false ->
     models.ok (routes.receive_sms
                  (Samples.request "+15551111111" "hi")
                  Samples.allowlisted_service None
                  (Samples.settings ["+15559999999"] None)
                  Samples.world0).1.1
     = false).
Proof.
  intros H. specialize (H ltac:(vm_compute; reflexivity)).
  vm_compute in H. discriminate.
Qed.

(** C7, amended.  [receive_sms] always returns an [OkResponse] (answered
    with status 200); ok is false exactly when an API key is configured
    and the key sent with the request differs from it, and then nothing
    is processed.  In every other case ok is true, whatever
    [process_incoming] returns, so also for a sender that is not
    authorized. *)
Theorem receive_sms_ok {W} (request : models.IncomingSMSRequest)
        (sms_service : sms.SMSService W) (x_api_key : option string)
        (settings : config.Settings) (w : W) :
  let bad_key := Py.truthy_opt (config.sms_api_key settings) = true
                 /\ x_api_key <> config.sms_api_key settings in
  let out := routes.receive_sms request sms_service x_api_key settings w in
  (models.ok out.1.1 = false <-> bad_key)
  /\ (bad_key -> out = ({| models.ok := false |}, [], w))
  /\ (~ bad_key ->
      models.ok out.1.1 = true
      /\ out.1.2 = (sms.process_incoming
                      sms_service (models.from_number request)
                      (models.content request) (models.timestamp request) w).1.2
      /\ out.2 = (sms.process_incoming
                    sms_service (models.from_number request)
                    (models.content request) (models.timestamp request) w).2).
Proof.
  intros bad_key out. subst bad_key out. unfold routes.receive_sms.
  destruct (Py.truthy_opt (config.sms_api_key settings)) eqn:Hk; cbn [andb].
  - destruct (decide (x_api_key = config.sms_api_key settings)) as [Heq|Hne].
    + rewrite bool_decide_eq_true_2 by assumption. cbn [negb].
      destruct (sms.process_incoming _ _ _ _ _) as [[b l] w'] eqn:E. cbn.
      split; [split; [discriminate|intros [_ Hc]; contradiction]|].
      split; [intros [_ Hc]; contradiction|]. auto.
    + rewrite bool_decide_eq_false_2 by assumption. cbn [negb]. cbn.
      split; [tauto|]. split; [reflexivity|]. intros Hc. exfalso. tauto.
  - destruct (sms.process_incoming _ _ _ _ _) as [[b l] w'] eqn:E. cbn.
    split; [split; [discriminate|intros [Hc _]; discriminate]|].
    split; [intros [Hc _]; discriminate|]. auto.
Qed.

(** ** Conversation store *)

(** A call of [find_or_create] that is not interrupted takes the two
    steps of its task. *)
Lemma find_or_create_steps (db : database.DB) (phone_number now now' : string) :
  ConversationRepository.run [(0%nat, now'); (0%nat, now)]
                             [ConversationRepository.AtFind phone_number] db
  = match ConversationRepository.find_or_create db phone_number now with
    | inl e => ([ConversationRepository.Raised e], db)
    | inr (db', c) => ([ConversationRepository.Returned c], db')
    end.
Proof.
  unfold ConversationRepository.find_or_create. cbn.
  destruct (ConversationRepository.find_by_phone db phone_number); cbn;
    [reflexivity|].
  destruct (ConversationRepository.insert db phone_number now) as [e|[d i]];
    reflexivity.
Qed.

(** C2, on the code: two concurrent calls of [find_or_create] for
    "+15551234567" on an empty table, each suspended after its SELECT
    found no row.  The first INSERT succeeds, the second violates the
    UNIQUE constraint: the second caller gets an IntegrityError instead of
    the conversation, and the table holds one row. *)
Theorem find_or_create_race :
  exists c db',
    ConversationRepository.run
      [(0%nat, "2024-01-01T00:00:00"); (1%nat, "2024-01-01T00:00:00");
       (0%nat, "2024-01-01T00:00:01"); (1%nat, "2024-01-01T00:00:02")]
      [ConversationRepository.AtFind "+15551234567";
       ConversationRepository.AtFind "+15551234567"]
      database.empty
    = ([ConversationRepository.Returned c;
        ConversationRepository.Raised IntegrityError], db')
    /\ List.map conversation.phone_number (database.conversations db')
       = ["+15551234567"].
Proof. eexists _, _. vm_compute. split; reflexivity. Qed.

(** When the two calls run one after the other, both return the same
    conversation. *)
Example find_or_create_sequential :
  exists c db',
    ConversationRepository.run
      [(0%nat, "2024-01-01T00:00:00"); (0%nat, "2024-01-01T00:00:01");
       (1%nat, "2024-01-01T00:00:02"); (1%nat, "2024-01-01T00:00:03")]
      [ConversationRepository.AtFind "+15551234567";
       ConversationRepository.AtFind "+15551234567"]
      database.empty
    = ([ConversationRepository.Returned c;
        ConversationRepository.Returned c], db')
    /\ List.map conversation.phone_number (database.conversations db')
       = ["+15551234567"].
Proof. eexists _, _. vm_compute. split; reflexivity. Qed.

(** * Further properties of the code *)

(** ** Authorization gate: normal forms and formatting *)

Section AuthExtra.
Import Py Auth Spec.

Lemma sub_non_digits_app s t :
  sub_non_digits (s ++ t)%string = (sub_non_digits s ++ sub_non_digits t)%string.
Proof.
  induction s as [|c s IH]; simpl; [reflexivity|].
  destruct (isdigit c); simpl; by rewrite IH.
Qed.

End AuthExtra.

(** X1. A number is authorized as soon as its normalization is that of a
    configured, non-empty number; in particular every configured number
    is authorized, in any formatting with the same normal form. *)
Theorem configured_number_authorized (allowed : list string) (n p : string)
        (Hin : n ∈ allowed) (Hne : n <> "")
        (Hsame : Auth._normalize p = Auth._normalize n) :
  Auth.is_authorized (Auth.__init__ allowed) p = true.
Proof.
  unfold Auth.is_authorized.
  destruct (Auth._open_mode (Auth.__init__ allowed)); [reflexivity|].
  apply bool_decide_eq_true. apply allowed_elem. exists n. auto.
Qed.

Lemma configured_number_authorized_witness :
  "+15551234567" ∈ ["+15559999999"; "+15551234567"]
  /\ "+15551234567" <> ""
  /\ Auth._normalize "+1 (555) 123-4567" = Auth._normalize "+15551234567"
  /\ Auth.is_authorized (Auth.__init__ ["+15559999999"; "+15551234567"])
                        "+1 (555) 123-4567" = true.
Proof.
  assert (H1 : "+15551234567" ∈ ["+15559999999"; "+15551234567"])
    by (apply list_elem_of_further, list_elem_of_here).
  assert (H2 : "+15551234567" <> "") by discriminate.
  assert (H3 : Auth._normalize "+1 (555) 123-4567"
               = Auth._normalize "+15551234567") by reflexivity.
  split; [exact H1|]. split; [exact H2|]. split; [exact H3|].
  exact (configured_number_authorized _ _ _ H1 H2 H3).
Defined.

(** X2. Formatting characters do not matter: a character that is not a
    digit, anywhere after the first character of a number that does not
    start with white space, can be removed without changing the
    normalization, hence the authorization. *)
Theorem normalize_ignores_formatting (a c : ascii) (s1 s2 : string)
        (Ha : Py.isspace a = false) (Hc : Py.isdigit c = false) :
  Auth._normalize (String a (s1 ++ String c s2))
  = Auth._normalize (String a (s1 ++ s2)).
Proof.
  rewrite !normalize_shape, !leading_plus_head by assumption.
  f_equal.
  change (String a (s1 ++ String c s2))
    with ((String a s1) ++ String c s2)%string.
  change (String a (s1 ++ s2)) with ((String a s1) ++ s2)%string.
  rewrite !sub_non_digits_app. f_equal.
  simpl. rewrite Hc. reflexivity.
Qed.

Lemma normalize_ignores_formatting_witness :
  Py.isspace "+" = false /\ Py.isdigit "-" = false
  /\ Auth._normalize (String "+" ("1555" ++ String "-" "1234567"))
     = Auth._normalize (String "+" ("1555" ++ "1234567")).
Proof.
  split; [reflexivity|]. split; [reflexivity|].
  exact (normalize_ignores_formatting "+" "-" "1555" "1234567"
                                      eq_refl eq_refl).
Defined.

(** X3. The normalization of any string is a string of digits, preceded
    by one plus sign or by nothing; it holds no white space, and a number
    in normal form is its own normalization. *)
Theorem normalize_normal_form (p : string) :
  exists d,
    Spec.str_all Py.isdigit d = true
    /\ (Auth._normalize p = d \/ Auth._normalize p = String "+" d)
    /\ Spec.str_all (fun c => negb (Py.isspace c)) (Auth._normalize p) = true
    /\ Auth._normalize d = d
    /\ Auth._normalize (String "+" d) = String "+" d.
Proof.
  exists (Py.sub_non_digits p).
  pose proof (sub_non_digits_all p) as Hd.
  assert (Hshape : Auth._normalize p = Py.sub_non_digits p
                   \/ Auth._normalize p = String "+" (Py.sub_non_digits p)).
  { rewrite normalize_shape. destruct (Spec.leading_plus p); auto. }
  assert (Hplus : Auth._normalize (String "+" (Py.sub_non_digits p))
                  = String "+" (Py.sub_non_digits p)).
  { rewrite normalize_shape, leading_plus_head by reflexivity.
    cbn. rewrite sub_non_digits_idem. reflexivity. }
  assert (Hdig : Auth._normalize (Py.sub_non_digits p) = Py.sub_non_digits p).
  { destruct (Spec.leading_plus p) eqn:E.
    - rewrite normalize_shape, sub_non_digits_idem.
      destruct (Py.sub_non_digits p) as [|x t] eqn:Ex; [reflexivity|].
      cbn [Spec.str_all] in Hd. apply andb_true_iff in Hd as [Hx _].
      rewrite leading_plus_head by (by apply isdigit_not_space).
      destruct (Ascii.eqb_spec x "+") as [->|_]; [discriminate|reflexivity].
    - assert (E' : Auth._normalize p = Py.sub_non_digits p)
        by (rewrite normalize_shape, E; reflexivity).
      rewrite <- E'. apply normalize_idem. }
  split; [exact Hd|]. split; [exact Hshape|].
  split; [|split; assumption].
  destruct Hshape as [-> | ->].
  - by apply digits_no_space.
  - cbn [Spec.str_all]. rewrite digits_no_space by assumption. reflexivity.
Qed.

(** ** Settings: the allowlist read from the environment *)

Section ConfigExtra.
Import Py Spec.

Lemma lstrip_idem s : lstrip (lstrip s) = lstrip s.
Proof.
  induction s as [|c s IH]; simpl; [reflexivity|].
  destruct (isspace c) eqn:E; [exact IH|]. simpl. rewrite E. reflexivity.
Qed.

Lemma rstrip_lstrip s : rstrip (lstrip s) = lstrip (rstrip s).
Proof.
  induction s as [|c s IH]; [reflexivity|].
  cbn [lstrip]. destruct (isspace c) eqn:E.
  - rewrite IH. cbn [rstrip]. destruct (rstrip s) as [|d r].
    + rewrite E. reflexivity.
    + cbn [lstrip]. rewrite E. reflexivity.
  - destruct (rstrip_head c s E) as [t' Ht]. rewrite Ht.
    cbn [lstrip]. rewrite E. reflexivity.
Qed.

Lemma rstrip_idem s : rstrip (rstrip s) = rstrip s.
Proof.
  induction s as [|c s IH]; [reflexivity|].
  cbn [rstrip]. destruct (rstrip s) as [|d r] eqn:R.
  - destruct (isspace c) eqn:E; [reflexivity|].
    cbn [rstrip]. rewrite E. reflexivity.
  - cbn [rstrip]. cbn [rstrip] in IH.
    change (match rstrip r with
            | "" => if isspace d then "" else String d ""
            | String a1 s1 => String d (String a1 s1)
            end) with (rstrip (String d r)) in *.
    rewrite IH. reflexivity.
Qed.

Lemma strip_idem s : strip (strip s) = strip s.
Proof.
  unfold strip. rewrite rstrip_lstrip, rstrip_idem, lstrip_idem. reflexivity.
Qed.

Lemma str_all_lstrip P s : str_all P s = true -> str_all P (lstrip s) = true.
Proof.
  induction s as [|c s IH]; simpl; [reflexivity|].
  intros [Hc Hs]%andb_true_iff.
  destruct (isspace c); [auto|]. simpl. rewrite Hc, Hs. reflexivity.
Qed.

Lemma str_all_rstrip P s : str_all P s = true -> str_all P (rstrip s) = true.
Proof.
  induction s as [|c s IH]; simpl; [reflexivity|].
  intros [Hc Hs]%andb_true_iff. specialize (IH Hs).
  destruct (rstrip s) as [|d r].
  - destruct (isspace c); simpl; [reflexivity|]. rewrite Hc. reflexivity.
  - cbn [str_all] in *. rewrite Hc, IH. reflexivity.
Qed.

Lemma str_all_strip P s : str_all P s = true -> str_all P (strip s) = true.
Proof. intros H. unfold strip. by apply str_all_lstrip, str_all_rstrip. Qed.

Lemma split_pieces sep s x :
  x ∈ split sep s -> str_all (fun c => negb (Ascii.eqb c sep)) x = true.
Proof.
  revert x. induction s as [|c s IH]; intros x; simpl.
  - intros ->%list_elem_of_singleton. reflexivity.
  - destruct (Ascii.eqb c sep) eqn:E.
    + intros [-> | Hx]%elem_of_cons; [reflexivity|auto].
    + destruct (split sep s) as [|piece pieces] eqn:S.
      * intros ->%list_elem_of_singleton. simpl. rewrite E. reflexivity.
      * intros [-> | Hx]%elem_of_cons.
        -- simpl. rewrite E. simpl. apply IH. apply list_elem_of_here.
        -- apply IH. by apply list_elem_of_further.
Qed.

Lemma split_no_sep sep x :
  str_all (fun c => negb (Ascii.eqb c sep)) x = true -> split sep x = [x].
Proof.
  induction x as [|c x IH]; simpl; [reflexivity|].
  intros [Hc Hx]%andb_true_iff. apply negb_true_iff in Hc.
  rewrite Hc, IH by assumption. reflexivity.
Qed.

Lemma split_app sep x rest :
  str_all (fun c => negb (Ascii.eqb c sep)) x = true ->
  split sep (x ++ String sep rest) = x :: split sep rest.
Proof.
  induction x as [|c x IH]; simpl.
  - intros _. rewrite Ascii.eqb_refl. reflexivity.
  - intros [Hc Hx]%andb_true_iff. apply negb_true_iff in Hc.
    rewrite Hc, IH by assumption. reflexivity.
Qed.

Lemma split_join sep l :
  l <> [] ->
  Forall (fun x => str_all (fun c => negb (Ascii.eqb c sep)) x = true) l ->
  split sep (join sep l) = l.
Proof.
  induction l as [|x l IH]; [congruence|]. intros _ Hall.
  inversion Hall as [|? ? Hx Hl]; subst.
  destruct l as [|y l'].
  - simpl. by apply split_no_sep.
  - change (join sep (x :: y :: l'))
      with (x ++ String sep (join sep (y :: l')))%string.
    rewrite split_app by assumption. rewrite IH; [reflexivity|discriminate|assumption].
Qed.

End ConfigExtra.

(** X4. The numbers parsed from a comma-separated value are clean: none
    is empty, none has white space at its ends, none holds a comma; and a
    value that is empty or only white space gives the empty list (open
    mode). *)
Theorem parse_phone_numbers_clean (s : string) :
  (forall x, x ∈ config.parse_phone_numbers (inl s) ->
             x <> "" /\ Py.strip x = x
             /\ Spec.str_all (fun c => negb (Ascii.eqb c ",")) x = true)
  /\ (Py.strip s = "" -> config.parse_phone_numbers (inl s) = []).
Proof.
  unfold config.parse_phone_numbers. split.
  - intros x Hx.
    destruct (negb (Py.truthy s) || negb (Py.truthy (Py.strip s)));
      [by apply elem_of_nil in Hx|].
    apply list_elem_of_In in Hx. apply in_map_iff in Hx as (num & <- & Hnum).
    apply filter_In in Hnum as [Hnum Ht].
    split; [intros E; rewrite E in Ht; discriminate|].
    split; [apply strip_idem|].
    apply str_all_strip, (split_pieces _ s), list_elem_of_In, Hnum.
  - intros ->. rewrite orb_true_r. reflexivity.
Qed.

(** X5. Round trip: a list of numbers none of which is empty, has white
    space at its ends or holds a comma is read back unchanged from its
    comma-joined text. *)
Theorem parse_phone_numbers_join (l : list string)
        (Hclean : Forall (fun x => x <> "" /\ Py.strip x = x
                                   /\ Spec.str_all
                                        (fun c => negb (Ascii.eqb c ",")) x
                                      = true) l) :
  config.parse_phone_numbers (inl (Py.join "," l)) = l.
Proof.
  destruct l as [|x l]; [reflexivity|].
  unfold config.parse_phone_numbers.
  assert (Hx : exists a t, x = String a t /\ Py.isspace a = false).
  { inversion Hclean as [|? ? (Hne & Hs & _) _]; subst.
    destruct x as [|a t]; [congruence|]. exists a, t. split; [reflexivity|].
    destruct (Py.isspace a) eqn:E; [|reflexivity].
    unfold Py.strip in Hs.
    assert (Hl : Py.lstrip (Py.lstrip (Py.rstrip (String a t)))
                 = Py.lstrip (String a t)) by (rewrite Hs; reflexivity).
    rewrite lstrip_idem, Hs in Hl. simpl in Hl. rewrite E in Hl.
    assert (Hlen : (String.length (Py.lstrip t) <= String.length t)%nat).
    { clear. induction t as [|c t IH]; simpl; [lia|].
      destruct (Py.isspace c); simpl; lia. }
    rewrite <- Hl in Hlen. simpl in Hlen. lia. }
  destruct Hx as (a & t & -> & Ha).
  assert (Hjoin : exists t', Py.join "," (String a t :: l) = String a t').
  { destruct l; simpl; eauto. }
  destruct Hjoin as [t' Hj].
  assert (Hcond : negb (Py.truthy (Py.join "," (String a t :: l)))
                  || negb (Py.truthy (Py.strip (Py.join "," (String a t :: l))))
                  = false).
  { rewrite Hj. destruct (strip_head a t' Ha) as [t'' ->]. reflexivity. }
  rewrite Hcond.
  rewrite split_join; [|discriminate|].
  - assert (Hkeep : forall l', Forall (fun x => x <> "" /\ Py.strip x = x
                                  /\ Spec.str_all
                                       (fun c => negb (Ascii.eqb c ",")) x
                                     = true) l' ->
                     List.map Py.strip
                       (List.filter (fun num => Py.truthy (Py.strip num)) l')
                     = l').
    { induction 1 as [|y l' (Hne & Hs & _) _ IH]; [reflexivity|].
      simpl. rewrite Hs. destruct y; [congruence|].
      simpl. rewrite Hs, IH. reflexivity. }
    apply Hkeep, Hclean.
  - eapply Forall_impl; [exact Hclean|]. intros y (_ & _ & Hy). exact Hy.
Qed.

Lemma parse_phone_numbers_join_witness :
  Forall (fun x => x <> "" /\ Py.strip x = x
                   /\ Spec.str_all (fun c => negb (Ascii.eqb c ",")) x = true)
         ["+15551234567"; "+15559999999"]
  /\ config.parse_phone_numbers
       (inl (Py.join "," ["+15551234567"; "+15559999999"]))
     = ["+15551234567"; "+15559999999"].
Proof.
  assert (H : Forall (fun x => x <> "" /\ Py.strip x = x
                     /\ Spec.str_all (fun c => negb (Ascii.eqb c ",")) x = true)
                     ["+15551234567"; "+15559999999"]).
  { repeat constructor; discriminate. }
  split; [exact H|].
  exact (parse_phone_numbers_join _ H).
Defined.

Example parse_phone_numbers_example :
  config.parse_phone_numbers (inl " +15551234567 , ,+1 555 999 9999,")
  = ["+15551234567"; "+1 555 999 9999"].
Proof. vm_compute. reflexivity. Qed.

(** ** Outbox queue: enqueue, poll, acknowledge, clean up *)

Section OutboxExtra.
Import database outbox OutboxRepository Spec.

#[local] Instance created_at_asc_total : Total created_at_asc.
Proof.
  intros a b. unfold created_at_asc, text_le.
  destruct (String.leb_total (created_at a) (created_at b)); auto.
Qed.

#[local] Instance created_at_asc_trans : Transitive created_at_asc.
Proof.
  intros a b c Hab Hbc. unfold created_at_asc, text_le in *.
  eapply string_leb_trans; eassumption.
Qed.

Lemma order_by_created_at_sorted (rows : list OutboxMessage) :
  StronglySorted created_at_asc (merge_sort created_at_asc rows).
Proof. apply StronglySorted_merge_sort; apply _. Qed.

Lemma filter_length_le {A} (f : A -> bool) (l : list A) :
  (List.length (List.filter f l) <= List.length l)%nat.
Proof. induction l as [|x l IH]; simpl; [lia|]. destruct (f x); simpl; lia. Qed.

Lemma NoDup_map_filter {A B} (g : A -> B) (f : A -> bool) (l : list A) :
  NoDup (List.map g l) -> NoDup (List.map g (List.filter f l)).
Proof.
  induction l as [|x l IH]; simpl; [auto|].
  intros [Hx Hl]%NoDup_cons. destruct (f x); simpl; [|auto].
  apply NoDup_cons. split; [|auto].
  intros Hin. apply Hx.
  apply list_elem_of_In in Hin. apply in_map_iff in Hin as (y & Hg & Hy).
  apply list_elem_of_In, in_map_iff. exists y. split; [exact Hg|].
  apply filter_In in Hy. tauto.
Qed.

Lemma Forall_filter_keep {A} (P : A -> Prop) (f : A -> bool) (l : list A) :
  Forall P l -> Forall P (List.filter f l).
Proof.
  induction 1 as [|x l Hx _ IH]; simpl; [constructor|].
  destruct (f x); [constructor|]; auto.
Qed.

End OutboxExtra.

Section OutboxSchema.
Import database outbox OutboxRepository Spec.

Lemma ids_ok_snoc {A} (id : A -> Z) (rows : list A) (seq : Z) (row : A) :
  ids_ok id rows seq -> id row = seq + 1 ->
  ids_ok id (rows ++ [row]) (seq + 1).
Proof.
  intros [Hnd Hle] Hid. split.
  - rewrite map_app. apply NoDup_app. split; [exact Hnd|].
    split; [|apply NoDup_singleton].
    intros x Hx Hx'. cbn in Hx'. apply list_elem_of_singleton in Hx'. subst x.
    apply list_elem_of_In, in_map_iff in Hx as (r & Hr & Hin).
    rewrite Forall_forall in Hle. apply list_elem_of_In, Hle in Hin. lia.
  - apply Forall_app. split.
    + eapply Forall_impl; [exact Hle|]. intros r Hr. cbn in Hr. lia.
    + constructor; [lia|constructor].
Qed.

Lemma ids_ok_fresh {A} (id : A -> Z) (rows : list A) (seq : Z) (r : A) :
  ids_ok id rows seq -> r ∈ rows -> id r <> seq + 1.
Proof.
  intros [_ Hle] Hin. rewrite Forall_forall in Hle. apply Hle in Hin. lia.
Qed.

Lemma ids_ok_filter {A} (id : A -> Z) (f : A -> bool) (rows : list A) seq :
  ids_ok id rows seq -> ids_ok id (List.filter f rows) seq.
Proof.
  intros [Hnd Hle]. split; [by apply NoDup_map_filter|by apply Forall_filter_keep].
Qed.

Lemma ids_ok_map {A} (id : A -> Z) (f : A -> A) (rows : list A) seq :
  (forall r, id (f r) = id r) ->
  ids_ok id rows seq -> ids_ok id (List.map f rows) seq.
Proof.
  intros Hf [Hnd Hle]. split.
  - rewrite List.map_map. erewrite List.map_ext; [exact Hnd|]. exact Hf.
  - apply Forall_forall. intros x Hx.
    apply list_elem_of_In, in_map_iff in Hx as (r & <- & Hr).
    rewrite Hf. rewrite Forall_forall in Hle. apply Hle, list_elem_of_In, Hr.
Qed.

End OutboxSchema.

Lemma outbox_schema_steps (db : database.DB)
        (Hok : Spec.schema_ok db) :
  (forall phone_number content now,
      Spec.schema_ok (OutboxRepository.enqueue db phone_number content now).1)
  /\ (forall message_id status now db' applied,
         OutboxRepository.acknowledge db message_id status now
         = inr (db', applied) ->
         Spec.schema_ok db')
  /\ (forall cutoff, Spec.schema_ok (OutboxRepository.cleanup_old db cutoff).1).
Proof.
  destruct Hok as (Hc & Hp & Hm & Hfk & Ho & Hs).
  split; [|split].
  - intros phone_number content now. unfold Spec.schema_ok. cbn.
    do 4 (split; [assumption|]). split.
    + apply (ids_ok_snoc outbox.id); [exact Ho|reflexivity].
    + apply Forall_app. split; [exact Hs|]. repeat constructor.
  - intros message_id status now db' applied.
    unfold OutboxRepository.acknowledge.
    destruct (negb (database.int64 message_id)); [discriminate|].
    destruct ((0 <? _)%nat && negb _) eqn:E; [discriminate|].
    intros [= <- <-]. unfold Spec.schema_ok. cbn.
    do 4 (split; [assumption|]). split.
    + apply (ids_ok_map outbox.id); [|exact Ho].
      intros r. destruct (OutboxRepository.ack_where message_id r); reflexivity.
    + apply Forall_forall. intros x Hx.
      apply list_elem_of_In, in_map_iff in Hx as (r & <- & Hr).
      destruct (OutboxRepository.ack_where message_id r) eqn:Hw.
      * cbn. apply andb_false_iff in E as [E|E].
        -- apply Nat.ltb_ge in E.
           assert (Hin : In r (List.filter (OutboxRepository.ack_where message_id)
                                           (database.outbox db)))
             by (apply filter_In; auto).
           destruct (List.filter _ _); [destruct Hin|simpl in E; lia].
        -- by apply negb_false_iff in E.
      * rewrite Forall_forall in Hs. apply Hs, list_elem_of_In, Hr.
  - intros cutoff. unfold Spec.schema_ok. cbn.
    do 4 (split; [assumption|]). split.
    + apply (ids_ok_filter outbox.id). exact Ho.
    + by apply Forall_filter_keep.
Qed.

(** X6. The operations of the outbox keep the constraints of the schema:
    after [enqueue], after an [acknowledge] that returns and after
    [cleanup_old], ids are still distinct and at most the AUTOINCREMENT
    counter and every status passes its CHECK. *)
Theorem outbox_preserves_schema (db : database.DB)
        (Hok : Spec.schema_ok db) :
  (forall phone_number content now,
      Spec.schema_ok (OutboxRepository.enqueue db phone_number content now).1)
  /\ (forall message_id status now db' applied,
         OutboxRepository.acknowledge db message_id status now
         = inr (db', applied) ->
         Spec.schema_ok db')
  /\ (forall cutoff, Spec.schema_ok (OutboxRepository.cleanup_old db cutoff).1).
Proof. exact (outbox_schema_steps db Hok). Qed.

Lemma schema_ok_empty : Spec.schema_ok database.empty.
Proof.
  unfold Spec.schema_ok, Spec.ids_ok. cbn.
  repeat split; constructor.
Qed.

Lemma outbox_preserves_schema_witness :
  Spec.schema_ok database.empty
  /\ Spec.schema_ok
       (OutboxRepository.enqueue database.empty "+15551234567" "hello"
                                 "2024-01-01T00:00:00").1.
Proof.
  split; [exact schema_ok_empty|].
  exact (proj1 (outbox_preserves_schema database.empty schema_ok_empty)
               "+15551234567" "hello" "2024-01-01T00:00:00").
Defined.

Section OutboxQueue.
Import database outbox OutboxRepository Spec.

Lemma filter_app_length {A} (f : A -> bool) (l1 l2 : list A) :
  List.length (List.filter f (l1 ++ l2))
  = (List.length (List.filter f l1) + List.length (List.filter f l2))%nat.
Proof. rewrite List.filter_app, length_app. reflexivity. Qed.

Lemma hits_at_most_one mid (rows : list OutboxMessage) :
  NoDup (List.map id rows) ->
  (List.length (List.filter (ack_where mid) rows) <= 1)%nat.
Proof.
  induction rows as [|r rows IH]; simpl; [lia|].
  intros [Hr Hnd]%NoDup_cons. specialize (IH Hnd).
  destruct (ack_where mid r) eqn:E; [|lia].
  simpl. apply ack_where_iff in E as [Hid _].
  assert (Hnone : List.filter (ack_where mid) rows = []).
  { destruct (List.filter (ack_where mid) rows) as [|x l] eqn:F; [reflexivity|].
    exfalso. apply Hr.
    assert (Hx : In x (List.filter (ack_where mid) rows))
      by (rewrite F; left; reflexivity).
    apply filter_In in Hx as [Hx Hw]. apply ack_where_iff in Hw as [Hxid _].
    apply list_elem_of_In, in_map_iff. exists x. split; [congruence|exact Hx]. }
  rewrite Hnone. simpl. lia.
Qed.

Lemma pending_after_ack mid s now (rows : list OutboxMessage) :
  String.eqb s "pending" = false ->
  List.filter (fun r => String.eqb (status r) "pending")
    (List.map (fun r => if ack_where mid r then ack_set s now r else r) rows)
  = List.filter (fun r => String.eqb (status r) "pending"
                          && negb (id r =? mid)) rows.
Proof.
  intros Hs. induction rows as [|r rows IH]; [reflexivity|].
  cbn [List.map List.filter]. rewrite IH.
  destruct (ack_where mid r) eqn:E.
  - cbn [ack_set status]. rewrite Hs.
    unfold ack_where in E. apply andb_true_iff in E as [-> ->]. reflexivity.
  - unfold ack_where in E.
    destruct (String.eqb (status r) "pending"); [|reflexivity].
    rewrite andb_true_r in E. rewrite E. reflexivity.
Qed.

Lemma pending_split mid (rows : list OutboxMessage) :
  List.length (List.filter (fun r => String.eqb (status r) "pending") rows)
  = Nat.add
      (List.length (List.filter (fun r => String.eqb (status r) "pending"
                                          && negb (id r =? mid)) rows))
      (List.length (List.filter (ack_where mid) rows)).
Proof.
  induction rows as [|r rows IH]; simpl; [reflexivity|].
  unfold ack_where at 1.
  destruct (id r =? mid); destruct (String.eqb (status r) "pending");
    cbn [andb negb List.length]; lia.
Qed.

Lemma filter_filter_implied {A} (f g : A -> bool) (l : list A) :
  (forall x, f x = true -> g x = true) ->
  List.filter f (List.filter g l) = List.filter f l.
Proof.
  intros Himp. induction l as [|x l IH]; [reflexivity|].
  cbn [List.filter]. destruct (g x) eqn:G.
  - cbn [List.filter]. rewrite IH. reflexivity.
  - rewrite IH. destruct (f x) eqn:F; [|reflexivity].
    apply Himp in F. congruence.
Qed.

Lemma filter_filter_negb {A} (g : A -> bool) (l : list A) :
  List.filter g (List.filter (fun x => negb (g x)) l) = [].
Proof.
  induction l as [|x l IH]; [reflexivity|].
  cbn [List.filter]. destruct (g x) eqn:G; cbn [negb]; [exact IH|].
  cbn [List.filter]. rewrite G. exact IH.
Qed.

Lemma cleanup_spares_pending cutoff (r : OutboxMessage) :
  String.eqb (status r) "pending" = true ->
  negb (cleanup_where cutoff r) = true.
Proof.
  intros Hp%String.eqb_eq. unfold cleanup_where. rewrite Hp. reflexivity.
Qed.

Lemma filter_partition_length {A} (g : A -> bool) (l : list A) :
  Nat.add (List.length (List.filter (fun x => negb (g x)) l))
          (List.length (List.filter g l))
  = List.length l.
Proof.
  induction l as [|x l IH]; [reflexivity|].
  cbn [List.filter]. destruct (g x); cbn [negb List.length]; lia.
Qed.

End OutboxQueue.

(** X7. [enqueue] appends one pending entry with the given number and
    content and returns its id: the pending count grows by one, the entry
    is among the pending entries returned by an unbounded poll, and in a
    database that meets the schema the id is not the id of any earlier
    entry. *)
Theorem enqueue_pending (db : database.DB) (phone_number content now : string) :
  let db' := (OutboxRepository.enqueue db phone_number content now).1 in
  let rowid := (OutboxRepository.enqueue db phone_number content now).2 in
  OutboxRepository.get_pending_count db'
  = Datatypes.S (OutboxRepository.get_pending_count db)
  /\ (exists entry,
         database.outbox db' = database.outbox db ++ [entry]
         /\ outbox.id entry = rowid
         /\ outbox.phone_number entry = phone_number
         /\ outbox.content entry = content
         /\ outbox.created_at entry = now
         /\ outbox.status entry = "pending"
         /\ outbox.sent_at entry = None
         /\ entry ∈ OutboxRepository.get_pending db' (-1))
  /\ (Spec.schema_ok db ->
      forall r, r ∈ database.outbox db -> outbox.id r <> rowid).
Proof.
  intros db' rowid. subst db' rowid. cbn [fst snd OutboxRepository.enqueue].
  split.
  { unfold OutboxRepository.get_pending_count. cbn [database.outbox].
    rewrite filter_app_length. cbn. lia. }
  split.
  { eexists. split; [reflexivity|]. do 6 (split; [reflexivity|]).
    unfold OutboxRepository.get_pending, database.sql_limit. cbn [Z.ltb Z.compare].
    rewrite merge_sort_Permutation. cbn [database.outbox].
    apply list_elem_of_In, filter_In. split; [|reflexivity].
    apply in_or_app. right. left. reflexivity. }
  intros (_ & _ & _ & _ & Ho & _) r Hr.
  apply (ids_ok_fresh outbox.id _ _ r Ho Hr).
Qed.

Lemma get_pending_steps (db : database.DB) (limit : Z) :
  let result := OutboxRepository.get_pending db limit in
  List.length result
  = (if limit <? 0 then OutboxRepository.get_pending_count db
     else Nat.min (OutboxRepository.get_pending_count db) (Z.to_nat limit))
  /\ StronglySorted OutboxRepository.created_at_asc result
  /\ (forall r, r ∈ result ->
                r ∈ database.outbox db /\ outbox.status r = "pending")
  /\ exists later,
      Spec.pending db ≡ₚ result ++ later
      /\ forall r l, r ∈ result -> l ∈ later ->
                     OutboxRepository.created_at_asc r l.
Proof.
  intros result. subst result. unfold OutboxRepository.get_pending.
  fold (Spec.pending db).
  set (sorted := merge_sort OutboxRepository.created_at_asc (Spec.pending db)).
  assert (Hperm : sorted ≡ₚ Spec.pending db) by apply merge_sort_Permutation.
  assert (Hsorted : StronglySorted OutboxRepository.created_at_asc sorted)
    by apply order_by_created_at_sorted.
  assert (Hcount : OutboxRepository.get_pending_count db = List.length sorted).
  { rewrite (Permutation_length Hperm). reflexivity. }
  assert (Hmem : forall r, r ∈ sorted ->
                           r ∈ database.outbox db /\ outbox.status r = "pending").
  { intros r Hr. rewrite Hperm in Hr. apply list_elem_of_In, filter_In in Hr.
    rewrite list_elem_of_In. split; [tauto|]. apply String.eqb_eq, Hr. }
  unfold database.sql_limit. destruct (Z.ltb_spec limit 0) as [Hneg|Hpos].
  - split; [by rewrite Hcount|]. split; [exact Hsorted|].
    split; [exact Hmem|].
    exists []. rewrite app_nil_r. split; [by rewrite Hperm|].
    intros r l _ Hl. by apply elem_of_nil in Hl.
  - set (n := Z.to_nat limit).
    rewrite <- (take_drop n sorted) in Hsorted.
    split; [rewrite length_take, Hcount; lia|].
    split; [by apply StronglySorted_app_1_l in Hsorted|].
    split.
    { intros r Hr. apply Hmem. rewrite <- (take_drop n sorted).
      apply elem_of_app. by left. }
    exists (drop n sorted). split; [by rewrite take_drop, Hperm|].
    intros r l Hr Hl.
    apply (StronglySorted_app_1_elem_of _ _ _ r l Hsorted); assumption.
Qed.

(** X8. [get_pending] returns pending entries of the table only, oldest
    created first, and the oldest ones: every pending entry left out was
    created no earlier than each one returned.  It returns all of them
    for a negative limit and min(limit, pending count) of them otherwise. *)
Theorem get_pending_oldest_first (db : database.DB) (limit : Z) :
  let result := OutboxRepository.get_pending db limit in
  List.length result
  = (if limit <? 0 then OutboxRepository.get_pending_count db
     else Nat.min (OutboxRepository.get_pending_count db) (Z.to_nat limit))
  /\ StronglySorted OutboxRepository.created_at_asc result
  /\ (forall r, r ∈ result ->
                r ∈ database.outbox db /\ outbox.status r = "pending")
  /\ exists later,
      Spec.pending db ≡ₚ result ++ later
      /\ forall r l, r ∈ result -> l ∈ later ->
                     OutboxRepository.created_at_asc r l.
Proof. exact (get_pending_steps db limit). Qed.

(** X9. In a database that meets the schema, an acknowledgment with
    status sent or failed whose id fits an INTEGER of SQLite returns, and
    one that is applied resolves exactly one entry: the pending count
    drops by one, the entry is no longer pending and every other pending
    entry stays pending; one that is not applied leaves the count as it
    was.  For an id outside the signed 64-bit range the call raises
    [OverflowError]. *)
Theorem acknowledge_resolves_one
        (db : database.DB) (message_id : Z) (status now : string)
        (Hok : Spec.schema_ok db) (Hstatus : Spec.terminal status) :
  (~ (-9223372036854775808 <= message_id <= 9223372036854775807) ->
   OutboxRepository.acknowledge db message_id status now = inl OverflowError)
  /\ (-9223372036854775808 <= message_id <= 9223372036854775807 ->
      exists db' applied,
        OutboxRepository.acknowledge db message_id status now
        = inr (db', applied)
        /\ Nat.add (OutboxRepository.get_pending_count db')
                   (if applied then 1 else 0)
           = OutboxRepository.get_pending_count db
        /\ (forall r, r ∈ Spec.pending db' <->
                      r ∈ Spec.pending db /\ outbox.id r <> message_id)).
Proof.
  split.
  { intros Hout. apply acknowledge_overflow, int64_false, Hout. }
  intros Hin%int64_iff.
  eexists _, _. split; [apply acknowledge_terminal; assumption|].
  destruct Hok as (_ & _ & _ & _ & [Hnd _] & _).
  pose proof (hits_at_most_one message_id _ Hnd) as Hone.
  pose proof (pending_split message_id (database.outbox db)) as Hsplit.
  unfold OutboxRepository.get_pending_count, Spec.pending. cbn [database.outbox].
  rewrite pending_after_ack by (by apply terminal_not_pending).
  split.
  - rewrite Hsplit.
    destruct (List.length (List.filter (OutboxRepository.ack_where message_id)
                                       (database.outbox db))) as [|[|k]];
      cbn; lia.
  - intros r. rewrite !list_elem_of_In, !filter_In, andb_true_iff,
      negb_true_iff, Z.eqb_neq. tauto.
Qed.

Lemma acknowledge_resolves_one_witness :
  Spec.schema_ok
    (OutboxRepository.enqueue database.empty "+15551234567" "hello"
                              "2024-01-01T00:00:00").1
  /\ Spec.terminal "failed"
  /\ exists db' applied,
      OutboxRepository.acknowledge
        (OutboxRepository.enqueue database.empty "+15551234567" "hello"
                                  "2024-01-01T00:00:00").1
        1 "failed" "2024-01-01T00:00:09" = inr (db', applied)
      /\ Nat.add (OutboxRepository.get_pending_count db')
                 (if applied then 1 else 0)
         = OutboxRepository.get_pending_count
             (OutboxRepository.enqueue database.empty "+15551234567" "hello"
                                       "2024-01-01T00:00:00").1.
Proof.
  assert (H1 : Spec.schema_ok
                 (OutboxRepository.enqueue database.empty "+15551234567" "hello"
                                           "2024-01-01T00:00:00").1)
    by apply (outbox_schema_steps _ schema_ok_empty).
  assert (H2 : Spec.terminal "failed") by (right; reflexivity).
  split; [exact H1|]. split; [exact H2|].
  destruct (proj2 (acknowledge_resolves_one _ 1 "failed" "2024-01-01T00:00:09"
                                            H1 H2) ltac:(lia))
    as (db' & applied & Ha & Hc & _).
  exists db', applied. split; assumption.
Defined.

(** X10. [cleanup_old] never touches a pending entry, so polls and the
    pending count are unchanged; it removes exactly the resolved entries
    created before the cutoff and returns how many they were; run again
    with the same cutoff it deletes nothing. *)
Theorem cleanup_old_keeps_pending (db : database.DB) (cutoff : string) :
  let db' := (OutboxRepository.cleanup_old db cutoff).1 in
  let deleted := (OutboxRepository.cleanup_old db cutoff).2 in
  Spec.pending db' = Spec.pending db
  /\ (forall limit, OutboxRepository.get_pending db' limit
                    = OutboxRepository.get_pending db limit)
  /\ OutboxRepository.get_pending_count db'
     = OutboxRepository.get_pending_count db
  /\ Nat.add (List.length (database.outbox db')) deleted
     = List.length (database.outbox db)
  /\ (forall r, r ∈ database.outbox db' <->
                r ∈ database.outbox db
                /\ ~ ((outbox.status r = "sent" \/ outbox.status r = "failed")
                      /\ String.ltb (outbox.created_at r) cutoff = true))
  /\ OutboxRepository.cleanup_old db' cutoff = (db', 0%nat).
Proof.
  intros db' deleted. subst db' deleted.
  cbn [fst snd OutboxRepository.cleanup_old].
  assert (Hpend : Spec.pending
                    {| database.conversations := database.conversations db;
                       database.conversations_seq := database.conversations_seq db;
                       database.messages := database.messages db;
                       database.messages_seq := database.messages_seq db;
                       database.outbox :=
                         List.filter
                           (fun r => negb (OutboxRepository.cleanup_where cutoff r))
                           (database.outbox db);
                       database.outbox_seq := database.outbox_seq db |}
                  = Spec.pending db).
  { unfold Spec.pending. cbn [database.outbox].
    apply filter_filter_implied. intros x. apply cleanup_spares_pending. }
  split; [exact Hpend|].
  split.
  { intros limit. unfold OutboxRepository.get_pending.
    fold (Spec.pending db). rewrite <- Hpend. reflexivity. }
  split.
  { unfold OutboxRepository.get_pending_count.
    fold (Spec.pending db). rewrite <- Hpend. reflexivity. }
  split.
  { cbn [database.outbox]. apply filter_partition_length. }
  split.
  { intros r. cbn [database.outbox].
    rewrite !list_elem_of_In, filter_In, negb_true_iff.
    unfold OutboxRepository.cleanup_where.
    rewrite andb_false_iff, orb_false_iff, !String.eqb_neq.
    split.
    - intros [Hin Hc]. split; [exact Hin|].
      intros [Hs Hl]. destruct Hc as [[H1 H2]|Hc]; [tauto|congruence].
    - intros [Hin Hc]. split; [exact Hin|].
      destruct (String.ltb (outbox.created_at r) cutoff); [|auto].
      left. split; intros E; apply Hc; auto. }
  unfold OutboxRepository.cleanup_old.
  cbn [database.conversations database.conversations_seq database.messages
       database.messages_seq database.outbox database.outbox_seq].
  rewrite filter_filter_implied by auto.
  rewrite filter_filter_negb. reflexivity.
Qed.

(** X11. The cutoff of [cleanup_old] is compared with [created_at] as
    text.  [created_at] is written by [isoformat], with a "T" between
    date and time, where SQLite's [datetime] writes a space: an entry
    whose [created_at] agrees with the cutoff up to that place, that is
    one created on the day of the cutoff, is never deleted, whatever its
    time of day and status. *)
Theorem cleanup_old_keeps_cutoff_day
        (db : database.DB) (date time rest : string) (r : outbox.OutboxMessage)
        (Hr : r ∈ database.outbox db)
        (Hcreated : outbox.created_at r = (date ++ String "T" rest)%string) :
  r ∈ database.outbox
        (OutboxRepository.cleanup_old db (date ++ String " " time)%string).1.
Proof.
  cbn [fst OutboxRepository.cleanup_old database.outbox].
  apply list_elem_of_In, filter_In. split; [by apply list_elem_of_In|].
  unfold OutboxRepository.cleanup_where. rewrite Hcreated.
  assert (Hlt : String.ltb (date ++ String "T" rest)
                           (date ++ String " " time) = false).
  { assert (Hcmp : forall d a b : string,
               String.compare (d ++ a) (d ++ b) = String.compare a b).
    { induction d as [|c d IH]; intros a b; [reflexivity|].
      change (String.compare (String c d ++ a) (String c d ++ b))
        with (match Ascii.compare c c with
              | Eq => String.compare (d ++ a) (d ++ b)
              | ne => ne
              end).
      unfold Ascii.compare. rewrite N.compare_refl. apply IH. }
    unfold String.ltb. rewrite Hcmp. reflexivity. }
  rewrite Hlt, andb_false_r. reflexivity.
Qed.

Lemma cleanup_old_keeps_cutoff_day_witness :
  let r := {| outbox.id := 1; outbox.phone_number := "+15551234567";
              outbox.content := "hello";
              outbox.created_at := "2024-01-01T00:00:00";
              outbox.status := "sent";
              outbox.sent_at := Some "2024-01-01T00:00:05" |} in
  let db := {| database.conversations := []; database.conversations_seq := 0;
               database.messages := []; database.messages_seq := 0;
               database.outbox := [r]; database.outbox_seq := 1 |} in
  r ∈ database.outbox db
  /\ outbox.created_at r = ("2024-01-01" ++ String "T" "00:00:00")%string
  /\ r ∈ database.outbox
           (OutboxRepository.cleanup_old
              db ("2024-01-01" ++ String " " "23:59:59")%string).1.
Proof.
  intros r db.
  assert (H1 : r ∈ database.outbox db) by apply list_elem_of_here.
  assert (H2 : outbox.created_at r
               = ("2024-01-01" ++ String "T" "00:00:00")%string)
    by reflexivity.
  split; [exact H1|]. split; [exact H2|].
  exact (cleanup_old_keeps_cutoff_day db "2024-01-01" "23:59:59" "00:00:00"
                                      r H1 H2).
Defined.

(** ** Conversation store: lookup, creation, races, deletion *)

Section ConversationExtra.
Import database conversation ConversationRepository Spec.

Lemma find_app_some {A} (f : A -> bool) (l l' : list A) x :
  List.find f l = Some x -> List.find f (l ++ l') = Some x.
Proof.
  induction l as [|y l IH]; simpl; [discriminate|].
  destruct (f y); auto.
Qed.

Lemma find_app_none {A} (f : A -> bool) (l l' : list A) :
  List.find f l = None -> List.find f (l ++ l') = List.find f l'.
Proof.
  induction l as [|y l IH]; simpl; [reflexivity|].
  destruct (f y); [discriminate|auto].
Qed.

Lemma find_none_existsb {A} (f : A -> bool) (l : list A) :
  List.find f l = None <-> existsb f l = false.
Proof.
  induction l as [|y l IH]; simpl; [tauto|].
  destruct (f y); simpl; [split; discriminate|exact IH].
Qed.

Lemma find_by_phone_phone db p c :
  find_by_phone db p = Some c -> phone_number c = p /\ c ∈ conversations db.
Proof.
  unfold find_by_phone. intros [Hin Heq]%find_some.
  split; [by apply String.eqb_eq|by apply list_elem_of_In].
Qed.

Lemma insert_spec db p now :
  (find_by_phone db p <> None /\ insert db p now = inl IntegrityError)
  \/ (find_by_phone db p = None
      /\ exists db',
          insert db p now = inr (db', conversations_seq db + 1)
          /\ conversations db'
             = conversations db
               ++ [{| id := conversations_seq db + 1; phone_number := p;
                      created_at := now; updated_at := now |}]
          /\ conversations_seq db' = conversations_seq db + 1
          /\ messages db' = messages db /\ messages_seq db' = messages_seq db
          /\ outbox db' = outbox db /\ outbox_seq db' = outbox_seq db).
Proof.
  unfold insert, find_by_phone.
  destruct (existsb _ (conversations db)) eqn:E.
  - left. split; [|reflexivity]. intros H%find_none_existsb. congruence.
  - right. split; [by apply find_none_existsb|].
    eexists. split; [reflexivity|]. cbn. repeat split.
Qed.

Lemma find_by_phone_grows db db' extra p c :
  conversations db' = conversations db ++ extra ->
  find_by_phone db p = Some c -> find_by_phone db' p = Some c.
Proof.
  unfold find_by_phone. intros -> H. by apply find_app_some.
Qed.

Lemma step_grows now t db t' db' :
  step now t db = (t', db') ->
  exists extra, conversations db' = conversations db ++ extra.
Proof.
  destruct t as [p|p|c|e]; simpl.
  - destruct (find_by_phone db p); intros [= <- <-]; exists [];
      by rewrite app_nil_r.
  - destruct (insert_spec db p now) as [[_ ->] | (_ & d & -> & Hc & _)].
    + intros [= <- <-]. exists []. by rewrite app_nil_r.
    + intros [= <- <-]. eauto.
  - intros [= <- <-]. exists []. by rewrite app_nil_r.
  - intros [= <- <-]. exists []. by rewrite app_nil_r.
Qed.

Lemma task_at_grows db db' extra p t :
  conversations db' = conversations db ++ extra ->
  task_at db p t -> task_at db' p t.
Proof.
  intros Hg. destruct t as [q|q|c|e]; simpl; auto.
  - intros [Hp Hf]. split; [exact Hp|]. eapply find_by_phone_grows; eauto.
  - intros [He Hf]. split; [exact He|].
    destruct (find_by_phone db p) as [c|] eqn:E; [|congruence].
    erewrite find_by_phone_grows; eauto.
Qed.

Lemma step_task_at now t db t' db' p :
  task_at db p t -> step now t db = (t', db') -> task_at db' p t'.
Proof.
  destruct t as [q|q|c|e]; simpl.
  - intros ->. destruct (find_by_phone db p) as [c|] eqn:E; intros [= <- <-].
    + simpl. split; [|exact E]. by apply find_by_phone_phone in E as [? _].
    + reflexivity.
  - intros ->.
    destruct (insert_spec db p now) as [[Hf ->] | (Hf & d & -> & Hc & _)];
      intros [= <- <-]; simpl.
    + auto.
    + split; [reflexivity|]. unfold find_by_phone in *. rewrite Hc.
      rewrite find_app_none by assumption. simpl. rewrite String.eqb_refl.
      reflexivity.
  - intros H [= <- <-]. exact H.
  - intros H [= <- <-]. exact H.
Qed.

Lemma run_invariant schedule : forall (phones : list string) tasks db,
  List.length tasks = List.length phones ->
  (forall i t, tasks !! i = Some t ->
               exists p, phones !! i = Some p /\ task_at db p t) ->
  List.length (run schedule tasks db).1 = List.length phones
  /\ forall i t, (run schedule tasks db).1 !! i = Some t ->
                 exists p, phones !! i = Some p
                           /\ task_at (run schedule tasks db).2 p t.
Proof.
  induction schedule as [|[k now] schedule IH]; intros phones tasks db Hlen Hinv.
  - simpl. auto.
  - simpl. destruct (tasks !! k) as [t|] eqn:Hk; [|by apply IH].
    destruct (step now t db) as [t' db'] eqn:Hs.
    destruct (step_grows _ _ _ _ _ Hs) as [extra Hg].
    apply IH.
    + rewrite length_insert. exact Hlen.
    + intros i ti Hi. apply list_lookup_insert_Some in Hi
        as [(<- & <- & _) | (Hne & Hi)].
      * destruct (Hinv k t Hk) as (p & Hp & Ht).
        exists p. split; [exact Hp|]. eapply step_task_at; eauto.
      * destruct (Hinv i ti Hi) as (p & Hp & Ht).
        exists p. split; [exact Hp|]. eapply task_at_grows; eauto.
Qed.

End ConversationExtra.

(** X12. Run without interruption, [find_or_create] never fails: it
    returns a conversation of the given number which [find_by_phone] then
    finds; it returns the existing row and changes nothing when there is
    one, appends a row stamped with the clock reading otherwise; a second
    call returns the same conversation and changes nothing; lookups of
    other numbers are not affected. *)
Theorem find_or_create_round_trip (db : database.DB) (phone_number now : string) :
  exists db' c,
    ConversationRepository.find_or_create db phone_number now = inr (db', c)
    /\ conversation.phone_number c = phone_number
    /\ ConversationRepository.find_by_phone db' phone_number = Some c
    /\ (forall c0, ConversationRepository.find_by_phone db phone_number = Some c0 ->
                   db' = db /\ c = c0)
    /\ (ConversationRepository.find_by_phone db phone_number = None ->
        database.conversations db' = database.conversations db ++ [c]
        /\ conversation.id c = database.conversations_seq db + 1
        /\ conversation.created_at c = now
        /\ conversation.updated_at c = now)
    /\ (forall now',
           ConversationRepository.find_or_create db' phone_number now'
           = inr (db', c))
    /\ (forall q, q <> phone_number ->
                  ConversationRepository.find_by_phone db' q
                  = ConversationRepository.find_by_phone db q).
Proof.
  unfold ConversationRepository.find_or_create.
  destruct (ConversationRepository.find_by_phone db phone_number) as [c0|] eqn:E.
  - exists db, c0. split; [reflexivity|].
    split; [by apply find_by_phone_phone in E as [? _]|].
    split; [exact E|].
    split; [intros c1 [= <-]; auto|].
    split; [discriminate|].
    split; [intros now'; rewrite E; reflexivity|reflexivity].
  - destruct (insert_spec db phone_number now)
      as [[Hf _] | (_ & d & -> & Hc & Hrest)]; [congruence|].
    eexists d, _. split; [reflexivity|].
    assert (Hfind : ConversationRepository.find_by_phone d phone_number
                    = Some {| conversation.id := database.conversations_seq db + 1;
                              conversation.phone_number := phone_number;
                              conversation.created_at := now;
                              conversation.updated_at := now |}).
    { unfold ConversationRepository.find_by_phone in *. rewrite Hc.
      rewrite find_app_none by assumption. simpl.
      rewrite String.eqb_refl. reflexivity. }
    split; [reflexivity|]. split; [exact Hfind|].
    split; [discriminate|].
    split; [intros _; auto|].
    split; [intros now'; rewrite Hfind; reflexivity|].
    intros q Hq. unfold ConversationRepository.find_by_phone. rewrite Hc.
    destruct (List.find (fun r => String.eqb (conversation.phone_number r) q)
                        (database.conversations db)) as [x|] eqn:Ex.
    + by apply find_app_some.
    + rewrite find_app_none by assumption. simpl.
      apply String.eqb_neq in Hq. rewrite String.eqb_sym, Hq. reflexivity.
Qed.

(** X13. Concurrent calls of [find_or_create], one per entry of [phones],
    under any schedule: at every moment a call that has returned holds
    the conversation [find_by_phone] finds for its number, and a call
    that has failed has failed with [IntegrityError] while the row of its
    number exists.  So all calls for one number that return, return the
    same conversation. *)
Theorem find_or_create_concurrent
        (schedule : list (nat * string)) (phones : list string)
        (db : database.DB) :
  let tasks :=
    (ConversationRepository.run
       schedule (List.map ConversationRepository.AtFind phones) db).1 in
  let db' :=
    (ConversationRepository.run
       schedule (List.map ConversationRepository.AtFind phones) db).2 in
  List.length tasks = List.length phones
  /\ (forall i c, tasks !! i = Some (ConversationRepository.Returned c) ->
                  phones !! i = Some (conversation.phone_number c)
                  /\ ConversationRepository.find_by_phone
                       db' (conversation.phone_number c) = Some c)
  /\ (forall i e, tasks !! i = Some (ConversationRepository.Raised e) ->
                  e = IntegrityError
                  /\ exists p, phones !! i = Some p
                               /\ ConversationRepository.find_by_phone db' p
                                  <> None)
  /\ (forall i j ci cj,
         tasks !! i = Some (ConversationRepository.Returned ci) ->
         tasks !! j = Some (ConversationRepository.Returned cj) ->
         phones !! i = phones !! j -> ci = cj).
Proof.
  intros tasks db'.
  destruct (run_invariant schedule phones
              (List.map ConversationRepository.AtFind phones) db)
    as [Hlen Hinv].
  { apply length_map. }
  { intros i t Hi. rewrite list_lookup_fmap in Hi.
    destruct (phones !! i) as [p|]; [|discriminate].
    injection Hi as <-. exists p. split; reflexivity. }
  fold tasks db' in Hlen, Hinv.
  assert (Hret : forall i c,
             tasks !! i = Some (ConversationRepository.Returned c) ->
             phones !! i = Some (conversation.phone_number c)
             /\ ConversationRepository.find_by_phone
                  db' (conversation.phone_number c) = Some c).
  { intros i c Hi. destruct (Hinv i _ Hi) as (p & Hp & Hc & Hf).
    subst p. auto. }
  split; [exact Hlen|]. split; [exact Hret|]. split.
  - intros i e Hi. destruct (Hinv i _ Hi) as (p & Hp & He & Hf). eauto.
  - intros i j ci cj Hi Hj Hij.
    destruct (Hret i ci Hi) as [Hpi Hfi]. destruct (Hret j cj Hj) as [Hpj Hfj].
    rewrite Hpi, Hpj in Hij. injection Hij as Hij.
    rewrite Hij in Hfi. congruence.
Qed.

Section ConversationSchema.
Import database conversation ConversationRepository Spec.

Lemma fk_grows (convs convs' : list Conversation) (msgs : list message.Message) :
  (forall c, c ∈ convs -> exists c', c' ∈ convs' /\ id c' = id c) ->
  Forall (fun m =>
            check_role (message.role m) = true
            /\ check_message_status (message.status m) = true
            /\ exists c, c ∈ convs /\ id c = message.conversation_id m) msgs ->
  Forall (fun m =>
            check_role (message.role m) = true
            /\ check_message_status (message.status m) = true
            /\ exists c, c ∈ convs' /\ id c = message.conversation_id m) msgs.
Proof.
  intros Hsub HF. eapply Forall_impl; [exact HF|].
  intros m (Hr & Hs & c & Hc & Hid).
  split; [exact Hr|]. split; [exact Hs|].
  destruct (Hsub c Hc) as (c' & Hc' & Hid'). exists c'. split; [exact Hc'|congruence].
Qed.

Lemma insert_preserves_schema db p now db' rowid :
  schema_ok db -> insert db p now = inr (db', rowid) -> schema_ok db'.
Proof.
  intros (Hc & Hp & Hm & Hfk & Ho & Hs) Hins.
  destruct (insert_spec db p now)
    as [[_ E] | (Hnone & d & E & Hconv & Hseq & Hmsg & Hmseq & Hout & Hoseq)];
    rewrite E in Hins; [discriminate|].
  injection Hins as <- <-.
  unfold schema_ok. rewrite Hconv, Hseq, Hmsg, Hmseq, Hout, Hoseq.
  split; [apply (ids_ok_snoc id); [exact Hc|reflexivity]|].
  split.
  { rewrite map_app. apply NoDup_app. split; [exact Hp|].
    split; [|apply NoDup_singleton].
    intros x Hx Hx'. cbn in Hx'. apply list_elem_of_singleton in Hx'. subst x.
    apply list_elem_of_In, in_map_iff in Hx as (r & Hr & Hin).
    unfold find_by_phone in Hnone.
    apply (find_none _ _ Hnone) in Hin. cbn in Hin.
    rewrite Hr, String.eqb_refl in Hin. discriminate. }
  split; [exact Hm|].
  split; [|split; assumption].
  eapply fk_grows; [|exact Hfk].
  intros c Hc'. exists c. split; [|reflexivity]. apply elem_of_app. by left.
Qed.

Lemma step_preserves_schema now t db t' db' :
  schema_ok db -> step now t db = (t', db') -> schema_ok db'.
Proof.
  intros Hok. destruct t as [p|p|c|e]; simpl.
  - destruct (find_by_phone db p); intros [= <- <-]; exact Hok.
  - destruct (insert db p now) as [e|[d rowid]] eqn:E; intros [= <- <-].
    + exact Hok.
    + eapply insert_preserves_schema; eauto.
  - intros [= <- <-]. exact Hok.
  - intros [= <- <-]. exact Hok.
Qed.

Lemma run_preserves_schema schedule : forall tasks db,
  schema_ok db -> schema_ok (run schedule tasks db).2.
Proof.
  induction schedule as [|[k now] schedule IH]; intros tasks db Hok; [exact Hok|].
  simpl. destruct (tasks !! k) as [t|]; [|by apply IH].
  destruct (step now t db) as [t' db'] eqn:Hs.
  apply IH. eapply step_preserves_schema; eauto.
Qed.

End ConversationSchema.

Lemma conversations_schema_steps (db : database.DB)
        (Hok : Spec.schema_ok db) :
  (forall phone_number now db' c,
      ConversationRepository.find_or_create db phone_number now = inr (db', c) ->
      Spec.schema_ok db')
  /\ (forall conversation_id now,
         Spec.schema_ok (ConversationRepository.touch db conversation_id now))
  /\ (forall phone_number,
         Spec.schema_ok (ConversationRepository.delete db phone_number).1)
  /\ (forall schedule tasks,
         Spec.schema_ok (ConversationRepository.run schedule tasks db).2).
Proof.
  split; [|split; [|split]].
  - intros p now db' c. unfold ConversationRepository.find_or_create.
    destruct (ConversationRepository.find_by_phone db p).
    + intros [= <- <-]. exact Hok.
    + destruct (ConversationRepository.insert db p now) as [e|[d rowid]] eqn:E;
        [discriminate|].
      intros [= <- <-]. eapply insert_preserves_schema; eauto.
  - intros cid now. destruct Hok as (Hc & Hp & Hm & Hfk & Ho & Hs).
    unfold Spec.schema_ok. cbn.
    split.
    { apply (ids_ok_map conversation.id); [|exact Hc].
      intros r. destruct (conversation.id r =? cid); reflexivity. }
    split.
    { rewrite List.map_map. erewrite List.map_ext; [exact Hp|].
      intros r. cbn. destruct (conversation.id r =? cid); reflexivity. }
    split; [exact Hm|]. split; [|split; assumption].
    eapply fk_grows; [|exact Hfk].
    intros c Hc'. eexists. split.
    + apply list_elem_of_In, in_map, list_elem_of_In, Hc'.
    + cbn. destruct (conversation.id c =? cid); reflexivity.
  - intros p. destruct Hok as (Hc & Hp & Hm & Hfk & Ho & Hs).
    unfold Spec.schema_ok. cbn.
    split; [by apply (ids_ok_filter conversation.id)|].
    split; [by apply NoDup_map_filter|].
    split; [by apply (ids_ok_filter message.id)|].
    split; [|split; assumption].
    apply Forall_forall. intros m Hm'.
    apply list_elem_of_In, filter_In in Hm' as [Hin Hkeep].
    rewrite Forall_forall in Hfk.
    destruct (Hfk m) as (Hr & Hst & c & Hcin & Hcid);
      [by apply list_elem_of_In|].
    split; [exact Hr|]. split; [exact Hst|].
    exists c. split; [|exact Hcid].
    apply list_elem_of_In, filter_In. split; [by apply list_elem_of_In|].
    apply negb_true_iff.
    destruct (String.eqb (conversation.phone_number c) p) eqn:Hhit;
      [|reflexivity].
    exfalso. apply negb_true_iff in Hkeep.
    assert (Hex : existsb (fun c0 => conversation.id c0
                                     =? message.conversation_id m)
                    (List.filter
                       (fun r => String.eqb (conversation.phone_number r) p)
                       (database.conversations db)) = true).
    { apply existsb_exists. exists c. split.
      - apply filter_In. split; [by apply list_elem_of_In|exact Hhit].
      - by apply Z.eqb_eq. }
    congruence.
  - intros schedule tasks. by apply run_preserves_schema.
Qed.

(** X14. The operations of the conversation store keep the constraints
    of the schema: ids and phone numbers stay distinct and every message
    still refers to an existing conversation after a [find_or_create]
    that returns, after [touch], after [delete] (the cascade removes the
    messages of the deleted conversation) and after any interleaving of
    concurrent [find_or_create] calls. *)
Theorem conversations_preserve_schema (db : database.DB)
        (Hok : Spec.schema_ok db) :
  (forall phone_number now db' c,
      ConversationRepository.find_or_create db phone_number now = inr (db', c) ->
      Spec.schema_ok db')
  /\ (forall conversation_id now,
         Spec.schema_ok (ConversationRepository.touch db conversation_id now))
  /\ (forall phone_number,
         Spec.schema_ok (ConversationRepository.delete db phone_number).1)
  /\ (forall schedule tasks,
         Spec.schema_ok (ConversationRepository.run schedule tasks db).2).
Proof. exact (conversations_schema_steps db Hok). Qed.

Lemma conversations_preserve_schema_witness :
  Spec.schema_ok database.empty
  /\ Spec.schema_ok
       (ConversationRepository.run
          [(0%nat, "2024-01-01T00:00:00"); (1%nat, "2024-01-01T00:00:00");
           (0%nat, "2024-01-01T00:00:01"); (1%nat, "2024-01-01T00:00:02")]
          [ConversationRepository.AtFind "+15551234567";
           ConversationRepository.AtFind "+15551234567"]
          database.empty).2.
Proof.
  split; [exact schema_ok_empty|].
  apply (conversations_preserve_schema database.empty schema_ok_empty).
Defined.

Section DeleteFacts.
Import database conversation ConversationRepository Spec.

Lemma find_filter_implied {A} (f g : A -> bool) (l : list A) :
  (forall x, f x = true -> g x = true) ->
  List.find f (List.filter g l) = List.find f l.
Proof.
  intros Himp. induction l as [|x l IH]; [reflexivity|].
  cbn [List.filter List.find]. destruct (g x) eqn:G.
  - cbn [List.find]. rewrite IH. reflexivity.
  - rewrite IH. destruct (f x) eqn:F; [|reflexivity].
    apply Himp in F. congruence.
Qed.

Lemma find_filter_negb {A} (g : A -> bool) (l : list A) :
  List.find g (List.filter (fun x => negb (g x)) l) = None.
Proof.
  induction l as [|x l IH]; [reflexivity|].
  cbn [List.filter]. destruct (g x) eqn:G; cbn [negb]; [exact IH|].
  cbn [List.find]. rewrite G. exact IH.
Qed.

Lemma filter_filter_excluded {A} (f g : A -> bool) (l : list A) :
  (forall x, f x = true -> g x = false) ->
  List.filter f (List.filter g l) = [].
Proof.
  intros Himp. induction l as [|x l IH]; [reflexivity|].
  cbn [List.filter]. destruct (g x) eqn:G; [|exact IH].
  cbn [List.filter]. destruct (f x) eqn:F; [|exact IH].
  apply Himp in F. congruence.
Qed.

Lemma filter_all {A} (g : A -> bool) (l : list A) :
  (forall x, In x l -> g x = true) -> List.filter g l = l.
Proof.
  induction l as [|x l IH]; [reflexivity|]. intros H.
  cbn [List.filter]. rewrite (H x) by (left; reflexivity).
  rewrite IH; [reflexivity|]. intros y Hy. apply H. by right.
Qed.

Lemma NoDup_map_eq {A B} (f : A -> B) (l : list A) x y :
  NoDup (List.map f l) -> x ∈ l -> y ∈ l -> f x = f y -> x = y.
Proof.
  induction l as [|z l IH]; [intros _ Hx; by apply elem_of_nil in Hx|].
  cbn [List.map]. intros [Hz Hnd]%NoDup_cons Hx Hy Heq.
  apply elem_of_cons in Hx as [->|Hx]; apply elem_of_cons in Hy as [->|Hy].
  - reflexivity.
  - exfalso. apply Hz. rewrite Heq.
    apply list_elem_of_In, in_map, list_elem_of_In, Hy.
  - exfalso. apply Hz. rewrite <- Heq.
    apply list_elem_of_In, in_map, list_elem_of_In, Hx.
  - auto.
Qed.

End DeleteFacts.

(** X15. [delete] returns true exactly when a conversation of the number
    existed.  Afterwards the number is not found and the conversation
    has no messages left; lookups of other numbers and the outbox are
    untouched, and in a database that meets the schema so are the
    messages of every other conversation.  When nothing existed the
    database is unchanged. *)
Theorem delete_cascades (db : database.DB) (phone_number : string) :
  let db' := (ConversationRepository.delete db phone_number).1 in
  let existed := (ConversationRepository.delete db phone_number).2 in
  (existed = true <->
   ConversationRepository.find_by_phone db phone_number <> None)
  /\ ConversationRepository.find_by_phone db' phone_number = None
  /\ (forall q, q <> phone_number ->
                ConversationRepository.find_by_phone db' q
                = ConversationRepository.find_by_phone db q)
  /\ (forall c, ConversationRepository.find_by_phone db phone_number = Some c ->
                MessageRepository.of_conversation db' (conversation.id c) = [])
  /\ (Spec.schema_ok db ->
      forall c, c ∈ database.conversations db ->
                conversation.phone_number c <> phone_number ->
                MessageRepository.of_conversation db' (conversation.id c)
                = MessageRepository.of_conversation db (conversation.id c))
  /\ database.outbox db' = database.outbox db
  /\ (existed = false -> db' = db).
Proof.
  intros db' existed. subst db' existed.
  cbn [fst snd ConversationRepository.delete].
  set (hit := fun r => String.eqb (conversation.phone_number r) phone_number).
  set (deleted := List.filter hit (database.conversations db)).
  assert (Hdel : forall c, In c deleted <->
                           In c (database.conversations db)
                           /\ conversation.phone_number c = phone_number).
  { intros c. unfold deleted, hit. rewrite filter_In, String.eqb_eq. tauto. }
  split.
  { rewrite Nat.ltb_lt. unfold ConversationRepository.find_by_phone.
    fold hit. split.
    - intros Hlen Hnone. apply find_none_existsb in Hnone.
      destruct deleted as [|c l] eqn:E; [simpl in Hlen; lia|].
      assert (Hc : In c deleted) by (rewrite E; left; reflexivity).
      unfold deleted in Hc. apply filter_In in Hc as [Hin Hh].
      assert (existsb hit (database.conversations db) = true)
        by (apply existsb_exists; eauto).
      congruence.
    - intros Hsome.
      destruct (List.find hit (database.conversations db)) as [c|] eqn:E;
        [|congruence].
      apply find_some in E as [Hin Hh].
      assert (Hc : In c deleted) by (apply filter_In; auto).
      destruct deleted; [destruct Hc|simpl; lia]. }
  split.
  { unfold ConversationRepository.find_by_phone. cbn [database.conversations].
    apply (find_filter_negb hit). }
  split.
  { intros q Hq. unfold ConversationRepository.find_by_phone.
    cbn [database.conversations]. apply find_filter_implied.
    intros x Hx. apply String.eqb_eq in Hx. apply negb_true_iff.
    apply String.eqb_neq. congruence. }
  split.
  { intros c Hc. apply find_by_phone_phone in Hc as [Hp Hin].
    unfold MessageRepository.of_conversation. cbn [database.messages].
    apply filter_filter_excluded. intros m Hm. apply negb_false_iff.
    apply existsb_exists. exists c. split.
    - apply Hdel. split; [by apply list_elem_of_In|exact Hp].
    - apply Z.eqb_eq. apply Z.eqb_eq in Hm. congruence. }
  split.
  { intros (Hc & _) c Hin Hp.
    unfold MessageRepository.of_conversation. cbn [database.messages].
    apply filter_filter_implied. intros m Hm. apply Z.eqb_eq in Hm.
    apply negb_true_iff.
    destruct (existsb _ deleted) eqn:E; [|reflexivity].
    exfalso. apply existsb_exists in E as (c' & Hc' & Hid).
    apply Z.eqb_eq in Hid. apply Hdel in Hc' as [Hin' Hp'].
    assert (c' = c).
    { apply (NoDup_map_eq conversation.id (database.conversations db));
        [apply Hc|by apply list_elem_of_In|exact Hin|congruence]. }
    subst c'. congruence. }
  split; [reflexivity|].
  intros Hnone. apply Nat.ltb_ge in Hnone.
  assert (Hd : deleted = []) by (destruct deleted; [reflexivity|simpl in Hnone; lia]).
  rewrite Hd. cbn [existsb negb].
  rewrite (filter_all (fun _ => true)) by auto.
  rewrite (filter_all (fun r => negb (hit r))).
  - destruct db; reflexivity.
  - intros x Hx. apply negb_true_iff.
    destruct (hit x) eqn:Hh; [|reflexivity].
    assert (In x deleted) by (apply filter_In; auto).
    rewrite Hd in *. contradiction.
Qed.

(** ** History store: creation, full history, status updates *)

Section MessageExtra.
Import database message MessageRepository Spec.

#[local] Instance message_asc_total : Total MessageRepository.timestamp_asc.
Proof.
  intros a b. unfold MessageRepository.timestamp_asc, text_le.
  destruct (String.leb_total (timestamp a) (timestamp b)); auto.
Qed.

#[local] Instance message_asc_trans : Transitive MessageRepository.timestamp_asc.
Proof.
  intros a b c Hab Hbc. unfold MessageRepository.timestamp_asc, text_le in *.
  eapply string_leb_trans; eassumption.
Qed.

Lemma order_by_timestamp_asc_sorted (rows : list Message) :
  StronglySorted MessageRepository.timestamp_asc
                 (merge_sort MessageRepository.timestamp_asc rows).
Proof. apply StronglySorted_merge_sort; apply _. Qed.

Lemma of_conversation_elem db cid m :
  m ∈ of_conversation db cid <-> m ∈ messages db /\ conversation_id m = cid.
Proof.
  unfold of_conversation. rewrite !list_elem_of_In, filter_In, Z.eqb_eq. tauto.
Qed.

Lemma create_inv db cid role content status now db' m :
  create db cid role content status now = inr (db', m) ->
  check_role role = true /\ check_message_status status = true
  /\ (exists c, c ∈ conversations db /\ conversation.id c = cid)
  /\ m = {| id := messages_seq db + 1; conversation_id := cid; role := role;
            content := content; timestamp := now; status := status |}
  /\ messages db' = messages db ++ [m]
  /\ messages_seq db' = messages_seq db + 1
  /\ conversations db' = conversations db
  /\ conversations_seq db' = conversations_seq db
  /\ outbox db' = outbox db /\ outbox_seq db' = outbox_seq db.
Proof.
  unfold create.
  destruct (check_role role) eqn:Hr; [|discriminate].
  destruct (check_message_status status) eqn:Hs; [|discriminate].
  destruct (existsb _ (conversations db)) eqn:He; [|discriminate].
  cbn [andb]. intros [= <- <-]. cbn.
  apply existsb_exists in He as (c & Hc & Hid). apply Z.eqb_eq in Hid.
  repeat split. exists c. split; [by apply list_elem_of_In|exact Hid].
Qed.

End MessageExtra.

Lemma messages_schema_steps (db : database.DB) (Hok : Spec.schema_ok db) :
  (forall conversation_id role content status now db' m,
      MessageRepository.create db conversation_id role content status now
      = inr (db', m) ->
      Spec.schema_ok db')
  /\ (forall message_id status db',
         MessageRepository.update_status db message_id status = inr db' ->
         Spec.schema_ok db').
Proof.
  destruct Hok as (Hc & Hp & Hm & Hfk & Ho & Hs). split.
  - intros cid role content status now db' m Hcreate.
    apply create_inv in Hcreate
      as (Hr & Hst & Hex & -> & Hmsg & Hmseq & Hconv & Hcseq & Hout & Hoseq).
    unfold Spec.schema_ok. rewrite Hmsg, Hmseq, Hconv, Hcseq, Hout, Hoseq.
    split; [exact Hc|]. split; [exact Hp|].
    split; [apply (ids_ok_snoc message.id); [exact Hm|reflexivity]|].
    split; [|split; assumption].
    apply Forall_app. split; [exact Hfk|].
    constructor; [|constructor]. cbn. auto.
  - intros mid status db'. unfold MessageRepository.update_status.
    destruct (existsb _ (database.messages db) && negb _) eqn:E; [discriminate|].
    intros [= <-]. unfold Spec.schema_ok. cbn.
    split; [exact Hc|]. split; [exact Hp|].
    split.
    { apply (ids_ok_map message.id); [|exact Hm].
      intros r. destruct (message.id r =? mid); reflexivity. }
    split; [|split; assumption].
    apply Forall_forall. intros x Hx.
    apply list_elem_of_In, in_map_iff in Hx as (r & <- & Hr).
    rewrite Forall_forall in Hfk.
    destruct (Hfk r) as (H1 & H2 & H3); [by apply list_elem_of_In|].
    destruct (message.id r =? mid) eqn:Hid; [|auto].
    cbn. split; [exact H1|]. split; [|exact H3].
    apply andb_false_iff in E as [E|E].
    + assert (existsb (fun r0 => message.id r0 =? mid) (database.messages db)
              = true) by (apply existsb_exists; eauto).
      congruence.
    + by apply negb_false_iff in E.
Qed.

(** X16. The operations of the history store keep the constraints of the
    schema: after a [create] or an [update_status] that returns, message
    ids are distinct, every role and status passes its CHECK and every
    message refers to an existing conversation. *)
Theorem messages_preserve_schema (db : database.DB) (Hok : Spec.schema_ok db) :
  (forall conversation_id role content status now db' m,
      MessageRepository.create db conversation_id role content status now
      = inr (db', m) ->
      Spec.schema_ok db')
  /\ (forall message_id status db',
         MessageRepository.update_status db message_id status = inr db' ->
         Spec.schema_ok db').
Proof. exact (messages_schema_steps db Hok). Qed.

Lemma messages_preserve_schema_witness :
  Spec.schema_ok Samples.db1
  /\ Spec.schema_ok Samples.db3.
Proof.
  assert (H1 : Spec.schema_ok Samples.db1).
  { apply (proj1 (conversations_schema_steps database.empty schema_ok_empty)
                 "+15551234567" "2024-01-01T00:00:00" _
                 {| conversation.id := 1;
                    conversation.phone_number := "+15551234567";
                    conversation.created_at := "2024-01-01T00:00:00";
                    conversation.updated_at := "2024-01-01T00:00:00" |}).
    reflexivity. }
  split; [exact H1|].
  assert (Hstep : forall d content now,
             Spec.schema_ok d ->
             (exists d' m, MessageRepository.create d 1 "user" content
                                                    "received" now
                           = inr (d', m)) ->
             Spec.schema_ok (Samples.add_message content now d)).
  { intros d content now Hd (d' & m & E). unfold Samples.add_message.
    rewrite E. exact (proj1 (messages_preserve_schema d Hd) _ _ _ _ _ _ _ E). }
  unfold Samples.db3.
  apply Hstep; [apply Hstep; [apply Hstep; [exact H1|]|]|];
    eexists _, _; reflexivity.
Defined.

(** X17. [get_all_for_conversation] returns exactly the messages of the
    conversation, each once, oldest first; and [get_history] with a
    negative limit, which SQLite reads as no limit, returns the same
    messages, oldest first. *)
Theorem get_all_for_conversation_complete
        (db : database.DB) (conversation_id : Z) :
  let all := MessageRepository.get_all_for_conversation db conversation_id in
  all ≡ₚ MessageRepository.of_conversation db conversation_id
  /\ StronglySorted MessageRepository.timestamp_asc all
  /\ (forall m, m ∈ all <->
                m ∈ database.messages db
                /\ message.conversation_id m = conversation_id)
  /\ (forall limit, limit < 0 ->
        MessageRepository.get_history db conversation_id limit ≡ₚ all
        /\ StronglySorted MessageRepository.timestamp_asc
                          (MessageRepository.get_history
                             db conversation_id limit)).
Proof.
  intros all. subst all. unfold MessageRepository.get_all_for_conversation.
  split; [apply merge_sort_Permutation|].
  split; [apply order_by_timestamp_asc_sorted|].
  split.
  { intros m. rewrite merge_sort_Permutation. apply of_conversation_elem. }
  intros limit Hneg. unfold MessageRepository.get_history, database.sql_limit.
  destruct (Z.ltb_spec limit 0); [|lia]. split.
  - rewrite <- Permutation_rev, !merge_sort_Permutation. reflexivity.
  - apply (StronglySorted_rev MessageRepository.timestamp_desc).
    apply order_by_timestamp_desc_sorted.
Qed.

Lemma create_effects (db : database.DB) (conversation_id : Z)
        (role content status now : string) :
  ((exists db' m,
       MessageRepository.create db conversation_id role content status now
       = inr (db', m))
   <-> database.check_role role = true
       /\ database.check_message_status status = true
       /\ exists c, c ∈ database.conversations db
                    /\ conversation.id c = conversation_id)
  /\ (forall e,
         MessageRepository.create db conversation_id role content status now
         = inl e -> e = IntegrityError)
  /\ (forall db' m,
         MessageRepository.create db conversation_id role content status now
         = inr (db', m) ->
         message.conversation_id m = conversation_id
         /\ message.role m = role /\ message.content m = content
         /\ message.status m = status /\ message.timestamp m = now
         /\ MessageRepository.of_conversation db' conversation_id
            = MessageRepository.of_conversation db conversation_id ++ [m]
         /\ m ∈ MessageRepository.get_all_for_conversation db' conversation_id
         /\ (forall other, other <> conversation_id ->
               MessageRepository.of_conversation db' other
               = MessageRepository.of_conversation db other
               /\ (forall limit,
                      MessageRepository.get_history db' other limit
                      = MessageRepository.get_history db other limit)
               /\ MessageRepository.get_all_for_conversation db' other
                  = MessageRepository.get_all_for_conversation db other)
         /\ (Spec.schema_ok db ->
             forall x, x ∈ database.messages db ->
                       message.id x <> message.id m)).
Proof.
  split; [|split].
  - split.
    + intros (db' & m & H). apply create_inv in H. tauto.
    + intros (Hr & Hs & c & Hc & Hid). unfold MessageRepository.create.
      rewrite Hr, Hs. cbn [andb].
      assert (He : existsb (fun c0 => conversation.id c0 =? conversation_id)
                           (database.conversations db) = true).
      { apply existsb_exists. exists c.
        split; [by apply list_elem_of_In|by apply Z.eqb_eq]. }
      rewrite He. eauto.
  - intros e. unfold MessageRepository.create.
    destruct (_ && _); [discriminate|]. by intros [= <-].
  - intros db' m H. apply create_inv in H
      as (_ & _ & _ & -> & Hmsg & _ & _ & _ & _ & _).
    do 5 (split; [reflexivity|]).
    assert (Hown : MessageRepository.of_conversation db' conversation_id
                   = MessageRepository.of_conversation db conversation_id
                     ++ [{| message.id := database.messages_seq db + 1;
                            message.conversation_id := conversation_id;
                            message.role := role; message.content := content;
                            message.timestamp := now;
                            message.status := status |}]).
    { unfold MessageRepository.of_conversation. rewrite Hmsg, List.filter_app.
      cbn. rewrite Z.eqb_refl. reflexivity. }
    split; [exact Hown|]. split.
    { unfold MessageRepository.get_all_for_conversation.
      rewrite merge_sort_Permutation, Hown. apply elem_of_app. right.
      apply list_elem_of_here. }
    split.
    { intros other Hother.
      assert (Hsame : MessageRepository.of_conversation db' other
                      = MessageRepository.of_conversation db other).
      { unfold MessageRepository.of_conversation.
        rewrite Hmsg, List.filter_app. cbn.
        apply Z.eqb_neq in Hother. rewrite Z.eqb_sym in Hother.
        rewrite Hother. apply app_nil_r. }
      split; [exact Hsame|]. split.
      - intros limit. unfold MessageRepository.get_history. by rewrite Hsame.
      - unfold MessageRepository.get_all_for_conversation. by rewrite Hsame. }
    intros (_ & _ & Hm & _) x Hx. cbn.
    apply (ids_ok_fresh message.id _ _ x Hm Hx).
Qed.

(** X18. [create] fails, with [IntegrityError], exactly when the role or
    the status is not one the schema allows or the conversation does not
    exist.  When it returns, the message carries the given fields and the
    clock reading, it is appended to its own conversation and is in its
    full history, the messages and histories of every other conversation
    are unchanged, and in a database that meets the schema its id is new. *)
Theorem create_appends (db : database.DB) (conversation_id : Z)
        (role content status now : string) :
  ((exists db' m,
       MessageRepository.create db conversation_id role content status now
       = inr (db', m))
   <-> database.check_role role = true
       /\ database.check_message_status status = true
       /\ exists c, c ∈ database.conversations db
                    /\ conversation.id c = conversation_id)
  /\ (forall e,
         MessageRepository.create db conversation_id role content status now
         = inl e -> e = IntegrityError)
  /\ (forall db' m,
         MessageRepository.create db conversation_id role content status now
         = inr (db', m) ->
         message.conversation_id m = conversation_id
         /\ message.role m = role /\ message.content m = content
         /\ message.status m = status /\ message.timestamp m = now
         /\ MessageRepository.of_conversation db' conversation_id
            = MessageRepository.of_conversation db conversation_id ++ [m]
         /\ m ∈ MessageRepository.get_all_for_conversation db' conversation_id
         /\ (forall other, other <> conversation_id ->
               MessageRepository.of_conversation db' other
               = MessageRepository.of_conversation db other
               /\ (forall limit,
                      MessageRepository.get_history db' other limit
                      = MessageRepository.get_history db other limit)
               /\ MessageRepository.get_all_for_conversation db' other
                  = MessageRepository.get_all_for_conversation db other)
         /\ (Spec.schema_ok db ->
             forall x, x ∈ database.messages db ->
                       message.id x <> message.id m)).
Proof. exact (create_effects db conversation_id role content status now). Qed.

Section HistoryLast.
Import database message MessageRepository Spec.

Lemma text_lt_not_ge (a b : string) :
  String.ltb a b = true -> String.leb b a = true -> False.
Proof.
  unfold String.ltb, String.leb. rewrite (String.compare_antisym a b).
  destruct (String.compare b a); simpl; discriminate.
Qed.

Lemma sorted_desc_head (rows : list Message) (m : Message) :
  m ∈ rows ->
  (forall x, x ∈ rows -> x = m \/ String.ltb (timestamp x) (timestamp m) = true) ->
  exists tl, merge_sort timestamp_desc rows = m :: tl.
Proof.
  intros Hm Hlater.
  pose proof (order_by_timestamp_desc_sorted rows) as Hsorted.
  pose proof (merge_sort_Permutation timestamp_desc rows) as Hperm.
  destruct (merge_sort timestamp_desc rows) as [|h tl].
  - rewrite <- Hperm in Hm. by apply elem_of_nil in Hm.
  - exists tl. f_equal.
    assert (Hh : h ∈ rows) by (rewrite <- Hperm; apply list_elem_of_here).
    destruct (Hlater h Hh) as [->|Hlt]; [reflexivity|].
    exfalso. rewrite <- Hperm in Hm.
    apply elem_of_cons in Hm as [->|Hm].
    + unfold String.ltb in Hlt.
      assert (String.compare (timestamp h) (timestamp h) = Eq).
      { clear. induction (timestamp h) as [|c s IH]; [reflexivity|].
        simpl. unfold Ascii.compare. rewrite N.compare_refl. exact IH. }
      rewrite H in Hlt. discriminate.
    + apply StronglySorted_cons in Hsorted as [Hall _].
      rewrite Forall_forall in Hall. specialize (Hall m Hm).
      exact (text_lt_not_ge _ _ Hlt Hall).
Qed.

End HistoryLast.

(** X19. A message created with a clock reading later than the timestamp
    of every message of its conversation is the last element of the
    history of that conversation, for every limit other than zero. *)
Theorem create_then_history_last
        (db : database.DB) (conversation_id limit : Z)
        (role content status now : string)
        (db' : database.DB) (m : message.Message)
        (Hcreate : MessageRepository.create
                     db conversation_id role content status now
                   = inr (db', m))
        (Hlater : forall x,
            x ∈ MessageRepository.of_conversation db conversation_id ->
            String.ltb (message.timestamp x) now = true)
        (Hlimit : limit <> 0) :
  last (MessageRepository.get_history db' conversation_id limit) = Some m.
Proof.
  destruct (create_effects db conversation_id role content status now)
    as (_ & _ & Hc).
  destruct (Hc db' m Hcreate) as (_ & _ & _ & _ & Hts & Hown & _).
  unfold MessageRepository.get_history.
  destruct (sorted_desc_head
              (MessageRepository.of_conversation db' conversation_id) m)
    as [tl ->].
  { rewrite Hown. apply elem_of_app. right. apply list_elem_of_here. }
  { intros x. rewrite Hown. intros [Hx | Hx%list_elem_of_singleton]%elem_of_app.
    - right. rewrite Hts. by apply Hlater.
    - by left. }
  unfold database.sql_limit. destruct (Z.ltb_spec limit 0).
  - cbn [List.rev]. apply last_snoc.
  - destruct (Z.to_nat limit) as [|n] eqn:E; [lia|].
    cbn [take List.rev]. apply last_snoc.
Qed.

Lemma create_then_history_last_witness :
  (exists db' m,
      MessageRepository.create Samples.db3 1 "assistant" "four" "pending"
                               "2024-01-01T00:00:04" = inr (db', m)
      /\ last (MessageRepository.get_history db' 1 2) = Some m)
  /\ (forall x, x ∈ MessageRepository.of_conversation Samples.db3 1 ->
                String.ltb (message.timestamp x) "2024-01-01T00:00:04" = true)
  /\ 2 <> 0.
Proof.
  assert (Hlater : forall x,
             x ∈ MessageRepository.of_conversation Samples.db3 1 ->
             String.ltb (message.timestamp x) "2024-01-01T00:00:04" = true).
  { intros x Hx. vm_compute in Hx.
    repeat (apply elem_of_cons in Hx as [->|Hx]; [reflexivity|]).
    by apply elem_of_nil in Hx. }
  split; [|split; [exact Hlater|discriminate]].
  eexists _, _. split; [reflexivity|].
  eapply (create_then_history_last Samples.db3 1 2 "assistant" "four" "pending"
                                   "2024-01-01T00:00:04");
    [reflexivity|exact Hlater|discriminate].
Defined.

(** X20. [update_status] fails, with [IntegrityError], exactly when a
    message of that id exists and the status is not one the schema
    allows; for an id that does not exist it returns and changes nothing,
    whatever the status.  When it returns, only the status of the
    messages of that id has changed: conversations, outbox, and the id,
    conversation, role, content and timestamp of every message are as
    before. *)
Theorem update_status_only_status
        (db : database.DB) (message_id : Z) (status : string) :
  (forall e, MessageRepository.update_status db message_id status = inl e <->
             e = IntegrityError
             /\ (exists r, r ∈ database.messages db /\ message.id r = message_id)
             /\ database.check_message_status status = false)
  /\ ((forall r, r ∈ database.messages db -> message.id r <> message_id) ->
      MessageRepository.update_status db message_id status = inr db)
  /\ (forall db',
         MessageRepository.update_status db message_id status = inr db' ->
         database.conversations db' = database.conversations db
         /\ database.outbox db' = database.outbox db
         /\ List.length (database.messages db')
            = List.length (database.messages db)
         /\ forall i r, database.messages db !! i = Some r ->
              exists r', database.messages db' !! i = Some r'
                /\ message.id r' = message.id r
                /\ message.conversation_id r' = message.conversation_id r
                /\ message.role r' = message.role r
                /\ message.content r' = message.content r
                /\ message.timestamp r' = message.timestamp r
                /\ message.status r'
                   = if message.id r =? message_id then status
                     else message.status r).
Proof.
  assert (Hex : existsb (fun r => message.id r =? message_id)
                        (database.messages db) = true
                <-> exists r, r ∈ database.messages db
                              /\ message.id r = message_id).
  { rewrite existsb_exists. split; intros (r & Hr & Hid); exists r.
    - split; [by apply list_elem_of_In|by apply Z.eqb_eq].
    - split; [by apply list_elem_of_In|by apply Z.eqb_eq]. }
  unfold MessageRepository.update_status.
  split; [|split].
  - intros e. destruct (existsb _ _ && negb _) eqn:E.
    + apply andb_true_iff in E as [E1 E2]. apply negb_true_iff in E2.
      split.
      * intros [= <-]. split; [reflexivity|]. split; [by apply Hex|exact E2].
      * intros (-> & _). reflexivity.
    + split; [discriminate|]. intros (_ & Hr & Hc).
      apply Hex in Hr. rewrite Hr, Hc in E. discriminate.
  - intros Hnone.
    assert (E : existsb (fun r => message.id r =? message_id)
                        (database.messages db) = false).
    { apply not_true_iff_false. intros (r & Hr & Hid)%Hex.
      by apply Hnone in Hr. }
    rewrite E. cbn [andb]. f_equal.
    assert (Hmap : List.map
                     (fun r => if message.id r =? message_id
                               then {| message.id := message.id r;
                                       message.conversation_id :=
                                         message.conversation_id r;
                                       message.role := message.role r;
                                       message.content := message.content r;
                                       message.timestamp := message.timestamp r;
                                       message.status := status |}
                               else r) (database.messages db)
                   = database.messages db).
    { apply (map_none_hit (fun r => message.id r =? message_id)).
      destruct (List.filter _ (database.messages db)) as [|x l] eqn:F;
        [reflexivity|].
      assert (Hx : In x (List.filter (fun r => message.id r =? message_id)
                                     (database.messages db)))
        by (rewrite F; left; reflexivity).
      apply filter_In in Hx as [Hx Hid]. apply Z.eqb_eq in Hid.
      exfalso. apply (Hnone x); [by apply list_elem_of_In|exact Hid]. }
    rewrite Hmap. destruct db; reflexivity.
  - intros db'. destruct (existsb _ _ && negb _); [discriminate|].
    intros [= <-]. cbn.
    split; [reflexivity|]. split; [reflexivity|].
    split; [apply length_map|].
    intros i r Hr. rewrite list_lookup_fmap, Hr. cbn.
    eexists. split; [reflexivity|].
    destruct (message.id r =? message_id); repeat split.
Qed.

(** ** AI responder adapter: the backoff schedules *)

Section BackoffFacts.
Import openai_provider Spec.

Variable self : OpenAIProvider.
Variable create : nat -> string -> list base.Message -> Outcome.
Variable api_messages : list base.Message.

Local Abbreviation attempt_result k :=
  (try_body (create k (_model self) api_messages)).

Local Abbreviation loop := (retry_loop self create api_messages).

Lemma api_error_loop (m : nat) : forall a : nat,
  Z.of_nat (a + m) = _max_retries self ->
  (forall k, (a <= k < a + m)%nat ->
             exists e, attempt_result k = inl e
                       /\ is_APIError e = true /\ is_RateLimitError e = false) ->
  (loop (seq a m)).1 = FALLBACK_MESSAGE
  /\ calls (loop (seq a m)).2 = seq a m
  /\ sleeps (loop (seq a m)).2
     = List.map (fun k => 2 ^ Z.of_nat k) (seq a (m - 1)).
Proof.
  induction m as [|m IH]; intros a Hend Hfail; [repeat split|].
  change (seq a (Datatypes.S m)) with (a :: seq (Datatypes.S a) m).
  destruct (Hfail a) as (e & He & Hapi & Hrl); [lia|].
  destruct (IH (Datatypes.S a)) as (I1 & I2 & I3).
  { rewrite <- Hend. f_equal. lia. }
  { intros k Hk. apply Hfail. lia. }
  cbn [retry_loop]. rewrite He, Hrl, Hapi.
  destruct (retry_loop self create api_messages (seq (Datatypes.S a) m))
    as [r t] eqn:E.
  cbn [fst snd] in I1, I2, I3.
  destruct (Z.ltb_spec (Z.of_nat a) (_max_retries self - 1)) as [Hlt|Hge].
  - cbn [fst snd calls sleeps omap]. 
    split; [exact I1|]. split; [cbn; f_equal; exact I2|].
    destruct m as [|m']; [lia|].
    cbn. f_equal. etransitivity; [exact I3|].
    cbn. rewrite Nat.sub_0_r. reflexivity.
  - cbn [fst snd]. split; [exact I1|]. split; [cbn; f_equal; exact I2|].
    destruct m as [|m']; [|lia]. cbn. exact I3.
Qed.

Lemma rate_limit_loop (m : nat) : forall a : nat,
  (forall k, (a <= k < a + m)%nat ->
             exists e, attempt_result k = inl e
                       /\ is_RateLimitError e = true) ->
  (loop (seq a m)).1 = FALLBACK_MESSAGE
  /\ calls (loop (seq a m)).2 = seq a m
  /\ sleeps (loop (seq a m)).2
     = List.map (fun k => Z.min (2 ^ (Z.of_nat k + 2)) 30) (seq a m).
Proof.
  induction m as [|m IH]; intros a Hfail; [repeat split|].
  change (seq a (Datatypes.S m)) with (a :: seq (Datatypes.S a) m).
  destruct (Hfail a) as (e & He & Hrl); [lia|].
  destruct (IH (Datatypes.S a)) as (I1 & I2 & I3).
  { intros k Hk. apply Hfail. lia. }
  cbn [retry_loop]. rewrite He, Hrl.
  destruct (retry_loop self create api_messages (seq (Datatypes.S a) m))
    as [r t] eqn:E.
  cbn [fst snd] in *.
  split; [exact I1|]. split; cbn; f_equal; assumption.
Qed.

End BackoffFacts.

Lemma total_powers (n : nat) :
  Spec.total (List.map (fun k => 2 ^ Z.of_nat k) (seq 0 n)) = 2 ^ Z.of_nat n - 1.
Proof.
  induction n as [|n IH]; [reflexivity|].
  rewrite seq_S, map_app. unfold Spec.total in *.
  rewrite fold_right_app. cbn [List.map fold_right Nat.add].
  assert (Hshift : forall (l : list Z) (x : Z),
             fold_right Z.add x l = fold_right Z.add 0 l + x).
  { induction l as [|y l IHl]; intros x; cbn; [lia|]. rewrite IHl. lia. }
  rewrite Hshift, IH, Nat2Z.inj_succ, Z.pow_succ_r by lia. lia.
Qed.

(** X21. When every attempt fails with an API error that is not a rate
    limit, [generate_response] calls the provider [max_retries] times,
    sleeps 1, 2, 4, ... seconds between the attempts and not after the
    last one, 2^(max_retries - 1) - 1 seconds in all, and returns the
    fallback string. *)
Theorem api_error_backoff
        (self : openai_provider.OpenAIProvider)
        (create : nat -> string -> list base.Message -> openai_provider.Outcome)
        (messages : list base.Message) (system_prompt : string)
        (Hmax : 1 <= openai_provider._max_retries self)
        (Hfail : forall k,
            (k < Z.to_nat (openai_provider._max_retries self))%nat ->
            exists e,
              openai_provider.try_body
                (create k (openai_provider._model self)
                        ({| base.role := "system";
                            base.content := system_prompt |} :: messages))
              = inl e
              /\ is_APIError e = true /\ is_RateLimitError e = false) :
  let out := openai_provider.generate_response
               self create messages system_prompt in
  let n := Z.to_nat (openai_provider._max_retries self) in
  out.1 = openai_provider.FALLBACK_MESSAGE
  /\ openai_provider.calls out.2 = seq 0 n
  /\ openai_provider.sleeps out.2
     = List.map (fun k => 2 ^ Z.of_nat k) (seq 0 (n - 1))
  /\ Spec.total (openai_provider.sleeps out.2)
     = 2 ^ (openai_provider._max_retries self - 1) - 1.
Proof.
  intros out n. subst out n.
  unfold openai_provider.generate_response, openai_provider.range.
  destruct (api_error_loop self create
              ({| base.role := "system"; base.content := system_prompt |}
                 :: messages)
              (Z.to_nat (openai_provider._max_retries self)) 0%nat)
    as (H1 & H2 & H3).
  { cbn [Nat.add]. lia. }
  { intros k Hk. apply Hfail. lia. }
  split; [exact H1|]. split; [exact H2|]. split; [exact H3|].
  rewrite H3, total_powers. f_equal. f_equal. lia.
Qed.

Lemma api_error_backoff_witness :
  1 <= openai_provider._max_retries (openai_provider.__init__ "gpt-4o-mini")
  /\ Spec.total
       (openai_provider.sleeps
          (openai_provider.generate_response
             (openai_provider.__init__ "gpt-4o-mini") Samples.always_failing
             [] "prompt").2)
     = 2 ^ (openai_provider._max_retries
              (openai_provider.__init__ "gpt-4o-mini") - 1) - 1.
Proof.
  assert (H1 : 1 <= openai_provider._max_retries
                      (openai_provider.__init__ "gpt-4o-mini"))
    by (vm_compute; discriminate).
  split; [exact H1|].
  refine (proj2 (proj2 (proj2 (api_error_backoff
                                 (openai_provider.__init__ "gpt-4o-mini")
                                 Samples.always_failing [] "prompt" H1 _)))).
  intros k _. exists APIError. repeat split.
Defined.

(** X22. When every attempt is rate limited, [generate_response] calls
    the provider [max_retries] times, sleeps min(2^(attempt+2), 30)
    seconds after each attempt, the last one included, never more than
    30 seconds at a time, and returns the fallback string. *)
Theorem rate_limit_backoff
        (self : openai_provider.OpenAIProvider)
        (create : nat -> string -> list base.Message -> openai_provider.Outcome)
        (messages : list base.Message) (system_prompt : string)
        (Hfail : forall k,
            (k < Z.to_nat (openai_provider._max_retries self))%nat ->
            exists e,
              openai_provider.try_body
                (create k (openai_provider._model self)
                        ({| base.role := "system";
                            base.content := system_prompt |} :: messages))
              = inl e
              /\ is_RateLimitError e = true) :
  let out := openai_provider.generate_response
               self create messages system_prompt in
  let n := Z.to_nat (openai_provider._max_retries self) in
  out.1 = openai_provider.FALLBACK_MESSAGE
  /\ openai_provider.calls out.2 = seq 0 n
  /\ openai_provider.sleeps out.2
     = List.map (fun k => Z.min (2 ^ (Z.of_nat k + 2)) 30) (seq 0 n)
  /\ Forall (fun s => 4 <= s <= 30) (openai_provider.sleeps out.2).
Proof.
  intros out n. subst out n.
  unfold openai_provider.generate_response, openai_provider.range.
  destruct (rate_limit_loop self create
              ({| base.role := "system"; base.content := system_prompt |}
                 :: messages)
              (Z.to_nat (openai_provider._max_retries self)) 0%nat)
    as (H1 & H2 & H3).
  { intros k Hk. apply Hfail. lia. }
  split; [exact H1|]. split; [exact H2|]. split; [exact H3|].
  rewrite H3. apply Forall_forall. intros s Hs.
  apply list_elem_of_In, in_map_iff in Hs as (k & <- & _).
  assert (4 <= 2 ^ (Z.of_nat k + 2)).
  { rewrite Z.pow_add_r by lia. 
    pose proof (Z.pow_pos_nonneg 2 (Z.of_nat k) ltac:(lia) ltac:(lia)).
    change (2 ^ 2) with 4. lia. }
  lia.
Qed.

Lemma rate_limit_backoff_witness :
  (forall k : nat,
      (k < Z.to_nat (openai_provider._max_retries
                       (openai_provider.__init__ "gpt-4o-mini")))%nat ->
      exists e,
        openai_provider.try_body (inl RateLimitError : openai_provider.Outcome)
        = inl e
        /\ is_RateLimitError e = true)
  /\ openai_provider.sleeps
       (openai_provider.generate_response
          (openai_provider.__init__ "gpt-4o-mini")
          (fun _ _ _ => inl RateLimitError) [] "prompt").2
     = [4; 8; 16].
Proof.
  assert (H : forall k : nat,
             (k < Z.to_nat (openai_provider._max_retries
                              (openai_provider.__init__ "gpt-4o-mini")))%nat ->
             exists e,
               openai_provider.try_body
                 (inl RateLimitError : openai_provider.Outcome) = inl e
               /\ is_RateLimitError e = true)
    by (intros k _; exists RateLimitError; split; reflexivity).
  split; [exact H|].
  exact (proj1 (proj2 (proj2 (rate_limit_backoff
                                (openai_provider.__init__ "gpt-4o-mini")
                                (fun _ _ _ => inl RateLimitError)
                                [] "prompt" H)))).
Defined.

(** ** Message processor and routes: how the operations compose *)

Section WiredFacts.
Import database Spec.
Context {P : Type}.
Variable utcnow : nat -> string.
Variable settings : config.Settings.
Variable ai : sms.AIProvider P.

Local Abbreviation service := (dependencies.get_sms_service utcnow settings ai).

(** The world a successful [process_incoming] of the wired service
    leaves, as the composition of the repository operations. *)
Lemma wired_success phone_number content timestamp
      (w : dependencies.World P) l w' :
  sms.process_incoming service phone_number content timestamp w = (true, l, w') ->
  exists d1 c d2 u reply p' d3 a,
    ConversationRepository.find_or_create
      (dependencies.db w) phone_number (utcnow (dependencies.ticks w))
    = inr (d1, c)
    /\ MessageRepository.create
         d1 (conversation.id c) "user" content "received"
         (utcnow (1 + dependencies.ticks w)) = inr (d2, u)
    /\ sms.generate_response
         ai (ai_messages (MessageRepository.get_history
                            d2 (conversation.id c)
                            (config.max_context_messages settings)))
         (config.system_prompt settings) (dependencies.ai_state w)
       = (inr reply, p')
    /\ MessageRepository.create
         d2 (conversation.id c) "assistant" reply "pending"
         (utcnow (3 + dependencies.ticks w)) = inr (d3, a)
    /\ w' = {| dependencies.db :=
                 ConversationRepository.touch
                   (OutboxRepository.enqueue
                      d3 phone_number reply
                      (utcnow (4 + dependencies.ticks w))).1
                   (conversation.id c) (utcnow (5 + dependencies.ticks w));
               dependencies.ticks := (6 + dependencies.ticks w)%nat;
               dependencies.ai_state := p' |}.
Proof.
  intros Hok. unfold sms.process_incoming in Hok.
  destruct (negb _); [discriminate|].
  unfold sms.process_body, bind, sms.call, sms.log, ret in Hok.
  unfold dependencies.get_sms_service, dependencies.conversation_repo,
    dependencies.message_repo, dependencies.outbox_repo,
    dependencies.ai_provider in Hok.
  cbn [sms._conversations sms._messages sms._outbox sms._ai sms._system_prompt
       sms._max_context sms.find_or_create sms.touch sms.create
       sms.get_history sms.enqueue sms.generate_response] in Hok.
  destruct (ConversationRepository.find_or_create _ _ _)
    as [e|[d1 c]] eqn:E1; [discriminate|].
  cbn [dependencies.advance dependencies.db dependencies.ticks
       dependencies.ai_state] in Hok.
  destruct (MessageRepository.create d1 _ _ _ _ _)
    as [e|[d2 u]] eqn:E2; [discriminate|].
  cbn [dependencies.advance dependencies.db dependencies.ticks
       dependencies.ai_state] in Hok.
  fold (ai_messages
          (MessageRepository.get_history
             d2 (conversation.id c) (config.max_context_messages settings)))
    in Hok.
  destruct (sms.generate_response ai _ _ _) as [[e|reply] p'] eqn:E3;
    [discriminate|].
  cbn [dependencies.advance dependencies.db dependencies.ticks
       dependencies.ai_state] in Hok.
  destruct (MessageRepository.create d2 _ _ _ _ _)
    as [e|[d3 a]] eqn:E4; [discriminate|].
  cbn [dependencies.advance dependencies.db dependencies.ticks
       dependencies.ai_state] in Hok.
  destruct (OutboxRepository.enqueue d3 _ _ _) as [d4 rowid] eqn:E5.
  cbn [dependencies.advance dependencies.db dependencies.ticks
       dependencies.ai_state] in Hok.
  injection Hok as _ <-.
  exists d1, c, d2, u, reply, p', d3, a.
  split; [first [exact E1|reflexivity]|].
  split; [first [exact E2|reflexivity]|].
  split; [first [exact E3|reflexivity]|].
  split; [first [exact E4|reflexivity]|].
  cbn [Nat.add]. rewrite E5. reflexivity.
Qed.

End WiredFacts.

Section ProcessedFacts.
Import database Spec.

Lemma find_map {A} (f : A -> bool) (g : A -> A) (l : list A) :
  (forall x, f (g x) = f x) ->
  List.find f (List.map g l) = g <$> List.find f l.
Proof.
  intros Hfg. induction l as [|x l IH]; [reflexivity|].
  cbn [List.map List.find]. rewrite Hfg. destruct (f x); [reflexivity|exact IH].
Qed.

Lemma find_by_phone_touch db conversation_id now p :
  ConversationRepository.find_by_phone
    (ConversationRepository.touch db conversation_id now) p
  = (fun r => if conversation.id r =? conversation_id
              then {| conversation.id := conversation.id r;
                      conversation.phone_number := conversation.phone_number r;
                      conversation.created_at := conversation.created_at r;
                      conversation.updated_at := now |}
              else r)
      <$> ConversationRepository.find_by_phone db p.
Proof.
  unfold ConversationRepository.find_by_phone.
  cbn [ConversationRepository.touch conversations].
  apply find_map. intros x. destruct (conversation.id x =? conversation_id);
    reflexivity.
Qed.

Lemma find_or_create_cases db p now d c :
  ConversationRepository.find_or_create db p now = inr (d, c) ->
  ConversationRepository.find_by_phone d p = Some c
  /\ messages d = messages db /\ outbox d = outbox db
  /\ ((ConversationRepository.find_by_phone db p = Some c /\ d = db)
      \/ (ConversationRepository.find_by_phone db p = None
          /\ conversations d = conversations db ++ [c])).
Proof.
  unfold ConversationRepository.find_or_create.
  destruct (ConversationRepository.find_by_phone db p) as [c0|] eqn:E.
  - intros [= <- <-]. split; [exact E|]. do 2 (split; [reflexivity|]).
    left. split; reflexivity.
  - destruct (insert_spec db p now)
      as [[Hf _] | (_ & d' & -> & Hc & _ & Hm & _ & Ho & _)]; [congruence|].
    intros [= <- <-].
    split.
    { unfold ConversationRepository.find_by_phone in *. rewrite Hc.
      rewrite find_app_none by assumption. cbn. rewrite String.eqb_refl.
      reflexivity. }
    split; [exact Hm|]. split; [exact Ho|]. right. split; [reflexivity|exact Hc].
Qed.

End ProcessedFacts.

(** X23. A successful [process_incoming] of the wired service makes six
    repository calls, raises the pending count of the outbox by one and
    keeps the constraints of the schema.  It reuses the conversation of
    the sender's number when there is one, adding no row and keeping its
    id and creation time, and adds exactly one row otherwise; either way
    the conversation ends up stamped with the last clock reading. *)
Theorem process_incoming_queues_reply {P} (utcnow : nat -> string)
        (settings : config.Settings) (ai : sms.AIProvider P)
        (phone_number content : string) (timestamp : option string)
        (w : dependencies.World P) (l : list sms.LogRecord)
        (w' : dependencies.World P)
        (Hok : sms.process_incoming
                 (dependencies.get_sms_service utcnow settings ai)
                 phone_number content timestamp w = (true, l, w')) :
  dependencies.ticks w' = (6 + dependencies.ticks w)%nat
  /\ OutboxRepository.get_pending_count (dependencies.db w')
     = Datatypes.S (OutboxRepository.get_pending_count (dependencies.db w))
  /\ (Spec.schema_ok (dependencies.db w) -> Spec.schema_ok (dependencies.db w'))
  /\ (exists c',
         ConversationRepository.find_by_phone (dependencies.db w') phone_number
         = Some c'
         /\ conversation.updated_at c' = utcnow (5 + dependencies.ticks w)%nat
         /\ forall c0,
             ConversationRepository.find_by_phone (dependencies.db w)
                                                  phone_number = Some c0 ->
             conversation.id c' = conversation.id c0
             /\ conversation.created_at c' = conversation.created_at c0)
  /\ List.length (database.conversations (dependencies.db w'))
     = (List.length (database.conversations (dependencies.db w))
        + match ConversationRepository.find_by_phone (dependencies.db w)
                                                     phone_number with
          | Some _ => 0
          | None => 1
          end)%nat.
Proof.
  apply wired_success in Hok
    as (d1 & c & d2 & u & reply & p' & d3 & a & E1 & E2 & E3 & E4 & ->).
  cbn [dependencies.db dependencies.ticks].
  pose proof (find_or_create_cases _ _ _ _ _ E1) as (Hf1 & Hm1 & Ho1 & Hcase).
  pose proof (create_inv _ _ _ _ _ _ _ _ E2)
    as (_ & _ & _ & _ & Hm2 & _ & Hc2 & _ & Ho2 & _).
  pose proof (create_inv _ _ _ _ _ _ _ _ E4)
    as (_ & _ & _ & _ & Hm3 & _ & Hc3 & _ & Ho3 & _).
  split; [reflexivity|]. split.
  { unfold OutboxRepository.get_pending_count.
    cbn [ConversationRepository.touch OutboxRepository.enqueue fst
         database.outbox].
    rewrite filter_app_length, Ho3, Ho2, Ho1. cbn. lia. }
  split.
  { intros Hs.
    apply (proj1 (proj2 (conversations_schema_steps _
             (proj1 (outbox_schema_steps d3
                (proj1 (messages_schema_steps d2
                   (proj1 (messages_schema_steps d1
                      (proj1 (conversations_schema_steps _ Hs) _ _ _ _ E1))
                          _ _ _ _ _ _ _ E2)) _ _ _ _ _ _ _ E4)) _ _ _)))). }
  assert (Hfind : ConversationRepository.find_by_phone
                    (OutboxRepository.enqueue
                       d3 phone_number reply
                       (utcnow (4 + dependencies.ticks w)%nat)).1 phone_number
                  = Some c).
  { unfold ConversationRepository.find_by_phone in *.
    cbn [OutboxRepository.enqueue fst database.conversations].
    rewrite Hc3, Hc2. exact Hf1. }
  split.
  { eexists. rewrite find_by_phone_touch, Hfind. cbn [fmap option_fmap option_map].
    rewrite Z.eqb_refl. split; [reflexivity|]. split; [reflexivity|].
    intros c0 Hc0. cbn.
    destruct Hcase as [[Hsome _] | [Hnone _]]; [|congruence].
    rewrite Hsome in Hc0. injection Hc0 as <-. auto. }
  cbn [ConversationRepository.touch OutboxRepository.enqueue fst
       database.conversations].
  rewrite length_map, Hc3, Hc2.
  destruct Hcase as [[Hsome ->] | [Hnone Hconv]].
  - rewrite Hsome. lia.
  - rewrite Hnone, Hconv, length_app. cbn. lia.
Qed.

Lemma process_incoming_queues_reply_witness :
  Samples.end_to_end = (true, Samples.end_to_end.1.2, Samples.end_to_end.2)
  /\ OutboxRepository.get_pending_count
       (dependencies.db Samples.end_to_end.2)
     = Datatypes.S (OutboxRepository.get_pending_count
                      (dependencies.db Samples.world0)).
Proof.
  assert (H : Samples.end_to_end
              = (true, Samples.end_to_end.1.2, Samples.end_to_end.2))
    by (vm_compute; reflexivity).
  split; [exact H|].
  exact (proj1 (proj2 (process_incoming_queues_reply
                         Samples.clock (Samples.settings [] None)
                         Samples.stub_hello "+15551234567" "hi" None
                         Samples.world0 _ _ H))).
Defined.

Section OrphanFacts.
Import database Spec.

Lemma find_or_create_returns db p now :
  exists d c, ConversationRepository.find_or_create db p now = inr (d, c).
Proof.
  unfold ConversationRepository.find_or_create.
  destruct (ConversationRepository.find_by_phone db p) as [c0|] eqn:E; [eauto|].
  destruct (insert_spec db p now) as [[Hf _] | (_ & d' & -> & _)];
    [congruence|eauto].
Qed.

Lemma create_returns db c role content status now :
  c ∈ conversations db ->
  check_role role = true -> check_message_status status = true ->
  exists d m, MessageRepository.create db (conversation.id c) role content
                                       status now = inr (d, m).
Proof.
  intros Hc Hr Hs. unfold MessageRepository.create. rewrite Hr, Hs.
  assert (He : existsb (fun c0 => conversation.id c0 =? conversation.id c)
                       (conversations db) = true).
  { apply existsb_exists. exists c.
    split; [by apply list_elem_of_In|apply Z.eqb_refl]. }
  rewrite He. cbn [andb]. eauto.
Qed.

End OrphanFacts.

(** X24. When the outbox fails, the exchange is left half done: for an
    authorized sender, a provider that answers and an outbox whose
    [enqueue] raises, [process_incoming] of the wired service returns
    false and logs the error, yet the user message and the assistant
    message (status pending) are both stored; nothing is queued. *)
Theorem enqueue_failure_leaves_orphan {P} (utcnow : nat -> string)
        (settings : config.Settings) (ai : sms.AIProvider P)
        (ob : sms.OutboxRepository (dependencies.World P))
        (phone_number content : string) (timestamp : option string)
        (w : dependencies.World P) (e : Exc)
        (Hauth : Auth.is_authorized
                   (Auth.__init__ (config.allowed_phone_numbers settings))
                   phone_number = true)
        (Hai : forall messages system_prompt p,
            exists reply p',
              sms.generate_response ai messages system_prompt p
              = (inr reply, p'))
        (Hob : forall p r w0, sms.enqueue ob p r w0 = (inl e, w0)) :
  exists l w' u a,
    sms.process_incoming
      (Spec.with_outbox (dependencies.get_sms_service utcnow settings ai) ob)
      phone_number content timestamp w
    = (false, l ++ [sms.ErrorProcessing phone_number e], w')
    /\ database.messages (dependencies.db w')
       = database.messages (dependencies.db w) ++ [u; a]
    /\ message.role u = "user" /\ message.content u = content
    /\ message.role a = "assistant" /\ message.status a = "pending"
    /\ message.conversation_id a = message.conversation_id u
    /\ database.outbox (dependencies.db w') = database.outbox (dependencies.db w).
Proof.
  unfold sms.process_incoming.
  cbn [Spec.with_outbox sms._auth dependencies.get_sms_service].
  rewrite Hauth. cbn [negb].
  unfold sms.process_body, bind, sms.call, sms.log, ret.
  unfold Spec.with_outbox, dependencies.get_sms_service,
    dependencies.conversation_repo, dependencies.message_repo,
    dependencies.ai_provider.
  cbn [sms._conversations sms._messages sms._outbox sms._ai sms._system_prompt
       sms._max_context sms.find_or_create sms.touch sms.create
       sms.get_history sms.generate_response].
  destruct (find_or_create_returns (dependencies.db w) phone_number
              (utcnow (dependencies.ticks w))) as (d1 & c & E1).
  rewrite E1.
  cbn [dependencies.advance dependencies.db dependencies.ticks
       dependencies.ai_state].
  pose proof (find_or_create_ok _ _ _ _ _ E1) as (M1 & O1 & _ & Hc).
  destruct (create_returns d1 c "user" content "received"
              (utcnow (Datatypes.S (dependencies.ticks w))) Hc eq_refl eq_refl)
    as (d2 & u & E2).
  rewrite E2.
  cbn [dependencies.advance dependencies.db dependencies.ticks
       dependencies.ai_state].
  pose proof (create_ok _ _ _ _ _ _ _ _ E2) as (M2 & O2 & C2 & U1 & U2 & U3 & U4).
  destruct (Hai (List.map
                   (fun msg => {| base.role := message.role msg;
                                  base.content := message.content msg |})
                   (MessageRepository.get_history
                      d2 (conversation.id c)
                      (config.max_context_messages settings)))
                (config.system_prompt settings) (dependencies.ai_state w))
    as (reply & p' & E3).
  rewrite E3.
  cbn [dependencies.advance dependencies.db dependencies.ticks
       dependencies.ai_state].
  assert (Hc2 : c ∈ database.conversations d2) by (rewrite C2; exact Hc).
  destruct (create_returns d2 c "assistant" reply "pending"
              (utcnow (Datatypes.S (Datatypes.S (Datatypes.S
                                                   (dependencies.ticks w)))))
              Hc2 eq_refl eq_refl)
    as (d3 & a & E4).
  rewrite E4.
  cbn [dependencies.advance dependencies.db dependencies.ticks
       dependencies.ai_state].
  pose proof (create_ok _ _ _ _ _ _ _ _ E4) as (M3 & O3 & C3 & A1 & A2 & A3 & A4).
  rewrite Hob.
  eexists _, _, u, a. split; [reflexivity|].
  cbn [dependencies.db dependencies.advance].
  split; [rewrite M3, M2, M1, <- app_assoc; reflexivity|].
  split; [exact U2|]. split; [exact U3|]. split; [exact A2|].
  split; [exact A4|]. split; [congruence|].
  rewrite O3, O2, O1. reflexivity.
Qed.

Lemma enqueue_failure_leaves_orphan_witness :
  Auth.is_authorized
    (Auth.__init__ (config.allowed_phone_numbers (Samples.settings [] None)))
    "+15551234567" = true
  /\ (forall messages system_prompt p,
         exists reply p',
           sms.generate_response Samples.stub_hello messages system_prompt p
           = (inr reply, p'))
  /\ exists l w' u a,
      sms.process_incoming
        (Spec.with_outbox
           (dependencies.get_sms_service Samples.clock
                                         (Samples.settings [] None)
                                         Samples.stub_hello)
           (sms._outbox Samples.broken_outbox_service))
        "+15551234567" "hi" None Samples.world0
      = (false, l ++ [sms.ErrorProcessing "+15551234567" OperationalError], w')
      /\ database.messages (dependencies.db w')
         = database.messages (dependencies.db Samples.world0) ++ [u; a].
Proof.
  assert (H1 : Auth.is_authorized
                 (Auth.__init__
                    (config.allowed_phone_numbers (Samples.settings [] None)))
                 "+15551234567" = true) by reflexivity.
  assert (H2 : forall messages system_prompt p,
             exists reply p',
               sms.generate_response Samples.stub_hello messages system_prompt p
               = (inr reply, p')) by (intros; eexists _, _; reflexivity).
  split; [exact H1|]. split; [exact H2|].
  destruct (enqueue_failure_leaves_orphan
              Samples.clock (Samples.settings [] None) Samples.stub_hello
              (sms._outbox Samples.broken_outbox_service)
              "+15551234567" "hi" None Samples.world0 OperationalError
              H1 H2 (fun _ _ _ => eq_refl))
    as (l & w' & u & a & Hp & Hm & _).
  exists l, w', u, a. split; assumption.
Defined.

Section AckRouteFacts.
Import database Spec.
Context {P : Type}.
Variable utcnow : nat -> string.
Variable settings : config.Settings.
Variable ai : sms.AIProvider P.

Lemma status_text_terminal (s : models.AckStatus) :
  terminal (models.status_text s).
Proof. destruct s; [left|right]; reflexivity. Qed.

(** The acknowledgment route of the wired service, computed. *)
Lemma ack_route_wired message_id request (w : dependencies.World P) :
  int64 message_id = true ->
  exists d applied,
    OutboxRepository.acknowledge
      (dependencies.db w) message_id
      (models.status_text (models.ack_status request))
      (utcnow (dependencies.ticks w)) = inr (d, applied)
    /\ routes.acknowledge_sent
         message_id request
         (dependencies.get_sms_service utcnow settings ai) w
       = (inr {| models.ok := true |},
          if applied
          then [sms.InfoMarked message_id
                               (models.status_text (models.ack_status request))]
          else [],
          dependencies.advance d w).
Proof.
  intros Hid.
  pose proof (acknowledge_terminal (dependencies.db w) message_id _
                (utcnow (dependencies.ticks w)) Hid
                (status_text_terminal (models.ack_status request))) as E.
  eexists _, _. split; [exact E|].
  unfold routes.acknowledge_sent, sms.acknowledge_sent, bind, sms.call, sms.log,
    ret.
  unfold dependencies.get_sms_service, dependencies.outbox_repo.
  cbn [sms._outbox sms.acknowledge]. rewrite E.
  destruct (0 <? _)%nat; reflexivity.
Qed.

(** The same route for an id that does not fit an INTEGER. *)
Lemma ack_route_overflow message_id request (w : dependencies.World P) :
  int64 message_id = false ->
  routes.acknowledge_sent
    message_id request (dependencies.get_sms_service utcnow settings ai) w
  = (inl OverflowError, [], dependencies.advance (dependencies.db w) w).
Proof.
  intros Hid.
  unfold routes.acknowledge_sent, sms.acknowledge_sent, bind, sms.call, sms.log,
    ret.
  unfold dependencies.get_sms_service, dependencies.outbox_repo.
  cbn [sms._outbox sms.acknowledge].
  rewrite acknowledge_overflow by assumption. reflexivity.
Qed.

End AckRouteFacts.

(** X25. The acknowledgment route of the wired service, for a message id
    that fits an INTEGER of SQLite, does not fail and answers ok = true.
    It logs the change exactly when a pending entry of that id existed;
    otherwise it changes nothing in the database.  A second
    acknowledgment of the same id, with either status, answers ok = true
    again, logs nothing and leaves the database as the first one left it.
    For an id outside the signed 64-bit range the route fails with
    [OverflowError], which no handler catches, and the database is
    unchanged. *)
Theorem ack_route_idempotent {P} (utcnow : nat -> string)
        (settings : config.Settings) (ai : sms.AIProvider P)
        (message_id : Z) (request1 request2 : models.AckRequest)
        (w : dependencies.World P) :
  let service := dependencies.get_sms_service utcnow settings ai in
  let first := routes.acknowledge_sent message_id request1 service w in
  let second := routes.acknowledge_sent message_id request2 service first.2 in
  (~ (-9223372036854775808 <= message_id <= 9223372036854775807) ->
   first.1.1 = inl OverflowError
   /\ first.1.2 = []
   /\ dependencies.db first.2 = dependencies.db w)
  /\ (-9223372036854775808 <= message_id <= 9223372036854775807 ->
      first.1.1 = inr {| models.ok := true |}
      /\ ((first.1.2 = [sms.InfoMarked
                          message_id
                          (models.status_text (models.ack_status request1))]
           /\ exists r, r ∈ database.outbox (dependencies.db w)
                        /\ outbox.id r = message_id
                        /\ outbox.status r = "pending")
          \/ (first.1.2 = []
              /\ dependencies.db first.2 = dependencies.db w
              /\ ~ exists r, r ∈ database.outbox (dependencies.db w)
                             /\ outbox.id r = message_id
                             /\ outbox.status r = "pending"))
      /\ second.1.1 = inr {| models.ok := true |}
      /\ second.1.2 = []
      /\ dependencies.db second.2 = dependencies.db first.2).
Proof.
  intros service first second. subst service first second.
  split.
  { intros Hout%int64_false.
    rewrite (ack_route_overflow utcnow settings ai message_id request1 w Hout).
    repeat split. }
  intros Hin%int64_iff.
  destruct (ack_route_wired utcnow settings ai message_id request1 w Hin)
    as (d1 & applied1 & E1 & ->).
  cbn [fst snd].
  destruct (ack_route_wired utcnow settings ai message_id request2
              (dependencies.advance d1 w) Hin)
    as (d2 & applied2 & E2 & ->).
  cbn [fst snd dependencies.advance dependencies.db dependencies.ticks] in *.
  pose proof (status_text_terminal (models.ack_status request1)) as Ht.
  rewrite acknowledge_terminal in E1 by assumption.
  injection E1 as <- <-.
  assert (Hnohit : List.filter (OutboxRepository.ack_where message_id)
                               (database.outbox
                                  {| database.conversations :=
                                       database.conversations (dependencies.db w);
                                     database.conversations_seq :=
                                       database.conversations_seq (dependencies.db w);
                                     database.messages :=
                                       database.messages (dependencies.db w);
                                     database.messages_seq :=
                                       database.messages_seq (dependencies.db w);
                                     database.outbox :=
                                       List.map
                                         (fun r =>
                                            if OutboxRepository.ack_where message_id r
                                            then OutboxRepository.ack_set
                                                   (models.status_text
                                                      (models.ack_status request1))
                                                   (if String.eqb
                                                         (models.status_text
                                                            (models.ack_status request1))
                                                         "sent"
                                                    then Some (utcnow (dependencies.ticks w))
                                                    else None) r
                                            else r)
                                         (database.outbox (dependencies.db w));
                                     database.outbox_seq :=
                                       database.outbox_seq (dependencies.db w) |})
                   = []).
  { cbn [database.outbox]. apply no_hit_after, terminal_not_pending, Ht. }
  rewrite (acknowledge_no_hit _ _ _ _ Hin Hnohit) in E2.
  injection E2 as <- <-.
  split; [reflexivity|]. split.
  - destruct (0 <? _)%nat eqn:Hrc.
    + left. split; [reflexivity|]. by apply rowcount_pos.
    + right. split; [reflexivity|].
      assert (Hnone : List.filter (OutboxRepository.ack_where message_id)
                                  (database.outbox (dependencies.db w)) = []).
      { apply Nat.ltb_ge in Hrc. clear Hnohit.
        destruct (List.filter (OutboxRepository.ack_where message_id)
                              (database.outbox (dependencies.db w)));
          [reflexivity|simpl in Hrc; lia]. }
      split.
      * rewrite map_none_hit by assumption. destruct (dependencies.db w);
          reflexivity.
      * intros Hex. apply rowcount_pos in Hex. congruence.
  - split; [reflexivity|]. split; reflexivity.
Qed.

Section DeliveryFacts.
Import database Spec.

Lemma find_or_create_outbox_seq db p now d c :
  ConversationRepository.find_or_create db p now = inr (d, c) ->
  outbox_seq d = outbox_seq db.
Proof.
  unfold ConversationRepository.find_or_create.
  destruct (ConversationRepository.find_by_phone db p) as [c0|] eqn:E.
  - by intros [= <- <-].
  - destruct (insert_spec db p now)
      as [[Hf _] | (_ & d' & -> & _ & _ & _ & _ & _ & Hseq)]; [congruence|].
    by intros [= <- <-].
Qed.

End DeliveryFacts.

(** X26. Delivery end to end, in a database that meets the schema: after
    a successful [process_incoming] the reply is a pending outbox entry
    with a new id; a poll of GET /api/sms/outgoing lists it with the
    sender's number when fewer than ten entries were pending before; and
    acknowledging that id as sent through the route, the id fitting an
    INTEGER as every rowid SQLite hands out does, logs the change, stamps
    the entry with status sent and the clock reading, and brings the
    pending count of the health check back to what it was before the
    message came in. *)
Theorem end_to_end_delivery {P} (utcnow : nat -> string)
        (settings : config.Settings) (ai : sms.AIProvider P)
        (phone_number content : string) (timestamp : option string)
        (w : dependencies.World P) (l : list sms.LogRecord)
        (w' : dependencies.World P) (sent_at : option string)
        (Hschema : Spec.schema_ok (dependencies.db w))
        (Hok : sms.process_incoming
                 (dependencies.get_sms_service utcnow settings ai)
                 phone_number content timestamp w = (true, l, w')) :
  let rowid := database.outbox_seq (dependencies.db w) + 1 in
  let polled := routes.get_outgoing dependencies.outbox_get_pending w' in
  let acked :=
    routes.acknowledge_sent
      rowid {| models.ack_status := models.Sent; models.ack_sent_at := sent_at |}
      (dependencies.get_sms_service utcnow settings ai) w' in
  (forall r, r ∈ database.outbox (dependencies.db w) -> outbox.id r <> rowid)
  /\ ((OutboxRepository.get_pending_count (dependencies.db w) < 10)%nat ->
      exists messages reply,
        polled.1 = inr messages
        /\ {| models.out_id := rowid; models.out_to := phone_number;
              models.out_content := reply;
              models.out_created_at := utcnow (4 + dependencies.ticks w)%nat |}
           ∈ messages)
  /\ (-9223372036854775808 <= rowid <= 9223372036854775807 ->
      acked.1.1 = inr {| models.ok := true |}
      /\ acked.1.2 = [sms.InfoMarked rowid "sent"]
      /\ models.pending_outbox (routes.health_check (dependencies.db acked.2))
         = models.pending_outbox (routes.health_check (dependencies.db w))
      /\ exists entry,
          entry ∈ database.outbox (dependencies.db acked.2)
          /\ outbox.id entry = rowid
          /\ outbox.phone_number entry = phone_number
          /\ outbox.status entry = "sent"
          /\ outbox.sent_at entry = Some (utcnow (dependencies.ticks w'))).
Proof.
  intros rowid polled acked.
  apply wired_success in Hok
    as (d1 & c & d2 & u & reply & p' & d3 & a & E1 & E2 & E3 & E4 & ->).
  pose proof (find_or_create_cases _ _ _ _ _ E1) as (_ & _ & Ho1 & _).
  pose proof (find_or_create_outbox_seq _ _ _ _ _ E1) as Hs1.
  pose proof (create_inv _ _ _ _ _ _ _ _ E2)
    as (_ & _ & _ & _ & _ & _ & _ & _ & Ho2 & Hs2).
  pose proof (create_inv _ _ _ _ _ _ _ _ E4)
    as (_ & _ & _ & _ & _ & _ & _ & _ & Ho3 & Hs3).
  assert (Hschema' :
            Spec.schema_ok
              (ConversationRepository.touch
                 (OutboxRepository.enqueue
                    d3 phone_number reply
                    (utcnow (4 + dependencies.ticks w)%nat)).1
                 (conversation.id c) (utcnow (5 + dependencies.ticks w)%nat))).
  { apply (proj1 (proj2 (conversations_schema_steps _
             (proj1 (outbox_schema_steps d3
                (proj1 (messages_schema_steps d2
                   (proj1 (messages_schema_steps d1
                      (proj1 (conversations_schema_steps _ Hschema) _ _ _ _ E1))
                          _ _ _ _ _ _ _ E2)) _ _ _ _ _ _ _ E4)) _ _ _)))). }
  set (entry := {| outbox.id := rowid; outbox.phone_number := phone_number;
                   outbox.content := reply;
                   outbox.created_at := utcnow (4 + dependencies.ticks w)%nat;
                   outbox.status := "pending"; outbox.sent_at := None |}).
  assert (Hout : database.outbox
                   (ConversationRepository.touch
                      (OutboxRepository.enqueue
                         d3 phone_number reply
                         (utcnow (4 + dependencies.ticks w)%nat)).1
                      (conversation.id c)
                      (utcnow (5 + dependencies.ticks w)%nat))
                 = database.outbox (dependencies.db w) ++ [entry]).
  { cbn [ConversationRepository.touch OutboxRepository.enqueue fst
         database.outbox].
    rewrite Ho3, Ho2, Ho1. unfold entry, rowid. rewrite Hs3, Hs2, Hs1.
    reflexivity. }
  remember (ConversationRepository.touch
              (OutboxRepository.enqueue
                 d3 phone_number reply
                 (utcnow (4 + dependencies.ticks w)%nat)).1
              (conversation.id c) (utcnow (5 + dependencies.ticks w)%nat))
    as dw' eqn:Hdw.
  clear Hdw.
  assert (Hcount : OutboxRepository.get_pending_count dw'
                   = Datatypes.S (OutboxRepository.get_pending_count
                                    (dependencies.db w))).
  { unfold OutboxRepository.get_pending_count. rewrite Hout, filter_app_length.
    cbn. lia. }
  split.
  { destruct Hschema as (_ & _ & _ & _ & Ho & _). intros r Hr.
    apply (ids_ok_fresh outbox.id _ _ r Ho Hr). }
  split.
  { intros Hfew. subst polled.
    unfold routes.get_outgoing, sms.get_outgoing_messages,
      dependencies.outbox_get_pending.
    cbn [dependencies.db fst].
    eexists _, reply. split; [reflexivity|].
    apply list_elem_of_In, in_map_iff. exists entry. split; [reflexivity|].
    apply list_elem_of_In.
    unfold OutboxRepository.get_pending, database.sql_limit.
    cbn [Z.ltb Z.compare]. rewrite take_ge.
    - rewrite merge_sort_Permutation, Hout.
      apply list_elem_of_In, filter_In. split; [|reflexivity].
      apply in_or_app. right. left. reflexivity.
    - rewrite (Permutation_length (merge_sort_Permutation _ _)).
      fold (OutboxRepository.get_pending_count dw'). rewrite Hcount.
      change (Z.to_nat 10) with 10%nat. lia. }
  subst acked. intros Hid%int64_iff.
  destruct (ack_route_wired utcnow settings ai rowid
              {| models.ack_status := models.Sent;
                 models.ack_sent_at := sent_at |}
              {| dependencies.db := dw';
                 dependencies.ticks := (6 + dependencies.ticks w)%nat;
                 dependencies.ai_state := p' |} Hid)
    as (d & applied & Eack & ->).
  cbn [models.status_text models.ack_status dependencies.db dependencies.ticks
       fst snd dependencies.advance] in *.
  rewrite acknowledge_terminal in Eack by (assumption || (left; reflexivity)).
  injection Eack as <- <-.
  assert (Happlied : (0 <? List.length
                              (List.filter (OutboxRepository.ack_where rowid)
                                           (database.outbox dw')))%nat = true).
  { apply rowcount_pos. exists entry. rewrite Hout. split; [|split; reflexivity].
    apply elem_of_app. right. apply list_elem_of_here. }
  rewrite Happlied.
  split; [reflexivity|]. split; [reflexivity|]. split.
  { unfold routes.health_check, OutboxRepository.get_pending_count.
    cbn [models.pending_outbox database.outbox].
    rewrite pending_after_ack by reflexivity.
    pose proof (pending_split rowid (database.outbox dw')) as Hsplit.
    destruct Hschema' as (_ & _ & _ & _ & [Hnd _] & _).
    pose proof (hits_at_most_one rowid _ Hnd) as Hone.
    apply Nat.ltb_lt in Happlied.
    unfold OutboxRepository.get_pending_count in Hcount. lia. }
  exists (OutboxRepository.ack_set
            "sent" (Some (utcnow (6 + dependencies.ticks w)%nat)) entry).
  split; [|repeat split].
  cbn [database.outbox]. apply list_elem_of_In, in_map_iff.
  exists entry. split.
  { unfold OutboxRepository.ack_where, entry. cbn [outbox.id outbox.status].
    rewrite Z.eqb_refl. reflexivity. }
  rewrite Hout. apply in_or_app. right. left. reflexivity.
Qed.

Lemma end_to_end_delivery_witness :
  Spec.schema_ok (dependencies.db Samples.world0)
  /\ Samples.end_to_end = (true, Samples.end_to_end.1.2, Samples.end_to_end.2)
  /\ models.pending_outbox
       (routes.health_check
          (dependencies.db
             (routes.acknowledge_sent
                (database.outbox_seq (dependencies.db Samples.world0) + 1)
                {| models.ack_status := models.Sent;
                   models.ack_sent_at := None |}
                (dependencies.get_sms_service
                   Samples.clock (Samples.settings [] None) Samples.stub_hello)
                Samples.end_to_end.2).2))
     = models.pending_outbox
         (routes.health_check (dependencies.db Samples.world0)).
Proof.
  assert (H : Samples.end_to_end
              = (true, Samples.end_to_end.1.2, Samples.end_to_end.2))
    by (vm_compute; reflexivity).
  split; [exact schema_ok_empty|]. split; [exact H|].
  exact (proj1 (proj2 (proj2
           (proj2 (proj2
              (end_to_end_delivery
                 Samples.clock (Samples.settings [] None) Samples.stub_hello
                 "+15551234567" "hi" None Samples.world0 _ _ None
                 schema_ok_empty H))
              ltac:(cbn; lia))))).
Defined.

(** X27. GET /api/sms/outgoing of the wired service never fails and does
    not consume anything: it answers with min(pending count, 10)
    messages, each the id, number, content and creation time of a pending
    entry, oldest created first, and leaves the database as it is, so the
    next poll answers with the same messages. *)
Theorem get_outgoing_does_not_consume {P} (w : dependencies.World P) :
  let polled := routes.get_outgoing dependencies.outbox_get_pending w in
  exists messages,
    polled.1 = inr messages
    /\ dependencies.db polled.2 = dependencies.db w
    /\ (routes.get_outgoing dependencies.outbox_get_pending polled.2).1
       = inr messages
    /\ List.length messages
       = Nat.min (OutboxRepository.get_pending_count (dependencies.db w)) 10
    /\ (forall m, m ∈ messages ->
          exists r, r ∈ database.outbox (dependencies.db w)
                    /\ outbox.status r = "pending"
                    /\ models.out_id m = outbox.id r
                    /\ models.out_to m = outbox.phone_number r
                    /\ models.out_content m = outbox.content r
                    /\ models.out_created_at m = outbox.created_at r)
    /\ StronglySorted
         (fun a b => database.text_le (models.out_created_at a)
                                      (models.out_created_at b))
         messages.
Proof.
  intros polled. subst polled.
  unfold routes.get_outgoing, sms.get_outgoing_messages,
    dependencies.outbox_get_pending.
  cbn [fst snd dependencies.advance dependencies.db].
  destruct (get_pending_steps (dependencies.db w) 10)
    as (Hlen & Hsorted & Hmem & _).
  cbn zeta in Hlen, Hsorted, Hmem. cbn [Z.ltb Z.compare] in Hlen.
  eexists. split; [reflexivity|]. split; [reflexivity|].
  split; [reflexivity|]. split.
  { rewrite length_map, Hlen. reflexivity. }
  split.
  { intros m Hm. apply list_elem_of_In, in_map_iff in Hm as (r & <- & Hr).
    apply list_elem_of_In, Hmem in Hr as [Hin Hst].
    exists r. repeat split; assumption. }
  eapply StronglySorted_fmap; [|exact Hsorted].
  intros x y Hxy. exact Hxy.
Qed.

(** ** Conversation store: the listing *)

Section ListingFacts.
Import database conversation ConversationRepository Spec.

#[local] Instance updated_at_desc_total : Total updated_at_desc.
Proof.
  intros a b. unfold updated_at_desc, text_le.
  destruct (String.leb_total (updated_at a) (updated_at b)); auto.
Qed.

#[local] Instance updated_at_desc_trans : Transitive updated_at_desc.
Proof.
  intros a b c Hab Hbc. unfold updated_at_desc, text_le in *.
  eapply string_leb_trans; eassumption.
Qed.

Lemma order_by_updated_at_sorted (rows : list Conversation) :
  StronglySorted updated_at_desc (merge_sort updated_at_desc rows).
Proof. apply StronglySorted_merge_sort; apply _. Qed.

Lemma text_le_refl (a : string) : text_le a a.
Proof. unfold text_le. destruct (String.leb_total a a); assumption. Qed.

Lemma latest_message_spec db cid :
  match latest_message db cid with
  | None => MessageRepository.of_conversation db cid = []
  | Some m =>
      m ∈ MessageRepository.of_conversation db cid
      /\ forall x, x ∈ MessageRepository.of_conversation db cid ->
                   text_le (message.timestamp x) (message.timestamp m)
  end.
Proof.
  change (latest_message db cid)
    with (head (merge_sort MessageRepository.timestamp_desc
                           (MessageRepository.of_conversation db cid))).
  pose proof (order_by_timestamp_desc_sorted
                (MessageRepository.of_conversation db cid)) as Hsorted.
  pose proof (merge_sort_Permutation
                MessageRepository.timestamp_desc
                (MessageRepository.of_conversation db cid)) as Hperm.
  destruct (merge_sort _ _) as [|m tl]; cbn [head].
  - by apply Permutation_nil_l in Hperm.
  - split; [rewrite <- Hperm; apply list_elem_of_here|].
    intros x Hx. rewrite <- Hperm in Hx.
    apply elem_of_cons in Hx as [->|Hx]; [apply text_le_refl|].
    apply StronglySorted_cons in Hsorted as [Hall _].
    rewrite Forall_forall in Hall. exact (Hall x Hx).
Qed.

Lemma StronglySorted_page {A} (R : relation A) (l : list A) (limit offset : Z) :
  StronglySorted R l -> StronglySorted R (sql_limit_offset limit offset l).
Proof.
  intros H. unfold sql_limit_offset, sql_limit.
  rewrite <- (take_drop (Z.to_nat offset) l) in H.
  apply StronglySorted_app_1_r in H.
  destruct (limit <? 0); [exact H|].
  rewrite <- (take_drop (Z.to_nat limit) (drop (Z.to_nat offset) l)) in H.
  by apply StronglySorted_app_1_l in H.
Qed.

Lemma page_elem {A} (l : list A) (limit offset : Z) x :
  x ∈ sql_limit_offset limit offset l -> x ∈ l.
Proof.
  unfold sql_limit_offset, sql_limit. intros Hx.
  assert (Hd : x ∈ drop (Z.to_nat offset) l).
  { destruct (limit <? 0); [exact Hx|].
    rewrite <- (take_drop (Z.to_nat limit) (drop (Z.to_nat offset) l)).
    apply elem_of_app. by left. }
  rewrite <- (take_drop (Z.to_nat offset) l). apply elem_of_app. by right.
Qed.

End ListingFacts.

(** X28. [list_all] returns the number of all conversations as the
    total, whatever the page.  The page holds the conversations from
    [offset] on, at most [limit] of them (all of them for a negative
    limit), most recently updated first.  Each summary belongs to a
    stored conversation; its last message is absent exactly when the
    conversation has no message, and otherwise is a message of that
    conversation no older than any other. *)
Theorem list_all_page (db : database.DB) (limit offset : Z) :
  let summaries := (ConversationRepository.list_all db limit offset).1 in
  let total := (ConversationRepository.list_all db limit offset).2 in
  total = List.length (database.conversations db)
  /\ List.length summaries
     = (if limit <? 0 then Nat.sub total (Z.to_nat offset)
        else Nat.min (Z.to_nat limit) (Nat.sub total (Z.to_nat offset)))
  /\ StronglySorted
       (fun a b => database.text_le
                     (ConversationRepository.summary_updated_at b)
                     (ConversationRepository.summary_updated_at a))
       summaries
  /\ forall s, s ∈ summaries ->
       exists c,
         c ∈ database.conversations db
         /\ ConversationRepository.summary_id s = conversation.id c
         /\ ConversationRepository.summary_phone_number s
            = conversation.phone_number c
         /\ ConversationRepository.summary_updated_at s
            = conversation.updated_at c
         /\ (ConversationRepository.last_message s = None <->
             MessageRepository.of_conversation db (conversation.id c) = [])
         /\ forall text,
             ConversationRepository.last_message s = Some text ->
             exists m,
               m ∈ MessageRepository.of_conversation db (conversation.id c)
               /\ message.content m = text
               /\ ConversationRepository.last_message_role s
                  = Some (message.role m)
               /\ forall x,
                   x ∈ MessageRepository.of_conversation db (conversation.id c) ->
                   database.text_le (message.timestamp x) (message.timestamp m).
Proof.
  intros summaries total. subst summaries total.
  cbn [fst snd ConversationRepository.list_all].
  split; [reflexivity|]. split.
  { rewrite length_map. unfold ConversationRepository.sql_limit_offset,
      database.sql_limit.
    destruct (limit <? 0).
    - rewrite length_drop, (Permutation_length (merge_sort_Permutation _ _)).
      reflexivity.
    - rewrite length_take, length_drop,
        (Permutation_length (merge_sort_Permutation _ _)).
      reflexivity. }
  split.
  { eapply StronglySorted_fmap;
      [|apply StronglySorted_page, order_by_updated_at_sorted].
    intros x y Hxy. exact Hxy. }
  intros s Hs. apply list_elem_of_In, in_map_iff in Hs as (c & <- & Hc).
  apply list_elem_of_In, page_elem in Hc. rewrite merge_sort_Permutation in Hc.
  exists c. split; [exact Hc|]. do 3 (split; [reflexivity|]).
  cbn [ConversationRepository.summarize ConversationRepository.last_message
       ConversationRepository.last_message_role].
  pose proof (latest_message_spec db (conversation.id c)) as Hlatest.
  destruct (ConversationRepository.latest_message db (conversation.id c))
    as [m|]; cbn [fmap option_fmap option_map].
  - destruct Hlatest as [Hm Hmax]. split.
    + split; [discriminate|]. intros E. rewrite E in Hm.
      by apply elem_of_nil in Hm.
    + intros text [= <-]. exists m. auto.
  - split; [tauto|discriminate].
Qed.

Section TouchFacts.
Import database conversation ConversationRepository Spec.

Lemma sorted_updated_head (rows : list Conversation) (m : Conversation) :
  m ∈ rows ->
  (forall x, x ∈ rows -> x = m \/ String.ltb (updated_at x) (updated_at m) = true) ->
  exists tl, merge_sort updated_at_desc rows = m :: tl.
Proof.
  intros Hm Hlater.
  pose proof (order_by_updated_at_sorted rows) as Hsorted.
  pose proof (merge_sort_Permutation updated_at_desc rows) as Hperm.
  destruct (merge_sort updated_at_desc rows) as [|h tl].
  - rewrite <- Hperm in Hm. by apply elem_of_nil in Hm.
  - exists tl. f_equal.
    assert (Hh : h ∈ rows) by (rewrite <- Hperm; apply list_elem_of_here).
    destruct (Hlater h Hh) as [->|Hlt]; [reflexivity|].
    exfalso. rewrite <- Hperm in Hm.
    apply elem_of_cons in Hm as [->|Hm].
    + exact (text_lt_not_ge _ _ Hlt (text_le_refl _)).
    + apply StronglySorted_cons in Hsorted as [Hall _].
      rewrite Forall_forall in Hall. specialize (Hall m Hm).
      exact (text_lt_not_ge _ _ Hlt Hall).
Qed.

End TouchFacts.

(** X29. [touch] moves a conversation to the top of the listing: in a
    database that meets the schema, after touching a stored conversation
    with a clock reading later than every update time, the first summary
    of [list_all] (first page, any limit other than zero) is that
    conversation, stamped with the reading. *)
Theorem touch_moves_to_top
        (db : database.DB) (conversation_id limit : Z) (now : string)
        (c : conversation.Conversation)
        (Hschema : Spec.schema_ok db)
        (Hc : c ∈ database.conversations db)
        (Hid : conversation.id c = conversation_id)
        (Hlater : forall x, x ∈ database.conversations db ->
                            String.ltb (conversation.updated_at x) now = true)
        (Hlimit : limit <> 0) :
  exists s,
    head (ConversationRepository.list_all
            (ConversationRepository.touch db conversation_id now) limit 0).1
    = Some s
    /\ ConversationRepository.summary_id s = conversation_id
    /\ ConversationRepository.summary_phone_number s
       = conversation.phone_number c
    /\ ConversationRepository.summary_updated_at s = now.
Proof.
  set (c' := {| conversation.id := conversation.id c;
                conversation.phone_number := conversation.phone_number c;
                conversation.created_at := conversation.created_at c;
                conversation.updated_at := now |}).
  destruct Hschema as ([Hnd _] & _).
  destruct (sorted_updated_head
              (database.conversations
                 (ConversationRepository.touch db conversation_id now)) c')
    as [tl Hsorted].
  { cbn [ConversationRepository.touch database.conversations].
    apply list_elem_of_In, in_map_iff. exists c.
    split; [|by apply list_elem_of_In].
    destruct (Z.eqb_spec (conversation.id c) conversation_id);
      [reflexivity|congruence]. }
  { intros x Hx.
    cbn [ConversationRepository.touch database.conversations] in Hx.
    apply list_elem_of_In, in_map_iff in Hx as (y & <- & Hy).
    apply list_elem_of_In in Hy.
    destruct (Z.eqb_spec (conversation.id y) conversation_id) as [Hy_id|_].
    - left.
      assert (y = c).
      { apply (NoDup_map_eq conversation.id (database.conversations db));
          [exact Hnd|exact Hy|exact Hc|congruence]. }
      subst y. reflexivity.
    - right. cbn. by apply Hlater. }
  exists (ConversationRepository.summarize
            (ConversationRepository.touch db conversation_id now) c').
  split; [|split; [exact Hid|split; reflexivity]].
  cbn [fst ConversationRepository.list_all].
  rewrite Hsorted.
  unfold ConversationRepository.sql_limit_offset, database.sql_limit.
  cbn [Z.to_nat drop].
  destruct (Z.ltb_spec limit 0); [reflexivity|].
  destruct (Z.to_nat limit) as [|n] eqn:E; [lia|]. reflexivity.
Qed.

Lemma touch_moves_to_top_witness :
  let c := {| conversation.id := 1;
              conversation.phone_number := "+15551234567";
              conversation.created_at := "2024-01-01T00:00:00";
              conversation.updated_at := "2024-01-01T00:00:00" |} in
  Spec.schema_ok Samples.db1
  /\ c ∈ database.conversations Samples.db1
  /\ (forall x, x ∈ database.conversations Samples.db1 ->
                String.ltb (conversation.updated_at x) "2024-01-02T00:00:00"
                = true)
  /\ exists s,
      head (ConversationRepository.list_all
              (ConversationRepository.touch Samples.db1 1 "2024-01-02T00:00:00")
              50 0).1 = Some s
      /\ ConversationRepository.summary_id s = 1.
Proof.
  intros c.
  assert (H1 : Spec.schema_ok Samples.db1).
  { apply (proj1 (conversations_schema_steps database.empty schema_ok_empty)
                 "+15551234567" "2024-01-01T00:00:00" _ c).
    reflexivity. }
  assert (H2 : c ∈ database.conversations Samples.db1)
    by apply list_elem_of_here.
  assert (H3 : forall x, x ∈ database.conversations Samples.db1 ->
                         String.ltb (conversation.updated_at x)
                                    "2024-01-02T00:00:00" = true).
  { intros x Hx. vm_compute in Hx.
    apply elem_of_cons in Hx as [->|Hx]; [reflexivity|].
    by apply elem_of_nil in Hx. }
  split; [exact H1|]. split; [exact H2|]. split; [exact H3|].
  destruct (touch_moves_to_top Samples.db1 1 50 "2024-01-02T00:00:00" c
                               H1 H2 eq_refl H3 ltac:(discriminate))
    as (s & Hs & Hid & _).
  exists s. split; assumption.
Defined.
